(** * The capture controller of the photo booth (src/components/photo-shoot.tsx)

    A shallow embedding of the [PhotoShoot] React component: its state
    variables, its event handlers, its effects and the timers it arms, followed
    by the properties of the capture state machine.

    Conventions of the embedding.
    - A [Render] holds the values one render of the component sees: every
      [useState] variable and the two props read by the logic.  A handler or an
      effect is a JavaScript closure created by one render, so each of them is
      a function of the render [env] it closes over; what it reads as a plain
      variable comes from [env].
    - A state setter called with a function ([setX(prev => ...)]) acts on the
      pending state, a setter called with a value overwrites it; both are the
      same update function here, applied in program order to the pending state.
    - Refs ([useRef]) and timers ([setTimeout]) are not part of a render; they
      live in the [Machine], next to the pending state. *)

From Stdlib Require Import ZArith List String Bool Lia PeanoNat.
Import ListNotations.

Local Open Scope string_scope.
Local Open Scope list_scope.
Local Open Scope Z_scope.

(* ===================================================================== *)
(** ** Data model *)
(* ===================================================================== *)

(** The filter knobs, each a percentage ([DEFAULT_FILTERS] has this shape). *)
Record FilterSettings := mkFilters {
  brightness : Z;
  contrast : Z;
  grayscale : Z;
  sepia : Z;
  saturate : Z
}.

(** The values of [@/constants] the component imports.  That module is not
    part of the sources at hand, so every definition below takes the constants
    as a parameter.  [MAX_CAPTURE] is a count; [FILTER_CONTROLS] is kept by the
    identifiers of its entries, the only part the logic reads. *)
Record Constants := mkConstants {
  DEFAULT_FILTERS : FilterSettings;
  FILTER_CONTROLS : list string;
  MAX_CAPTURE : nat;
  TIMER_OPTIONS : list Z;
  DEFAULT_TIMER_INDEX : nat
}.

(** What one render sees.  [capturedImages] and [canProceedToLayout] are props,
    the other fields are the [useState] variables, under the source's names.
    [countdown] is [number | null]: [None] is [null]. *)
Record Render := mkRender {
  capturedImages : list string;
  canProceedToLayout : bool;
  filters : FilterSettings;
  isMirrored : bool;
  isCameraStarted : bool;
  cameraError : option string;
  activeFilters : list string;
  isCapturing : bool;
  isAutoModeEnabled : bool;
  isAutoSequenceActive : bool;
  selectedTimerIndex : nat;
  countdown : option Z
}.

(** *** State setters *)

Definition setCapturedImages (f : list string -> list string) (s : Render) : Render :=
  mkRender (f (capturedImages s)) (canProceedToLayout s) (filters s)
    (isMirrored s) (isCameraStarted s) (cameraError s) (activeFilters s)
    (isCapturing s) (isAutoModeEnabled s) (isAutoSequenceActive s)
    (selectedTimerIndex s) (countdown s).

Definition setCanProceedToLayout (b : bool) (s : Render) : Render :=
  mkRender (capturedImages s) b (filters s)
    (isMirrored s) (isCameraStarted s) (cameraError s) (activeFilters s)
    (isCapturing s) (isAutoModeEnabled s) (isAutoSequenceActive s)
    (selectedTimerIndex s) (countdown s).

Definition setFilters (f : FilterSettings -> FilterSettings) (s : Render) : Render :=
  mkRender (capturedImages s) (canProceedToLayout s) (f (filters s))
    (isMirrored s) (isCameraStarted s) (cameraError s) (activeFilters s)
    (isCapturing s) (isAutoModeEnabled s) (isAutoSequenceActive s)
    (selectedTimerIndex s) (countdown s).

Definition setIsMirrored (f : bool -> bool) (s : Render) : Render :=
  mkRender (capturedImages s) (canProceedToLayout s) (filters s)
    (f (isMirrored s)) (isCameraStarted s) (cameraError s) (activeFilters s)
    (isCapturing s) (isAutoModeEnabled s) (isAutoSequenceActive s)
    (selectedTimerIndex s) (countdown s).

Definition setIsCameraStarted (b : bool) (s : Render) : Render :=
  mkRender (capturedImages s) (canProceedToLayout s) (filters s)
    (isMirrored s) b (cameraError s) (activeFilters s)
    (isCapturing s) (isAutoModeEnabled s) (isAutoSequenceActive s)
    (selectedTimerIndex s) (countdown s).

Definition setCameraError (e : option string) (s : Render) : Render :=
  mkRender (capturedImages s) (canProceedToLayout s) (filters s)
    (isMirrored s) (isCameraStarted s) e (activeFilters s)
    (isCapturing s) (isAutoModeEnabled s) (isAutoSequenceActive s)
    (selectedTimerIndex s) (countdown s).

Definition setActiveFilters (f : list string -> list string) (s : Render) : Render :=
  mkRender (capturedImages s) (canProceedToLayout s) (filters s)
    (isMirrored s) (isCameraStarted s) (cameraError s) (f (activeFilters s))
    (isCapturing s) (isAutoModeEnabled s) (isAutoSequenceActive s)
    (selectedTimerIndex s) (countdown s).

Definition setIsCapturing (b : bool) (s : Render) : Render :=
  mkRender (capturedImages s) (canProceedToLayout s) (filters s)
    (isMirrored s) (isCameraStarted s) (cameraError s) (activeFilters s)
    b (isAutoModeEnabled s) (isAutoSequenceActive s)
    (selectedTimerIndex s) (countdown s).

Definition setIsAutoModeEnabled (f : bool -> bool) (s : Render) : Render :=
  mkRender (capturedImages s) (canProceedToLayout s) (filters s)
    (isMirrored s) (isCameraStarted s) (cameraError s) (activeFilters s)
    (isCapturing s) (f (isAutoModeEnabled s)) (isAutoSequenceActive s)
    (selectedTimerIndex s) (countdown s).

Definition setIsAutoSequenceActive (b : bool) (s : Render) : Render :=
  mkRender (capturedImages s) (canProceedToLayout s) (filters s)
    (isMirrored s) (isCameraStarted s) (cameraError s) (activeFilters s)
    (isCapturing s) (isAutoModeEnabled s) b
    (selectedTimerIndex s) (countdown s).

Definition setSelectedTimerIndex (f : nat -> nat) (s : Render) : Render :=
  mkRender (capturedImages s) (canProceedToLayout s) (filters s)
    (isMirrored s) (isCameraStarted s) (cameraError s) (activeFilters s)
    (isCapturing s) (isAutoModeEnabled s) (isAutoSequenceActive s)
    (f (selectedTimerIndex s)) (countdown s).

Definition setCountdown (f : option Z -> option Z) (s : Render) : Render :=
  mkRender (capturedImages s) (canProceedToLayout s) (filters s)
    (isMirrored s) (isCameraStarted s) (cameraError s) (activeFilters s)
    (isCapturing s) (isAutoModeEnabled s) (isAutoSequenceActive s)
    (selectedTimerIndex s) (f (countdown s)).

(** *** JavaScript array helpers on identifier lists *)

(** [prev.includes(id)] *)
Definition includes (id : string) (l : list string) : bool :=
  existsb (String.eqb id) l.

(** [prev.filter((f) => f !== id)] *)
Definition without (id : string) (l : list string) : list string :=
  filter (fun f => negb (String.eqb f id)) l.

(** [prev.filter((f) => f !== "sepia" && f !== "grayscale")] *)
Definition withoutTone (l : list string) : list string :=
  filter (fun f => negb (String.eqb f "sepia") && negb (String.eqb f "grayscale")) l.

(** [x !== null] on a [number | null] *)
Definition notNull (c : option Z) : bool :=
  match c with Some _ => true | None => false end.

(** [!xs.length] *)
Definition isEmpty (l : list string) : bool :=
  match l with [] => true | _ :: _ => false end.

(* ===================================================================== *)
(** ** Handlers that only touch React state *)
(* ===================================================================== *)

Section Handlers.

Variable K : Constants.

(** *** Values derived in the body of a render (lines 55-57 and 138-152) *)

Definition filterDisabled (env : Render) : bool := negb (isCameraStarted env).

Definition isMaxCaptureReached (env : Render) : bool :=
  (MAX_CAPTURE K <=? List.length (capturedImages env))%nat.

(** [TIMER_OPTIONS[selectedTimerIndex]].  The index stays below the length of
    [TIMER_OPTIONS] in every reachable state when [DEFAULT_TIMER_INDEX] is
    (see [reachable_index_in_range]); the default of [nth] is never read then. *)
Definition selectedTimer (env : Render) : Z :=
  nth (selectedTimerIndex env) (TIMER_OPTIONS K) 0.

Definition undoDisabled (env : Render) : bool :=
  isEmpty (capturedImages env) || isAutoSequenceActive env || notNull (countdown env).

Definition timerDisabled (env : Render) : bool :=
  negb (isCameraStarted env) || isAutoSequenceActive env || notNull (countdown env).

Definition captureDisabled (env : Render) : bool :=
  negb (canProceedToLayout env) &&
  (negb (isCameraStarted env) || isMaxCaptureReached env || isCapturing env).

Definition autoDisabled (env : Render) : bool :=
  negb (isCameraStarted env) || isMaxCaptureReached env || isCapturing env
  || notNull (countdown env) || isAutoSequenceActive env.

Definition resetDisabled (env : Render) : bool :=
  isEmpty (capturedImages env) || isAutoSequenceActive env || notNull (countdown env).

(** *** The handlers *)

(** [cycleTimer], lines 59-62. *)
Definition cycleTimer (env : Render) (s : Render) : Render :=
  if timerDisabled env then s
  else setSelectedTimerIndex
         (fun prev => Nat.modulo (prev + 1) (List.length (TIMER_OPTIONS K))) s.

(** [undoCapture], lines 155-160; [prev.slice(0, -1)] is [removelast prev]. *)
Definition undoCapture (env : Render) (s : Render) : Render :=
  if undoDisabled env then s
  else if negb (isEmpty (capturedImages env))
       then setCapturedImages (fun prev => removelast prev) s
       else s.

(** [stopAutoSequence], lines 256-259. *)
Definition stopAutoSequence (s : Render) : Render :=
  setCountdown (fun _ => None) (setIsAutoSequenceActive false s).

(** [resetCaptures], lines 163-167. *)
Definition resetCaptures (env : Render) (s : Render) : Render :=
  if resetDisabled env then s
  else stopAutoSequence (setCapturedImages (fun _ => []) s).

(** [resetFilters], lines 170-174. *)
Definition resetFilters (env : Render) (s : Render) : Render :=
  if resetDisabled env then s
  else setActiveFilters (fun _ => ["mirror"])
         (setFilters (fun _ => DEFAULT_FILTERS K) s).

(** [prev.includes(id) ? prev.filter((f) => f !== id) : [...prev, id]] *)
Definition flipActive (id : string) (prev : list string) : list string :=
  if includes id prev then without id prev else prev ++ [id].

(** The grayscale and sepia branches: both identifiers are filtered out, and
    [id] is appended when [prev] did not hold it. *)
Definition flipTone (id : string) (prev : list string) : list string :=
  if includes id prev then withoutTone prev else withoutTone prev ++ [id].

(** [toggleFilter], lines 177-244.  An identifier that is none of the six
    leaves the state as it is. *)
Definition toggleFilter (id : string) (env : Render) (s : Render) : Render :=
  if filterDisabled env then s
  else if String.eqb id "mirror" then
    setActiveFilters (flipActive "mirror") (setIsMirrored negb s)
  else if String.eqb id "grayscale" then
    setActiveFilters (flipTone "grayscale")
      (setFilters (fun prev =>
         mkFilters (brightness prev) (contrast prev)
                   (if grayscale prev =? 0 then 100 else 0) 0
                   (saturate prev)) s)
  else if String.eqb id "sepia" then
    setActiveFilters (flipTone "sepia")
      (setFilters (fun prev =>
         mkFilters (brightness prev) (contrast prev)
                   0 (if sepia prev =? 0 then 100 else 0)
                   (saturate prev)) s)
  else if String.eqb id "brightness" then
    setActiveFilters (flipActive "brightness")
      (setFilters (fun prev =>
         mkFilters (if brightness prev =? 100 then 130 else 100) (contrast prev)
                   (grayscale prev) (sepia prev) (saturate prev)) s)
  else if String.eqb id "contrast" then
    setActiveFilters (flipActive "contrast")
      (setFilters (fun prev =>
         mkFilters (brightness prev) (if contrast prev =? 100 then 130 else 100)
                   (grayscale prev) (sepia prev) (saturate prev)) s)
  else if String.eqb id "saturate" then
    setActiveFilters (flipActive "saturate")
      (setFilters (fun prev =>
         mkFilters (brightness prev) (contrast prev)
                   (grayscale prev) (sepia prev)
                   (if saturate prev =? 100 then 150 else 100)) s)
  else s.

(** [startCapture], lines 247-254. *)
Definition startCapture (env : Render) (s : Render) : Render :=
  if isMaxCaptureReached env then s
  else
    let s1 := setCountdown (fun _ => Some (selectedTimer env)) s in
    if isAutoModeEnabled env then setIsAutoSequenceActive true s1 else s1.

(** [toggleAutoMode], lines 261-267. *)
Definition toggleAutoMode (env : Render) (s : Render) : Render :=
  if autoDisabled env then s
  else
    let s1 := setIsAutoModeEnabled negb s in
    if isAutoSequenceActive env then stopAutoSequence s1 else s1.

End Handlers.

(* ===================================================================== *)
(** ** Refs, timers and the effects *)
(* ===================================================================== *)

(** What a [setTimeout] callback of the component does when it runs.
    - [TickDown] is the countdown effect's
      [setCountdown((prev) => (prev !== null ? prev - 1 : null))];
    - [Reseed t] is the callback armed by [scheduleNextAutoCapture]:
      [hasCapturedRef.current = false; setCountdown(selectedTimer)], with the
      [selectedTimer] of the render that armed it. *)
Inductive Callback :=
| TickDown
| Reseed (t : Z).

Record Timeout := mkTimeout {
  delay_ms : Z;
  callback : Callback
}.

(** What the hidden canvas answers during one capture: whether
    [getContext("2d")] gives a context, and the PNG data URL that [toDataURL]
    returns for the frame drawn. *)
Record Canvas := mkCanvas {
  context2d : bool;
  dataURL : string
}.

(** The component between two events.  The strip is a prop, but nothing else
    than this component writes to it: the parent is taken to keep it in a
    state variable of its own and to hand down the setter.
    - [st]: the pending React state (and props);
    - [rendered]: the last render committed; handlers attached to the buttons
      and the bodies of the effects are closures of this render;
    - [kbd]: the render whose closures the registered [keydown] listener
      holds (the listener is replaced only when a dependency of its effect
      changes);
    - [hasCapturedRef], [videoRef], [canvasRef]: the refs ([videoRef] and
      [canvasRef] by whether [.current] is set);
    - [timers]: the pending timeouts, oldest first (all delays are equal, so
      they expire in the order they were armed);
    - [cameraRequests]: calls of [getUserMedia] not yet settled. *)
Record Machine := mkMachine {
  st : Render;
  rendered : Render;
  kbd : Render;
  hasCapturedRef : bool;
  videoRef : bool;
  canvasRef : bool;
  timers : list Timeout;
  cameraRequests : nat
}.

Definition onSt (f : Render -> Render) (m : Machine) : Machine :=
  mkMachine (f (st m)) (rendered m) (kbd m) (hasCapturedRef m)
            (videoRef m) (canvasRef m) (timers m) (cameraRequests m).

Definition setHasCapturedRef (b : bool) (m : Machine) : Machine :=
  mkMachine (st m) (rendered m) (kbd m) b
            (videoRef m) (canvasRef m) (timers m) (cameraRequests m).

Definition setTimers (f : list Timeout -> list Timeout) (m : Machine) : Machine :=
  mkMachine (st m) (rendered m) (kbd m) (hasCapturedRef m)
            (videoRef m) (canvasRef m) (f (timers m)) (cameraRequests m).

Definition setKbd (r : Render) (m : Machine) : Machine :=
  mkMachine (st m) (rendered m) r (hasCapturedRef m)
            (videoRef m) (canvasRef m) (timers m) (cameraRequests m).

Definition setCameraRequests (f : nat -> nat) (m : Machine) : Machine :=
  mkMachine (st m) (rendered m) (kbd m) (hasCapturedRef m)
            (videoRef m) (canvasRef m) (timers m) (f (cameraRequests m)).

(** [setTimeout(cb, ms)] *)
Definition setTimeout (cb : Callback) (ms : Z) (m : Machine) : Machine :=
  setTimers (fun q => q ++ [mkTimeout ms cb]) m.

Definition isTick (t : Timeout) : bool :=
  match callback t with TickDown => true | Reseed _ => false end.

(** [clearTimeout(timerId)] of the countdown effect's cleanup: the tick it
    armed, if still pending, is dropped (at most one tick is pending). *)
Definition clearTick (m : Machine) : Machine :=
  setTimers (filter (fun t => negb (isTick t))) m.

Section Effects.

Variable K : Constants.

(** [scheduleNextAutoCapture], lines 291-301. *)
Definition scheduleNextAutoCapture (env : Render) (m : Machine) : Machine :=
  if isAutoModeEnabled env
     && (Z.of_nat (List.length (capturedImages env)) <? Z.of_nat (MAX_CAPTURE K) - 1)
  then setTimeout (Reseed (selectedTimer K env)) 1000 m
  else onSt (setCountdown (fun _ => None))
            (onSt (setIsAutoSequenceActive false) m).

(** [captureImage], lines 100-135.  The drawing on the canvas is left to [cv];
    what remains is the guard, the [isCapturing] flag, the append and the
    scheduling. *)
Definition captureImage (cv : Canvas) (env : Render) (m : Machine) : Machine :=
  if negb (isCameraStarted env) || negb (videoRef m) || negb (canvasRef m)
     || isMaxCaptureReached K env || isCapturing env
  then m
  else
    let m1 := onSt (setIsCapturing true) m in
    if negb (context2d cv) then onSt (setIsCapturing false) m1
    else
      let m2 := onSt (setCapturedImages (fun prev => prev ++ [dataURL cv])) m1 in
      let m3 := onSt (setIsCapturing false) m2 in
      scheduleNextAutoCapture env m3.

(** Running a timeout's callback. *)
Definition runCallback (cb : Callback) (m : Machine) : Machine :=
  match cb with
  | TickDown =>
      onSt (setCountdown (fun prev =>
              match prev with Some p => Some (p - 1) | None => None end)) m
  | Reseed t =>
      onSt (setCountdown (fun _ => Some t)) (setHasCapturedRef false m)
  end.

(** *** Effect bodies, each a closure of the render [env] being committed *)

(** The camera effect, lines 65-86: [startCamera] returns at once when the
    camera has started, and otherwise asks for the stream. *)
Definition effectCamera (env : Render) (m : Machine) : Machine :=
  if isCameraStarted env then m else setCameraRequests S m.

(** The effect that stops the auto sequence at the quota, lines 89-97 (its
    scrolling of the strip touches the DOM only). *)
Definition effectMaxCapture (env : Render) (m : Machine) : Machine :=
  if isMaxCaptureReached K env && isAutoSequenceActive env
  then onSt stopAutoSequence m
  else m.

(** The countdown effect, lines 273-288.  Its cleanup is [clearTick], run by
    [commit] before the body. *)
Definition effectCountdown (cv : Canvas) (env : Render) (m : Machine) : Machine :=
  match countdown env with
  | None => setHasCapturedRef false m
  | Some c =>
      if 0 <? c then setTimeout TickDown 1000 (setHasCapturedRef false m)
      else if (c =? 0) && negb (hasCapturedRef m)
           then captureImage cv env (setHasCapturedRef true m)
           else m
  end.

(** The keyboard effect, lines 304-352: the listener is replaced by the one of
    [env]. *)
Definition effectKeyboard (env : Render) (m : Machine) : Machine :=
  setKbd env m.

(** The [keydown] listener of render [env]; [typing] tells whether the focus is
    in an [INPUT] or a [TEXTAREA].  [goToLayoutScreen] belongs to the parent and
    leaves this component's state alone. *)
Definition handleKeyDown (key : string) (typing : bool) (env : Render) (s : Render) : Render :=
  if typing then s
  else if String.eqb key " " || String.eqb key "Enter" then
    if canProceedToLayout env then s
    else if isAutoSequenceActive env then stopAutoSequence s
    else match countdown env with
         | None => startCapture K env s
         | Some _ => setCountdown (fun _ => None) s
         end
  else if String.eqb key "Backspace" || String.eqb key "Delete" then undoCapture env s
  else if String.eqb key "Escape" then resetCaptures env s
  else if String.eqb key "a" then toggleAutoMode K env s
  else s.

(** The [onClick] of the main button, lines 490-498, chosen by the render
    [env]. *)
Definition mainButton (env : Render) (s : Render) : Render :=
  if canProceedToLayout env then s
  else if isAutoSequenceActive env then stopAutoSequence s
  else match countdown env with
       | None => startCapture K env s
       | Some _ => setCountdown (fun _ => None) s
       end.

(** *** Dependency arrays *)

Definition optZ_eqb (a b : option Z) : bool :=
  match a, b with
  | Some x, Some y => x =? y
  | None, None => true
  | _, _ => false
  end.

Fixpoint strings_eqb (a b : list string) : bool :=
  match a, b with
  | [], [] => true
  | x :: a', y :: b' => String.eqb x y && strings_eqb a' b'
  | _, _ => false
  end.

Definition filters_eqb (a b : FilterSettings) : bool :=
  (brightness a =? brightness b) && (contrast a =? contrast b)
  && (grayscale a =? grayscale b) && (sepia a =? sepia b)
  && (saturate a =? saturate b).

(** [[isCameraStarted, t]]; the translation function [t] does not change. *)
Definition sameCameraDeps (a b : Render) : bool :=
  Bool.eqb (isCameraStarted a) (isCameraStarted b).

(** [[capturedImages.length, isMaxCaptureReached, isAutoSequenceActive]] *)
Definition sameMaxCaptureDeps (a b : Render) : bool :=
  Nat.eqb (List.length (capturedImages a)) (List.length (capturedImages b))
  && Bool.eqb (isMaxCaptureReached K a) (isMaxCaptureReached K b)
  && Bool.eqb (isAutoSequenceActive a) (isAutoSequenceActive b).

(** [[countdown]] *)
Definition sameCountdownDeps (a b : Render) : bool :=
  optZ_eqb (countdown a) (countdown b).

(** [[capturedImages, isCameraStarted, filters, isMirrored, isCapturing,
    isAutoSequenceActive, countdown, canProceedToLayout, goToLayoutScreen]].
    The two objects in the list are compared by their contents here; a change
    of identity alone (and of [goToLayoutScreen]) is the event
    [KeyboardRebind] below.  [isAutoModeEnabled] and [selectedTimerIndex] are
    not dependencies. *)
Definition sameKeyboardDeps (a b : Render) : bool :=
  strings_eqb (capturedImages a) (capturedImages b)
  && Bool.eqb (isCameraStarted a) (isCameraStarted b)
  && filters_eqb (filters a) (filters b)
  && Bool.eqb (isMirrored a) (isMirrored b)
  && Bool.eqb (isCapturing a) (isCapturing b)
  && Bool.eqb (isAutoSequenceActive a) (isAutoSequenceActive b)
  && optZ_eqb (countdown a) (countdown b)
  && Bool.eqb (canProceedToLayout a) (canProceedToLayout b).

(** *** Committing a render *)

Definition isNone (e : option string) : bool :=
  match e with None => true | Some _ => false end.

(** The pending state becomes the render on screen: the [<video>] element is
    mounted unless the error message replaces it, the canvas always is; then
    the effects whose dependencies differ from the previous render run in the
    order of the source, all as closures of the new render. *)
Definition commit (cv : Canvas) (m : Machine) : Machine :=
  let prev := rendered m in
  let now := st m in
  let m0 := mkMachine now now (kbd m) (hasCapturedRef m)
                      (isNone (cameraError now)) true
                      (timers m) (cameraRequests m) in
  let m1 := if sameCameraDeps prev now then m0 else effectCamera now m0 in
  let m2 := if sameMaxCaptureDeps prev now then m1 else effectMaxCapture now m1 in
  let m3 := if sameCountdownDeps prev now then m2
            else effectCountdown cv now (clearTick m2) in
  if sameKeyboardDeps prev now then m3 else effectKeyboard now m3.

Definition quiescentb (m : Machine) : bool :=
  strings_eqb (capturedImages (st m)) (capturedImages (rendered m))
  && Bool.eqb (canProceedToLayout (st m)) (canProceedToLayout (rendered m))
  && filters_eqb (filters (st m)) (filters (rendered m))
  && Bool.eqb (isMirrored (st m)) (isMirrored (rendered m))
  && Bool.eqb (isCameraStarted (st m)) (isCameraStarted (rendered m))
  && match cameraError (st m), cameraError (rendered m) with
     | Some a, Some b => String.eqb a b
     | None, None => true
     | _, _ => false
     end
  && strings_eqb (activeFilters (st m)) (activeFilters (rendered m))
  && Bool.eqb (isCapturing (st m)) (isCapturing (rendered m))
  && Bool.eqb (isAutoModeEnabled (st m)) (isAutoModeEnabled (rendered m))
  && Bool.eqb (isAutoSequenceActive (st m)) (isAutoSequenceActive (rendered m))
  && Nat.eqb (selectedTimerIndex (st m)) (selectedTimerIndex (rendered m))
  && optZ_eqb (countdown (st m)) (countdown (rendered m)).

(** React renders again for as long as effects change the state. *)
Fixpoint settle (fuel : nat) (cv : Canvas) (m : Machine) : Machine :=
  match fuel with
  | O => m
  | S k =>
      let m' := commit cv m in
      if quiescentb m' then m' else settle k cv m'
  end.

(** *** Events *)

(** The functions of the component, for a direct call. *)
Inductive Handler :=
| HCaptureImage
| HUndoCapture
| HResetCaptures
| HResetFilters
| HToggleFilter (id : string)
| HStartCapture
| HStopAutoSequence
| HToggleAutoMode
| HCycleTimer.

Inductive Event :=
| ClickFilter (id : string)
| ClickResetFilters
| ClickUndo
| ClickTimer
| ClickCapture
| ClickAuto
| ClickReset
| KeyDown (key : string) (typing : bool)
| FireTimer
| CameraGranted
| CameraDenied
| ParentRender (canProceed : bool)
| KeyboardRebind
| Call (h : Handler).

Definition call (cv : Canvas) (h : Handler) (env : Render) (m : Machine) : Machine :=
  match h with
  | HCaptureImage => captureImage cv env m
  | HUndoCapture => onSt (undoCapture env) m
  | HResetCaptures => onSt (resetCaptures env) m
  | HResetFilters => onSt (resetFilters K env) m
  | HToggleFilter id => onSt (toggleFilter id env) m
  | HStartCapture => onSt (startCapture K env) m
  | HStopAutoSequence => onSt stopAutoSequence m
  | HToggleAutoMode => onSt (toggleAutoMode K env) m
  | HCycleTimer => onSt (cycleTimer K env) m
  end.

(** What an event does before React renders again.  A button whose [disabled]
    attribute is set in the render on screen swallows the click (lines 420-447
    and 461-541); a filter button exists for the entries of [FILTER_CONTROLS]
    other than ["reset"].  [FireTimer] is the expiry of the oldest pending
    timeout, [CameraGranted] and [CameraDenied] settle a pending
    [getUserMedia], [ParentRender] is the parent passing a new
    [canProceedToLayout], [KeyboardRebind] is the keyboard effect running
    again for a change of identity that the contents do not show, and [Call]
    is a direct call of a function of the component by the render on
    screen. *)
Definition handle (cv : Canvas) (ev : Event) (m : Machine) : Machine :=
  let env := rendered m in
  let filterButtonsDisabled :=
    filterDisabled env || isAutoSequenceActive env || notNull (countdown env) in
  match ev with
  | ClickFilter id =>
      if negb (includes id (FILTER_CONTROLS K)) || String.eqb id "reset"
         || filterButtonsDisabled
      then m else onSt (toggleFilter id env) m
  | ClickResetFilters =>
      if filterButtonsDisabled then m else onSt (resetFilters K env) m
  | ClickUndo => if undoDisabled env then m else onSt (undoCapture env) m
  | ClickTimer => if timerDisabled env then m else onSt (cycleTimer K env) m
  | ClickCapture => if captureDisabled K env then m else onSt (mainButton env) m
  | ClickAuto => if autoDisabled K env then m else onSt (toggleAutoMode K env) m
  | ClickReset => if resetDisabled env then m else onSt (resetCaptures env) m
  | KeyDown key typing => onSt (handleKeyDown key typing (kbd m)) m
  | FireTimer =>
      match timers m with
      | [] => m
      | t :: rest => runCallback (callback t) (setTimers (fun _ => rest) m)
      end
  | CameraGranted =>
      match cameraRequests m with
      | O => m
      | S n =>
          let m1 := setCameraRequests (fun _ => n) m in
          if videoRef m1
          then onSt (setCameraError None) (onSt (setIsCameraStarted true) m1)
          else m1
      end
  | CameraDenied =>
      match cameraRequests m with
      | O => m
      | S n =>
          onSt (setCameraError (Some "errors.camera_access_required"))
               (setCameraRequests (fun _ => n) m)
      end
  | ParentRender canProceed => onSt (setCanProceedToLayout canProceed) m
  | KeyboardRebind => setKbd (rendered m) m
  | Call h => call cv h env m
  end.

Definition settle_fuel : nat := 4.

Definition step (cv : Canvas) (ev : Event) (m : Machine) : Machine :=
  settle settle_fuel cv (handle cv ev m).

Fixpoint run (inputs : list (Canvas * Event)) (m : Machine) : Machine :=
  match inputs with
  | [] => m
  | (cv, ev) :: rest => run rest (step cv ev m)
  end.

(** The first render (lines 38-51): nothing captured, defaults everywhere, the
    mirror on.  The strip starts empty and [canProceedToLayout] false; the
    parent may change the latter by [ParentRender]. *)
Definition initialRender : Render :=
  mkRender [] false (DEFAULT_FILTERS K) true false None ["mirror"]
           false false false (DEFAULT_TIMER_INDEX K) None.

(** The component once mounted: the effects have run once, so the listener is
    registered and the camera has been asked for. *)
Definition mount : Machine :=
  mkMachine initialRender initialRender initialRender false true true [] 1.

Definition reachable (m : Machine) : Prop :=
  exists inputs, m = run inputs mount.

End Effects.

(* ===================================================================== *)
(** ** The vocabulary of the properties *)
(* ===================================================================== *)

Section Vocabulary.

Variable K : Constants.

(** The guard at the head of [captureImage]. *)
Definition captureGuard (env : Render) (m : Machine) : bool :=
  negb (isCameraStarted env) || negb (videoRef m) || negb (canvasRef m)
  || isMaxCaptureReached K env || isCapturing env.

(** [Eff env s s'] says what the effects of one commit, closures of [env], can
    do to a pending state [s]: they may clear the countdown, clear the
    sequence flag, and append at most one image; when they append one, either
    the sequence flag is cleared or the quota is still not reached. *)
Definition Eff (env s s' : Render) : Prop :=
  canProceedToLayout s' = canProceedToLayout s
  /\ filters s' = filters s
  /\ isMirrored s' = isMirrored s
  /\ isCameraStarted s' = isCameraStarted s
  /\ cameraError s' = cameraError s
  /\ activeFilters s' = activeFilters s
  /\ isAutoModeEnabled s' = isAutoModeEnabled s
  /\ selectedTimerIndex s' = selectedTimerIndex s
  /\ (countdown s' = countdown s \/ countdown s' = None)
  /\ (isAutoSequenceActive s' = isAutoSequenceActive s
      \/ isAutoSequenceActive s' = false)
  /\ (capturedImages s' = capturedImages s
      \/ (isMaxCaptureReached K env = false
          /\ (exists x, capturedImages s' = capturedImages s ++ [x])
          /\ (isAutoSequenceActive s' = false
              \/ (S (List.length (capturedImages env)) < MAX_CAPTURE K)%nat))).

(** The strip holds at most [MAX_CAPTURE] images. *)
Definition withinQuota (s : Render) : Prop :=
  (List.length (capturedImages s) <= MAX_CAPTURE K)%nat.

(** The machine is at rest: the pending state is on screen, the refs follow
    what is mounted, and the key listener is the one of a render that agrees
    with the screen on every dependency of the keyboard effect. *)
Definition atRest (m : Machine) : Prop :=
  st m = rendered m
  /\ videoRef m = isNone (cameraError (st m))
  /\ canvasRef m = true
  /\ sameKeyboardDeps (kbd m) (st m) = true.

(** [hasCapturedRef] is set only while the render on screen has a countdown
    that is not running: at zero (or below). *)
Definition refGuardsZero (m : Machine) : Prop :=
  hasCapturedRef m = true ->
  exists c, countdown (rendered m) = Some c /\ c <= 0.

End Vocabulary.

(** Grayscale and sepia are not both on. *)
Definition exclusive (f : FilterSettings) : Prop := grayscale f = 0 \/ sepia f = 0.

(** Every knob is at its neutral or at its active value. *)
Definition toggleValued (f : FilterSettings) : Prop :=
  (brightness f = 100 \/ brightness f = 130)
  /\ (contrast f = 100 \/ contrast f = 130)
  /\ (grayscale f = 0 \/ grayscale f = 100)
  /\ (sepia f = 0 \/ sepia f = 100)
  /\ (saturate f = 100 \/ saturate f = 150).

(** Two lists highlight the same buttons. *)
Definition sameActive (a b : list string) : Prop :=
  forall id, includes id a = includes id b.

(* ===================================================================== *)
(** ** Concrete constants, renders and runs *)
(* ===================================================================== *)

(** Modelled from the spec: the constants module [@/constants] is not among
    the sources.  The spec's scenarios take a quota of 10 images and a timer of
    3 seconds; the defaults are the neutral values of the toggles, and the
    filter buttons are the six identifiers [toggleFilter] knows, with the reset
    entry that the component filters out.  The theorems hold for every choice
    of constants; this one is for the concrete runs. *)
Definition specConstants : Constants :=
  mkConstants (mkFilters 100 100 0 0 100)
    ["mirror"; "grayscale"; "sepia"; "brightness"; "contrast"; "saturate"; "reset"]
    10 [3; 5; 10] 0.

Definition png : Canvas := mkCanvas true "data:image/png;base64,iVBORw0KGgo=".

(** A run of the mounted component on a list of events, every capture
    getting the same canvas answer. *)
Definition play (events : list Event) : Machine :=
  run specConstants (map (fun ev => (png, ev)) events) (mount specConstants).

Definition key (k : string) : Event := KeyDown k false.

(** The camera is never granted; Space starts a countdown all the same, and two
    ticks bring it to 1. *)
Definition noCameraAtOne : Machine :=
  play [key " "; FireTimer; FireTimer].

(** Auto mode is switched on with the [a] key, which does not re-register the
    key listener; Space then runs the [startCapture] of the older render. *)
Definition staleSpaceAtOne : Machine :=
  play [CameraGranted; key "a"; key " "; FireTimer; FireTimer].

(** One image on the strip, and a second countdown that has reached 2. *)
Definition oneImageCountdownTwo : Machine :=
  play [CameraGranted; key " "; FireTimer; FireTimer; FireTimer;
        key " "; FireTimer].

(** An auto sequence under way: auto mode on, capture started. *)
Definition autoSequenceRunning : Machine :=
  play [CameraGranted; ClickAuto; ClickCapture].

(** Sepia switched on. *)
Definition sepiaOn : Machine :=
  play [CameraGranted; ClickFilter "sepia"].

(** An auto sequence stopped with the main button during the pause that
    follows its first capture. *)
Definition stoppedInPause : Machine :=
  play [CameraGranted; ClickAuto; ClickCapture; FireTimer; FireTimer; FireTimer;
        ClickCapture].

(** The same, once the pending timeout has started a countdown again and two
    ticks have brought it to 1. *)
Definition restartedAtOne : Machine :=
  play [CameraGranted; ClickAuto; ClickCapture; FireTimer; FireTimer; FireTimer;
        ClickCapture; FireTimer; FireTimer; FireTimer].

(** A render with the strip full, and a machine showing it. *)
Definition fullRender : Render :=
  mkRender (repeat "img" 10) false (mkFilters 100 100 0 0 100) true true None
           ["mirror"] false false false 0 None.

Definition fullMachine : Machine :=
  mkMachine fullRender fullRender fullRender false true true [] 0.

(** A render whose countdown has just reached zero, with the camera on. *)
Definition zeroRender : Render :=
  mkRender ["first"] false (mkFilters 100 100 0 0 100) true true None
           ["mirror"] false true true 0 (Some 0).

Definition zeroMachine : Machine :=
  mkMachine zeroRender zeroRender zeroRender false true true [] 0.

(** The camera is on, nothing else has happened. *)
Definition cameraOn : Machine := play [CameraGranted].

(** The camera is on, and a single-shot countdown has come down to 1. *)
Definition singleShotAtOne : Machine :=
  play [CameraGranted; key " "; FireTimer; FireTimer].

(** One image on the strip and the component idle again. *)
Definition oneImageIdle : Machine :=
  play [CameraGranted; key " "; FireTimer; FireTimer; FireTimer].

(** A render whose countdown has just reached zero in single-shot mode. *)
Definition singleShotRender : Render :=
  mkRender ["first"] false (mkFilters 100 100 0 0 100) true true None
           ["mirror"] false false false 0 (Some 0).

Definition singleShotMachine : Machine :=
  mkMachine singleShotRender singleShotRender singleShotRender false true true [] 0.

(** The same, the camera having been refused. *)
Definition refusedRender : Render :=
  mkRender [] false (mkFilters 100 100 0 0 100) true false
           (Some "errors.camera_access_required")
           ["mirror"] false false false 0 (Some 0).

Definition refusedMachine : Machine :=
  mkMachine refusedRender refusedRender refusedRender false false true [] 0.

(* ===================================================================== *)
(** ** What the render shows, and further vocabulary *)
(* ===================================================================== *)

(** The countdown overlay is on screen (line 388:
    [countdown !== null && countdown > 0]). *)
Definition overlayVisible (env : Render) : bool :=
  match countdown env with
  | Some c => 0 <? c
  | None => false
  end.

(** The icon of the main button (lines 509-517). *)
Inductive Icon :=
| IconArrowRight
| IconX
| IconCamera.

Definition mainIcon (env : Render) : Icon :=
  if canProceedToLayout env then IconArrowRight
  else if isAutoSequenceActive env then IconX
  else if notNull (countdown env) then IconX
  else IconCamera.

(** A filter button is drawn highlighted (line 428:
    [activeFilters.includes(id) ? "default" : "outline"]). *)
Definition highlighted (id : string) (env : Render) : bool :=
  includes id (activeFilters env).

(** The pending countdown ticks among the timeouts. *)
Definition tickCount (q : list Timeout) : nat :=
  List.length (filter isTick q).

(** The three phases of the camera: the stream has been asked for and the
    answer is awaited; the stream has been granted; it has been refused. *)
Inductive CameraPhase :=
| Asking
| Started
| Refused.

Definition inPhase (p : CameraPhase) (m : Machine) : Prop :=
  match p with
  | Asking =>
      cameraRequests m = 1%nat /\ isCameraStarted (st m) = false
      /\ cameraError (st m) = None
  | Started =>
      cameraRequests m = 0%nat /\ isCameraStarted (st m) = true
      /\ cameraError (st m) = None
  | Refused =>
      cameraRequests m = 0%nat /\ isCameraStarted (st m) = false
      /\ cameraError (st m) = Some "errors.camera_access_required"
  end.

(** The phase an event leads to. *)
Definition nextPhase (p : CameraPhase) (ev : Event) : CameraPhase :=
  match p, ev with
  | Asking, CameraGranted => Started
  | Asking, CameraDenied => Refused
  | _, _ => p
  end.

(** The settings are the neutral values of the five toggles. *)
Definition neutral (f : FilterSettings) : Prop :=
  brightness f = 100 /\ contrast f = 100 /\ grayscale f = 0
  /\ sepia f = 0 /\ saturate f = 100.

(** The highlight of the five knobs says which of them is off its neutral
    value, and no button is listed twice. *)
Definition highlightAgrees (s : Render) : Prop :=
  highlighted "brightness" s = negb (brightness (filters s) =? 100)
  /\ highlighted "contrast" s = negb (contrast (filters s) =? 100)
  /\ highlighted "saturate" s = negb (saturate (filters s) =? 100)
  /\ highlighted "grayscale" s = negb (grayscale (filters s) =? 0)
  /\ highlighted "sepia" s = negb (sepia (filters s) =? 0)
  /\ NoDup (activeFilters s).

(** An auto sequence is active only while the strip has room. *)
Definition hasRoom (K : Constants) (s : Render) : Prop :=
  isAutoSequenceActive s = true -> isMaxCaptureReached K s = false.

(** The strip after an event, seen from the strip before: left alone, one
    image more at the end, the last image less, or emptied. *)
Definition stripMove (l l' : list string) : Prop :=
  l' = l \/ (exists x, l' = l ++ [x]) \/ l' = removelast l \/ l' = [].

(** One countdown tick is pending while the render on screen shows the
    overlay, and none otherwise. *)
Definition oneTick (m : Machine) : Prop :=
  tickCount (timers m) = if overlayVisible (rendered m) then 1%nat else 0%nat.

(** The timeouts that are no countdown ticks: those armed by
    [scheduleNextAutoCapture]. *)
Definition pauses (q : list Timeout) : list Timeout :=
  filter (fun t => negb (isTick t)) q.

(** The countdown tick as the countdown effect arms it (line 282). *)
Definition tick : Timeout := mkTimeout 1000 TickDown.

(** [n] expiries of the oldest pending timeout, the canvas answering [cv] each
    time. *)
Definition expiries (cv : Canvas) (n : nat) : list (Canvas * Event) :=
  repeat (cv, FireTimer) n.

(** The render whose closures answer an event: a key goes to the registered
    listener, everything else to the render on screen. *)
Definition closureOf (ev : Event) (m : Machine) : Render :=
  match ev with
  | KeyDown _ _ => kbd m
  | _ => rendered m
  end.

(** The main action: a click on the main button while it is enabled, or Space
    or Enter outside a text field. *)
Definition mainAction (K : Constants) (ev : Event) (m : Machine) : Prop :=
  (ev = ClickCapture /\ captureDisabled K (st m) = false)
  \/ ev = key " " \/ ev = key "Enter".

(** [k] clicks on the timer button. *)
Definition timerClicks (cv : Canvas) (k : nat) : list (Canvas * Event) :=
  repeat (cv, ClickTimer) k.


(** The keys the listener answers to (lines 315-345). *)
Definition boundKeys : list string :=
  [" "; "Enter"; "Backspace"; "Delete"; "Escape"; "a"].

(** A countdown or an auto sequence is on. *)
Definition counting (s : Render) : Prop :=
  isAutoSequenceActive s = true \/ countdown s <> None.

(** An event of the user interface or of the browser, as opposed to a direct
    call of a function of the component. *)
Definition isCall (ev : Event) : bool :=
  match ev with Call _ => true | _ => false end.


(** Runs for the instances of the further properties. *)


(** The camera is on and auto mode has been switched on with its button. *)
Definition autoOn : Machine := play [CameraGranted; ClickAuto].

(** A single-shot countdown just started, at 3. *)
Definition singleShotAtThree : Machine := play [CameraGranted; key " "].

(** Brightness switched on. *)
Definition brightnessOn : Machine := play [CameraGranted; ClickFilter "brightness"].

(** One image on the strip, the mirror switched off. *)
Definition oneImageMirrorOff : Machine :=
  play [CameraGranted; ClickFilter "mirror"; key " "; FireTimer; FireTimer; FireTimer].

(* ===================================================================== *)
(** ** Proof automation *)
(* ===================================================================== *)

Ltac unfold_setters :=
  unfold stopAutoSequence, setTimeout, clearTick,
         setCapturedImages, setCanProceedToLayout, setFilters, setIsMirrored,
         setIsCameraStarted, setCameraError, setActiveFilters, setIsCapturing,
         setIsAutoModeEnabled, setIsAutoSequenceActive, setSelectedTimerIndex,
         setCountdown, onSt, setHasCapturedRef, setTimers, setKbd,
         setCameraRequests in *.

Ltac fields := unfold_setters; cbn in *.

Ltac split_ifs :=
  repeat match goal with
         | |- context [if ?b then _ else _] => destruct b
         | |- context [match ?x with Some _ => _ | None => _ end] => destruct x
         end.

(** The cases of the five settings against their neutral values. *)
Ltac highlight_cases s :=
  destruct (brightness (filters s) =? 100), (contrast (filters s) =? 100),
    (saturate (filters s) =? 100), (grayscale (filters s) =? 0),
    (sepia (filters s) =? 0);
  reflexivity.

(* ===================================================================== *)
(** ** Basic facts about the embedding *)
(* ===================================================================== *)

Lemma strings_eqb_eq (a b : list string) : strings_eqb a b = true <-> a = b.
Proof.
  revert b; induction a as [|x a IH]; intros [|y b]; cbn; split; intro H;
    try reflexivity; try discriminate.
  - apply andb_true_iff in H as [Hx Ha].
    apply String.eqb_eq in Hx. apply IH in Ha. congruence.
  - injection H as -> ->. rewrite String.eqb_refl. cbn. now apply IH.
Qed.

Lemma optZ_eqb_eq (a b : option Z) : optZ_eqb a b = true <-> a = b.
Proof.
  destruct a as [x|], b as [y|]; cbn; split; intro H;
    try reflexivity; try discriminate.
  - apply Z.eqb_eq in H. congruence.
  - injection H as ->. apply Z.eqb_refl.
Qed.

Lemma filters_eqb_eq (a b : FilterSettings) : filters_eqb a b = true <-> a = b.
Proof.
  destruct a, b; unfold filters_eqb; cbn.
  rewrite !andb_true_iff, !Z.eqb_eq. split.
  - intros [[[[-> ->] ->] ->] ->]. reflexivity.
  - intro H; injection H as -> -> -> -> ->. repeat split.
Qed.

Lemma quiescentb_eq (m : Machine) : quiescentb m = true <-> st m = rendered m.
Proof.
  unfold quiescentb. destruct (st m) as [a1 a2 a3 a4 a5 a6 a7 a8 a9 a10 a11 a12].
  destruct (rendered m) as [b1 b2 b3 b4 b5 b6 b7 b8 b9 b10 b11 b12]. cbn.
  rewrite !andb_true_iff, !strings_eqb_eq, !Bool.eqb_true_iff, filters_eqb_eq,
    Nat.eqb_eq, optZ_eqb_eq.
  assert (E : match a6, b6 with
              | Some a, Some b => String.eqb a b
              | None, None => true
              | _, _ => false
              end = true <-> a6 = b6).
  { destruct a6, b6; split; intro H; try reflexivity; try discriminate.
    - apply String.eqb_eq in H. congruence.
    - injection H as ->. apply String.eqb_refl. }
  rewrite E. split.
  - intros [[[[[[[[[[[-> ->] ->] ->] ->] ->] ->] ->] ->] ->] ->] ->]. reflexivity.
  - intro H. injection H as -> -> -> -> -> -> -> -> -> -> -> ->. repeat split.
Qed.

Lemma removelast_snoc {A : Type} (l : list A) (x : A) : removelast (l ++ [x]) = l.
Proof.
  induction l as [|y l IH]; cbn; [reflexivity|].
  destruct (l ++ [x]) eqn:E.
  - destruct l; discriminate.
  - now rewrite IH.
Qed.

Lemma length_removelast_le {A : Type} (l : list A) :
  (List.length (removelast l) <= List.length l)%nat.
Proof.
  induction l as [|y l IH]; cbn; [lia|]. destruct l; cbn in *; lia.
Qed.

Section Properties.

Variable K : Constants.

(** *** What the effectful functions do to the pending state *)

Lemma st_scheduleNextAutoCapture env m :
  st (scheduleNextAutoCapture K env m) =
  if isAutoModeEnabled env
     && (Z.of_nat (List.length (capturedImages env)) <? Z.of_nat (MAX_CAPTURE K) - 1)
  then st m
  else setCountdown (fun _ => None) (setIsAutoSequenceActive false (st m)).
Proof. unfold scheduleNextAutoCapture. destruct (_ && _); reflexivity. Qed.

Lemma captureImage_declined cv env m :
  captureGuard K env m = true -> captureImage K cv env m = m.
Proof. unfold captureGuard, captureImage. now intros ->. Qed.

Lemma captureImage_images cv env m :
  capturedImages (st (captureImage K cv env m)) = capturedImages (st m)
  \/ (captureGuard K env m = false /\ context2d cv = true /\
      capturedImages (st (captureImage K cv env m))
      = capturedImages (st m) ++ [dataURL cv]).
Proof.
  unfold captureImage. fold (captureGuard K env m).
  destruct (captureGuard K env m); [now left|].
  destruct (context2d cv); cbn [negb]; [|now left].
  right. repeat split. rewrite st_scheduleNextAutoCapture.
  destruct (_ && _); reflexivity.
Qed.

Lemma captureImage_other_fields cv env m :
  let m' := captureImage K cv env m in
  canProceedToLayout (st m') = canProceedToLayout (st m)
  /\ filters (st m') = filters (st m)
  /\ isMirrored (st m') = isMirrored (st m)
  /\ isCameraStarted (st m') = isCameraStarted (st m)
  /\ cameraError (st m') = cameraError (st m)
  /\ activeFilters (st m') = activeFilters (st m)
  /\ isAutoModeEnabled (st m') = isAutoModeEnabled (st m)
  /\ selectedTimerIndex (st m') = selectedTimerIndex (st m)
  /\ rendered m' = rendered m /\ kbd m' = kbd m.
Proof.
  unfold captureImage. destruct (_ || _); [repeat split|].
  destruct (context2d cv); cbn [negb]; [|repeat split].
  unfold scheduleNextAutoCapture. destruct (_ && _); repeat split.
Qed.

Lemma Eff_refl env s : Eff K env s s.
Proof. unfold Eff; repeat split; auto. Qed.

Lemma Eff_stop env s : Eff K env s (stopAutoSequence s).
Proof. unfold Eff; fields; repeat split; auto. Qed.

Lemma Eff_after_stop env s s' : Eff K env (stopAutoSequence s) s' -> Eff K env s s'.
Proof.
  unfold Eff; fields.
  intros (H1 & H2 & H3 & H4 & H5 & H6 & H7 & H8 & H9 & H10 & H11).
  repeat split; auto.
  - destruct H9; auto.
  - destruct H10; auto.
Qed.

Lemma Eff_captureImage cv env m :
  Eff K env (st m) (st (captureImage K cv env m)).
Proof.
  unfold captureImage.
  destruct (negb (isCameraStarted env) || negb (videoRef m) || negb (canvasRef m))
    eqn:G1; cbn [orb]; [apply Eff_refl|].
  destruct (isMaxCaptureReached K env) eqn:G2; cbn [orb]; [apply Eff_refl|].
  destruct (isCapturing env); [apply Eff_refl|].
  destruct (context2d cv); cbn [negb].
  - rewrite st_scheduleNextAutoCapture.
    destruct (isAutoModeEnabled env); cbn [andb].
    + destruct (Z.ltb_spec (Z.of_nat (List.length (capturedImages env)))
                           (Z.of_nat (MAX_CAPTURE K) - 1)) as [Hlt|Hge].
      * assert (Hn : (S (List.length (capturedImages env)) < MAX_CAPTURE K)%nat) by lia.
        clear Hlt G1. unfold Eff. cbn. repeat split; auto.
        right. split; [exact G2|]. split; [now exists (dataURL cv)|now right].
      * clear Hge G1. unfold Eff. cbn. repeat split; auto.
        right. split; [exact G2|]. split; [now exists (dataURL cv)|now left].
    + clear G1. unfold Eff. cbn. repeat split; auto.
      right. split; [exact G2|]. split; [now exists (dataURL cv)|now left].
  - clear G1. unfold Eff. cbn. repeat split; auto.
Qed.

Lemma Eff_effectCountdown cv env m :
  Eff K env (st m) (st (effectCountdown K cv env m)).
Proof.
  unfold effectCountdown. destruct (countdown env) as [c|]; [|apply Eff_refl].
  destruct (0 <? c); [apply Eff_refl|].
  destruct ((c =? 0) && negb (hasCapturedRef m)); [|apply Eff_refl].
  apply (Eff_captureImage cv env (setHasCapturedRef true m)).
Qed.

Lemma st_effectMaxCapture env m :
  st (effectMaxCapture K env m) =
  if isMaxCaptureReached K env && isAutoSequenceActive env
  then stopAutoSequence (st m) else st m.
Proof. unfold effectMaxCapture. destruct (_ && _); reflexivity. Qed.

Lemma rendered_effectCountdown cv env m :
  rendered (effectCountdown K cv env m) = rendered m.
Proof.
  unfold effectCountdown. destruct (countdown env) as [c|]; [|reflexivity].
  destruct (0 <? c); [reflexivity|].
  destruct (_ && _); [|reflexivity].
  apply (captureImage_other_fields cv env (setHasCapturedRef true m)).
Qed.

Lemma rendered_commit cv m : rendered (commit K cv m) = st m.
Proof.
  unfold commit, effectKeyboard, effectCamera, effectMaxCapture.
  repeat match goal with
         | |- context [if ?b then _ else _] => destruct b
         end;
    unfold setKbd; cbn [rendered];
    try rewrite rendered_effectCountdown; reflexivity.
Qed.

Lemma Eff_commit cv m : Eff K (st m) (st m) (st (commit K cv m)).
Proof.
  unfold commit, effectKeyboard, effectCamera.
  set (m0 := mkMachine _ _ _ _ _ _ _ _).
  assert (E0 : st m0 = st m) by reflexivity.
  set (m1 := if sameCameraDeps _ _ then m0 else _).
  assert (E1 : st m1 = st m) by (subst m1; destruct (isCameraStarted (st m)),
    (sameCameraDeps (rendered m) (st m)); exact E0).
  clearbody m1. clear m0 E0.
  set (m2 := if sameMaxCaptureDeps _ _ _ then m1 else _).
  assert (E2 : st m2 = st m \/ st m2 = stopAutoSequence (st m)).
  { subst m2. destruct (sameMaxCaptureDeps K (rendered m) (st m)); [now left|].
    rewrite st_effectMaxCapture, E1. destruct (_ && _); auto. }
  clearbody m2. clear m1 E1.
  set (m3 := if sameCountdownDeps _ _ then m2 else _).
  assert (E3 : Eff K (st m) (st m) (st m3)).
  { subst m3. destruct (sameCountdownDeps (rendered m) (st m)).
    - destruct E2 as [-> | ->]; [apply Eff_refl|apply Eff_stop].
    - pose proof (Eff_effectCountdown cv (st m) (clearTick m2)) as H.
      change (st (clearTick m2)) with (st m2) in H.
      destruct E2 as [E2|E2]; rewrite E2 in H; [exact H|].
      now apply Eff_after_stop. }
  clearbody m3.
  destruct (sameKeyboardDeps (rendered m) (st m)); exact E3.
Qed.

(** A second commit right after a commit finds nothing left to do. *)
Lemma commit_commit_st cv cv' m :
  st (commit K cv' (commit K cv m)) = st (commit K cv m).
Proof.
  pose proof (Eff_commit cv m) as HE.
  pose proof (rendered_commit cv m) as HR.
  set (m1 := commit K cv m) in *. clearbody m1.
  destruct HE as (_ & _ & _ & _ & _ & _ & _ & _ & HA & HB & HC).
  unfold commit, effectKeyboard, effectCamera. rewrite HR.
  set (m0 := mkMachine _ _ _ _ _ _ _ _).
  assert (E0 : st m0 = st m1) by reflexivity.
  set (m1' := if sameCameraDeps _ _ then m0 else _).
  assert (E1 : st m1' = st m1) by (subst m1'; destruct (isCameraStarted (st m1)),
    (sameCameraDeps (st m) (st m1)); exact E0).
  clearbody m1'. clear m0 E0.
  set (m2 := if sameMaxCaptureDeps _ _ _ then m1' else _).
  assert (E2 : st m2 = st m1).
  { subst m2. destruct (sameMaxCaptureDeps K (st m) (st m1)) eqn:D; [exact E1|].
    rewrite st_effectMaxCapture, E1.
    destruct (isMaxCaptureReached K (st m1) && isAutoSequenceActive (st m1))
      eqn:Hboth; [|reflexivity].
    exfalso. apply andb_true_iff in Hboth as [Hmax Hact].
    destruct HC as [HC | (Hm & [x Hx] & [HC|HC])].
    - destruct HB as [HB|HB]; [|congruence].
      unfold sameMaxCaptureDeps, isMaxCaptureReached in D.
      rewrite HC, HB, Nat.eqb_refl, !Bool.eqb_reflx in D. discriminate.
    - congruence.
    - unfold isMaxCaptureReached in Hmax. apply Nat.leb_le in Hmax.
      rewrite Hx, length_app in Hmax. cbn [List.length] in Hmax. lia. }
  clearbody m2. clear m1' E1.
  set (m3 := if sameCountdownDeps _ _ then m2 else _).
  assert (E3 : st m3 = st m1).
  { subst m3. destruct (sameCountdownDeps (st m) (st m1)) eqn:D; [exact E2|].
    unfold effectCountdown.
    destruct HA as [HA|HA].
    - unfold sameCountdownDeps in D. rewrite HA in D.
      assert (optZ_eqb (countdown (st m)) (countdown (st m)) = true)
        by now apply optZ_eqb_eq.
      congruence.
    - rewrite HA. exact E2. }
  clearbody m3.
  destruct (sameKeyboardDeps (st m) (st m1)); exact E3.
Qed.

Lemma settle_cases cv m :
  settle K settle_fuel cv m = commit K cv m
  \/ settle K settle_fuel cv m = commit K cv (commit K cv m).
Proof.
  unfold settle_fuel. cbn [settle].
  destruct (quiescentb (commit K cv m)); [now left|].
  assert (Q : quiescentb (commit K cv (commit K cv m)) = true).
  { apply quiescentb_eq. now rewrite rendered_commit, commit_commit_st. }
  rewrite Q. now right.
Qed.

(** The fuel of [step] is enough: after every event the component comes to
    rest, with the pending state on screen. *)
Lemma settle_quiescent cv m :
  st (settle K settle_fuel cv m) = rendered (settle K settle_fuel cv m).
Proof.
  unfold settle_fuel. cbn [settle].
  destruct (quiescentb (commit K cv m)) eqn:Q1; [now apply quiescentb_eq|].
  assert (Q : quiescentb (commit K cv (commit K cv m)) = true).
  { apply quiescentb_eq. now rewrite rendered_commit, commit_commit_st. }
  rewrite Q. now apply quiescentb_eq.
Qed.

Lemma step_quiescent cv ev m : st (step K cv ev m) = rendered (step K cv ev m).
Proof. apply settle_quiescent. Qed.

Lemma mount_quiescent : st (mount K) = rendered (mount K).
Proof. reflexivity. Qed.

Lemma run_quiescent inputs m :
  st m = rendered m -> st (run K inputs m) = rendered (run K inputs m).
Proof.
  revert m; induction inputs as [|[cv ev] rest IH]; intros m Hm; cbn [run].
  - exact Hm.
  - apply IH, step_quiescent.
Qed.

Lemma reachable_quiescent m : reachable K m -> st m = rendered m.
Proof. intros [inputs ->]. apply run_quiescent, mount_quiescent. Qed.

(** *** The quota *)

Lemma Eff_withinQuota env s s' :
  capturedImages env = capturedImages s ->
  Eff K env s s' -> withinQuota K s -> withinQuota K s'.
Proof.
  unfold withinQuota. intros He (_ & _ & _ & _ & _ & _ & _ & _ & _ & _ & HC) Hs.
  destruct HC as [-> | (Hm & [x ->] & _)]; [exact Hs|].
  unfold isMaxCaptureReached in Hm. apply Nat.leb_gt in Hm.
  rewrite length_app, <- He. cbn. lia.
Qed.

Lemma commit_withinQuota cv m :
  withinQuota K (st m) -> withinQuota K (st (commit K cv m)).
Proof. apply Eff_withinQuota with (env := st m); [reflexivity|apply Eff_commit]. Qed.

Lemma settle_withinQuota cv m :
  withinQuota K (st m) -> withinQuota K (st (settle K settle_fuel cv m)).
Proof.
  intro H. destruct (settle_cases cv m) as [-> | ->];
    repeat apply commit_withinQuota; exact H.
Qed.

Lemma undoCapture_withinQuota env s :
  withinQuota K s -> withinQuota K (undoCapture env s).
Proof.
  unfold undoCapture, withinQuota. intro H. split_ifs; fields; try exact H.
  pose proof (length_removelast_le (capturedImages s)). lia.
Qed.

Lemma resetCaptures_withinQuota env s :
  withinQuota K s -> withinQuota K (resetCaptures env s).
Proof.
  unfold resetCaptures, withinQuota. intro H. split_ifs; fields; [exact H|lia].
Qed.

Lemma handleKeyDown_withinQuota key typing env s :
  withinQuota K s -> withinQuota K (handleKeyDown K key typing env s).
Proof.
  intro H. unfold handleKeyDown.
  destruct typing; [exact H|].
  destruct (_ || _).
  { unfold startCapture. split_ifs; exact H. }
  destruct (_ || _); [now apply undoCapture_withinQuota|].
  destruct (String.eqb key "Escape"); [now apply resetCaptures_withinQuota|].
  destruct (String.eqb key "a"); [|exact H].
  unfold toggleAutoMode. split_ifs; exact H.
Qed.

Lemma handle_withinQuota cv ev m :
  st m = rendered m -> withinQuota K (st m) -> withinQuota K (st (handle K cv ev m)).
Proof.
  intros Hq H. destruct ev; cbn [handle].
  - destruct (_ || _); [exact H|]. unfold toggleFilter. split_ifs; exact H.
  - destruct (_ || _); [exact H|]. unfold resetFilters. split_ifs; exact H.
  - destruct (undoDisabled _); [exact H|]. now apply undoCapture_withinQuota.
  - destruct (timerDisabled _); [exact H|]. unfold cycleTimer. split_ifs; exact H.
  - destruct (captureDisabled _ _); [exact H|].
    unfold mainButton, startCapture. split_ifs; exact H.
  - destruct (autoDisabled _ _); [exact H|]. unfold toggleAutoMode. split_ifs; exact H.
  - destruct (resetDisabled _); [exact H|]. now apply resetCaptures_withinQuota.
  - now apply handleKeyDown_withinQuota.
  - destruct (timers m) as [|t rest]; [exact H|].
    destruct (callback t); exact H.
  - destruct (cameraRequests m); [exact H|]. cbn. destruct (videoRef m); exact H.
  - destruct (cameraRequests m); exact H.
  - exact H.
  - exact H.
  - destruct h; cbn [call]; try exact H.
    + apply Eff_withinQuota with (env := rendered m) (s := st m);
        [now rewrite Hq|apply Eff_captureImage|exact H].
    + now apply undoCapture_withinQuota.
    + now apply resetCaptures_withinQuota.
    + unfold resetFilters. split_ifs; exact H.
    + unfold toggleFilter. split_ifs; exact H.
    + unfold startCapture. split_ifs; exact H.
    + unfold toggleAutoMode. split_ifs; exact H.
    + unfold cycleTimer. split_ifs; exact H.
Qed.

Lemma step_withinQuota cv ev m :
  st m = rendered m -> withinQuota K (st m) -> withinQuota K (st (step K cv ev m)).
Proof. intros Hq H. now apply settle_withinQuota, handle_withinQuota. Qed.

Lemma run_withinQuota inputs m :
  st m = rendered m -> withinQuota K (st m) -> withinQuota K (st (run K inputs m)).
Proof.
  revert m; induction inputs as [|[cv ev] rest IH]; intros m Hq H; cbn [run].
  - exact H.
  - apply IH; [apply step_quiescent|now apply step_withinQuota].
Qed.

(** *** Where the filter settings can change *)

Lemma toggleFilter_frame id env s :
  let s' := toggleFilter id env s in
  capturedImages s' = capturedImages s
  /\ canProceedToLayout s' = canProceedToLayout s
  /\ isCameraStarted s' = isCameraStarted s
  /\ cameraError s' = cameraError s
  /\ isCapturing s' = isCapturing s
  /\ isAutoModeEnabled s' = isAutoModeEnabled s
  /\ isAutoSequenceActive s' = isAutoSequenceActive s
  /\ selectedTimerIndex s' = selectedTimerIndex s
  /\ countdown s' = countdown s.
Proof. unfold toggleFilter. split_ifs; repeat split. Qed.

Lemma handleKeyDown_filters key typing env s :
  filters (handleKeyDown K key typing env s) = filters s.
Proof.
  unfold handleKeyDown, startCapture, undoCapture, resetCaptures, toggleAutoMode.
  split_ifs; reflexivity.
Qed.

Lemma handle_filters cv ev m :
  let f' := filters (st (handle K cv ev m)) in
  f' = filters (st m) \/ f' = DEFAULT_FILTERS K
  \/ exists id env, f' = filters (toggleFilter id env (st m)).
Proof.
  destruct ev; cbn [handle].
  - destruct (_ || _); [now left|]. right; right. now exists id, (rendered m).
  - destruct (_ || _); [now left|]. unfold resetFilters. split_ifs; auto.
  - left. unfold undoCapture. split_ifs; reflexivity.
  - left. unfold cycleTimer. split_ifs; reflexivity.
  - left. unfold mainButton, startCapture. split_ifs; reflexivity.
  - left. unfold toggleAutoMode. split_ifs; reflexivity.
  - left. unfold resetCaptures. split_ifs; reflexivity.
  - left. apply handleKeyDown_filters.
  - left. destruct (timers m) as [|t rest]; [reflexivity|].
    destruct (callback t); reflexivity.
  - left. destruct (cameraRequests m); [reflexivity|]. cbn.
    destruct (videoRef m); reflexivity.
  - left. destruct (cameraRequests m); reflexivity.
  - now left.
  - now left.
  - destruct h; cbn [call].
    + left. apply (Eff_captureImage cv (rendered m) m).
    + left. unfold undoCapture. split_ifs; reflexivity.
    + left. unfold resetCaptures. split_ifs; reflexivity.
    + unfold resetFilters. split_ifs; auto.
    + right; right. now exists id, (rendered m).
    + left. unfold startCapture. split_ifs; reflexivity.
    + now left.
    + left. unfold toggleAutoMode. split_ifs; reflexivity.
    + left. unfold cycleTimer. split_ifs; reflexivity.
Qed.

Lemma settle_filters cv m : filters (st (settle K settle_fuel cv m)) = filters (st m).
Proof.
  destruct (settle_cases cv m) as [-> | ->].
  - apply (Eff_commit cv m).
  - transitivity (filters (st (commit K cv m))).
    + apply (Eff_commit cv (commit K cv m)).
    + apply (Eff_commit cv m).
Qed.

(** An invariant of the filter settings: it holds in every reachable state as
    soon as the defaults have it and every toggle keeps it. *)
Lemma run_filters_invariant (P : FilterSettings -> Prop) :
  P (DEFAULT_FILTERS K) ->
  (forall id env s, P (filters s) -> P (filters (toggleFilter id env s))) ->
  forall inputs m, P (filters (st m)) -> P (filters (st (run K inputs m))).
Proof.
  intros Hd Ht. induction inputs as [|[cv ev] rest IH]; intros m Hm; cbn [run].
  - exact Hm.
  - apply IH. unfold step. rewrite settle_filters.
    destruct (handle_filters cv ev m) as [-> | [-> | (id & env & ->)]]; auto.
Qed.

Lemma toggleFilter_exclusive id env s :
  exclusive (filters s) -> exclusive (filters (toggleFilter id env s)).
Proof. unfold toggleFilter, exclusive. split_ifs; cbn; auto. Qed.

Lemma toggleFilter_toggleValued id env s :
  toggleValued (filters s) -> toggleValued (filters (toggleFilter id env s)).
Proof.
  unfold toggleFilter, toggleValued. intros (H1 & H2 & H3 & H4 & H5).
  split_ifs; cbn; split_ifs; repeat split; auto.
Qed.

Lemma reachable_toggleValued m :
  toggleValued (DEFAULT_FILTERS K) -> reachable K m -> toggleValued (filters (st m)).
Proof.
  intros Hd [inputs ->].
  apply (run_filters_invariant toggleValued Hd); [|exact Hd].
  intros id env s. apply toggleFilter_toggleValued.
Qed.

(** *** Membership in the list of highlighted filters *)

Lemma includes_app x l y : includes x (l ++ [y]) = includes x l || String.eqb x y.
Proof. unfold includes. rewrite existsb_app. cbn. now rewrite orb_false_r. Qed.

Lemma includes_filter (p : string -> bool) x l :
  includes x (filter p l) = includes x l && p x.
Proof.
  unfold includes. induction l as [|a l IH]; cbn; [reflexivity|].
  destruct (String.eqb_spec x a) as [E|Hne].
  - subst a. destruct (p x) eqn:Hp; cbn.
    + now rewrite String.eqb_refl.
    + rewrite IH. apply andb_false_r.
  - destruct (p a); cbn; [|exact IH].
    destruct (String.eqb_spec x a); [contradiction|exact IH].
Qed.

Lemma flipActive_twice id l x :
  includes x (flipActive id (flipActive id l)) = includes x l.
Proof.
  unfold flipActive. destruct (includes id l) eqn:E.
  - unfold without at 1. rewrite includes_filter, E, String.eqb_refl. cbn [andb orb negb].
    rewrite includes_app. unfold without. rewrite includes_filter.
    destruct (String.eqb_spec x id) as [->|_]; cbn [andb orb negb].
    + now rewrite E.
    + now rewrite andb_true_r, orb_false_r.
  - rewrite includes_app, E, String.eqb_refl. cbn [andb orb negb].
    unfold without. rewrite includes_filter, includes_app.
    destruct (String.eqb_spec x id) as [->|_]; cbn [andb orb negb].
    + now rewrite E, andb_false_r.
    + now rewrite orb_false_r, andb_true_r.
Qed.

Lemma flipTone_twice id other l x :
  (id = "grayscale" /\ other = "sepia") \/ (id = "sepia" /\ other = "grayscale") ->
  includes other l = false ->
  includes x (flipTone id (flipTone id l)) = includes x l.
Proof.
  intros Hid Ho. unfold flipTone.
  assert (Hself : forall l', includes id (withoutTone l') = false).
  { intro l'. unfold withoutTone. rewrite includes_filter.
    destruct Hid as [[-> _]|[-> _]]; cbn; now rewrite andb_false_r. }
  assert (Hx : forall l', includes x (withoutTone l')
               = includes x l' && negb (String.eqb x id) && negb (String.eqb x other)).
  { intro l'. unfold withoutTone. rewrite includes_filter.
    destruct Hid as [[-> ->]|[-> ->]];
      destruct (String.eqb x "sepia"), (String.eqb x "grayscale"),
        (includes x l'); reflexivity. }
  destruct (includes id l) eqn:E.
  - rewrite Hself, includes_app, !Hx.
    destruct (String.eqb_spec x id) as [->|_]; cbn [andb orb negb].
    + now rewrite E, orb_true_r.
    + destruct (String.eqb_spec x other) as [->|_]; cbn [andb orb negb].
      * now rewrite Ho.
      * now rewrite !andb_true_r, orb_false_r.
  - rewrite includes_app, Hself, String.eqb_refl. cbn [andb orb negb].
    rewrite Hx, includes_app, Hx.
    destruct (String.eqb_spec x id) as [->|_]; cbn [andb orb negb].
    + now rewrite E, !andb_false_r.
    + destruct (String.eqb_spec x other) as [->|_]; cbn [andb orb negb].
      * now rewrite Ho.
      * now rewrite !andb_true_r, orb_false_r.
Qed.

(** *** A commit, unfolded

    The state and the capture ref after a commit, in terms of the machine [m2]
    that the countdown effect finds: the state as left by the quota effect,
    the refs as set by the commit. *)
Lemma commit_unfold cv m :
  exists m2,
    hasCapturedRef m2 = hasCapturedRef m
    /\ videoRef m2 = isNone (cameraError (st m))
    /\ canvasRef m2 = true
    /\ st m2 = (if sameMaxCaptureDeps K (rendered m) (st m) then st m
               else if isMaxCaptureReached K (st m) && isAutoSequenceActive (st m)
                    then stopAutoSequence (st m) else st m)
    /\ st (commit K cv m)
       = (if sameCountdownDeps (rendered m) (st m) then st m2
          else st (effectCountdown K cv (st m) m2))
    /\ hasCapturedRef (commit K cv m)
       = (if sameCountdownDeps (rendered m) (st m) then hasCapturedRef m
          else hasCapturedRef (effectCountdown K cv (st m) m2)).
Proof.
  unfold commit, effectKeyboard.
  set (m0 := mkMachine _ _ _ _ _ _ _ _).
  set (R := fun x : Machine =>
              hasCapturedRef x = hasCapturedRef m
              /\ videoRef x = isNone (cameraError (st m))
              /\ canvasRef x = true).
  assert (R0 : R m0 /\ st m0 = st m) by (repeat split).
  set (m1 := if sameCameraDeps _ _ then m0 else _).
  assert (R1 : R m1 /\ st m1 = st m).
  { subst m1. unfold effectCamera.
    destruct (sameCameraDeps _ _); [exact R0|].
    destruct (isCameraStarted (st m)); exact R0. }
  clearbody m1. clear m0 R0. destruct R1 as [R1 E1].
  set (m2 := if sameMaxCaptureDeps _ _ _ then m1 else _).
  exists (clearTick m2).
  assert (R2 : R m2).
  { subst m2. unfold effectMaxCapture.
    destruct (sameMaxCaptureDeps _ _ _); [exact R1|].
    destruct (_ && _); exact R1. }
  assert (E2 : st m2 = (if sameMaxCaptureDeps K (rendered m) (st m) then st m
               else if isMaxCaptureReached K (st m) && isAutoSequenceActive (st m)
                    then stopAutoSequence (st m) else st m)).
  { subst m2. destruct (sameMaxCaptureDeps _ _ _); [exact E1|].
    rewrite st_effectMaxCapture, E1. reflexivity. }
  clearbody m2. destruct R2 as (H1 & H2 & H3).
  split; [exact H1|]. split; [exact H2|]. split; [exact H3|].
  split; [exact E2|].
  destruct (sameCountdownDeps (rendered m) (st m));
    destruct (sameKeyboardDeps (rendered m) (st m));
    split; try reflexivity; exact H1.
Qed.

(** Every render after the first one of a settling shows the same state. *)
Lemma st_settle cv m : st (settle K settle_fuel cv m) = st (commit K cv m).
Proof.
  destruct (settle_cases cv m) as [-> | ->]; [reflexivity|].
  apply commit_commit_st.
Qed.

Lemma commit_images_no_zero cv m :
  countdown (st m) <> Some 0 ->
  capturedImages (st (commit K cv m)) = capturedImages (st m).
Proof.
  intro Hz. destruct (commit_unfold cv m) as (m2 & _ & _ & _ & E2 & E & _).
  assert (I2 : capturedImages (st m2) = capturedImages (st m)).
  { rewrite E2. destruct (sameMaxCaptureDeps _ _ _); [reflexivity|].
    destruct (_ && _); reflexivity. }
  rewrite E. destruct (sameCountdownDeps _ _); [exact I2|].
  unfold effectCountdown. destruct (countdown (st m)) as [c|]; [|exact I2].
  destruct (Z.ltb_spec 0 c); [exact I2|].
  destruct (Z.eqb_spec c 0) as [->|_]; [congruence|exact I2].
Qed.

Lemma captureImage_isCapturing cv env m :
  isCapturing (st m) = false -> isCapturing (st (captureImage K cv env m)) = false.
Proof.
  intro H. unfold captureImage. destruct (_ || _); [exact H|].
  destruct (context2d cv); cbn [negb]; [|reflexivity].
  rewrite st_scheduleNextAutoCapture. destruct (_ && _); reflexivity.
Qed.

Lemma commit_isCapturing cv m :
  isCapturing (st m) = false -> isCapturing (st (commit K cv m)) = false.
Proof.
  intro H. destruct (commit_unfold cv m) as (m2 & _ & _ & _ & E2 & E & _).
  assert (I2 : isCapturing (st m2) = false).
  { rewrite E2. destruct (sameMaxCaptureDeps _ _ _); [exact H|].
    destruct (_ && _); exact H. }
  rewrite E. destruct (sameCountdownDeps _ _); [exact I2|].
  unfold effectCountdown. destruct (countdown (st m)) as [c|]; [|exact I2].
  destruct (0 <? c); [exact I2|].
  destruct ((c =? 0) && negb (hasCapturedRef m2)); [|exact I2].
  now apply (captureImage_isCapturing cv (st m) (setHasCapturedRef true m2)).
Qed.

Lemma handle_isCapturing cv ev m :
  isCapturing (st m) = false -> isCapturing (st (handle K cv ev m)) = false.
Proof.
  intro H. destruct ev; cbn [handle].
  - destruct (_ || _); [exact H|]. unfold toggleFilter. split_ifs; exact H.
  - destruct (_ || _); [exact H|]. unfold resetFilters. split_ifs; exact H.
  - unfold undoCapture. split_ifs; exact H.
  - unfold cycleTimer. split_ifs; exact H.
  - unfold mainButton, startCapture. split_ifs; exact H.
  - unfold toggleAutoMode. split_ifs; exact H.
  - unfold resetCaptures. split_ifs; exact H.
  - unfold onSt. cbn [st]. unfold handleKeyDown, startCapture, undoCapture,
      resetCaptures, toggleAutoMode. split_ifs; exact H.
  - destruct (timers m) as [|t rest]; [exact H|]. destruct (callback t); exact H.
  - destruct (cameraRequests m); [exact H|]. cbn. destruct (videoRef m); exact H.
  - destruct (cameraRequests m); exact H.
  - exact H.
  - exact H.
  - destruct h; cbn [call]; try exact H.
    + now apply captureImage_isCapturing.
    + unfold undoCapture. split_ifs; exact H.
    + unfold resetCaptures. split_ifs; exact H.
    + unfold resetFilters. split_ifs; exact H.
    + unfold toggleFilter. split_ifs; exact H.
    + unfold startCapture. split_ifs; exact H.
    + unfold toggleAutoMode. split_ifs; exact H.
    + unfold cycleTimer. split_ifs; exact H.
Qed.

(** [isCapturing] is set and cleared within one call of [captureImage]: no
    render of a reachable state sees it set. *)
Lemma reachable_isCapturing m : reachable K m -> isCapturing (st m) = false.
Proof.
  intros [inputs ->].
  assert (G : forall m0, isCapturing (st m0) = false ->
                         isCapturing (st (run K inputs m0)) = false).
  { induction inputs as [|[cv ev] rest IH]; intros m0 H0; cbn [run]; [exact H0|].
    apply IH. unfold step. rewrite st_settle.
    now apply commit_isCapturing, handle_isCapturing. }
  now apply G.
Qed.

(** *** The capture ref *)

Lemma captureImage_hasCapturedRef cv env m :
  hasCapturedRef (captureImage K cv env m) = hasCapturedRef m.
Proof.
  unfold captureImage. destruct (_ || _); [reflexivity|].
  destruct (context2d cv); cbn [negb]; [|reflexivity].
  unfold scheduleNextAutoCapture. destruct (_ && _); reflexivity.
Qed.

Lemma commit_refGuardsZero cv m :
  refGuardsZero m -> refGuardsZero (commit K cv m).
Proof.
  unfold refGuardsZero. intro J.
  rewrite rendered_commit.
  destruct (commit_unfold cv m) as (m2 & H2 & _ & _ & _ & _ & ->).
  destruct (sameCountdownDeps (rendered m) (st m)) eqn:D.
  - apply optZ_eqb_eq in D. rewrite <- D. exact J.
  - unfold effectCountdown. destruct (countdown (st m)) as [c|]; [|discriminate].
    destruct (Z.ltb_spec 0 c) as [Hpos|Hle]; [discriminate|].
    destruct ((c =? 0) && negb (hasCapturedRef m2)); intros _; now exists c.
Qed.

Lemma handle_refGuardsZero cv ev m :
  refGuardsZero m -> refGuardsZero (handle K cv ev m).
Proof.
  unfold refGuardsZero. intro J.
  destruct ev; cbn [handle]; try (split_ifs; exact J).
  - destruct (timers m) as [|t rest]; [exact J|].
    destruct (callback t); [exact J|discriminate].
  - destruct (cameraRequests m); [exact J|]. cbn. destruct (videoRef m); exact J.
  - destruct (cameraRequests m); exact J.
  - destruct h; cbn [call]; try exact J.
    rewrite captureImage_hasCapturedRef.
    destruct (captureImage_other_fields cv (rendered m) m)
      as (_ & _ & _ & _ & _ & _ & _ & _ & -> & _).
    exact J.
Qed.

Lemma settle_refGuardsZero cv m :
  refGuardsZero m -> refGuardsZero (settle K settle_fuel cv m).
Proof.
  intro J. destruct (settle_cases cv m) as [-> | ->];
    repeat apply commit_refGuardsZero; exact J.
Qed.

Lemma reachable_refGuardsZero m : reachable K m -> refGuardsZero m.
Proof.
  intros [inputs ->].
  assert (G : forall m0, refGuardsZero m0 -> refGuardsZero (run K inputs m0)).
  { induction inputs as [|[cv ev] rest IH]; intros m0 H0; cbn [run]; [exact H0|].
    apply IH. now apply settle_refGuardsZero, handle_refGuardsZero. }
  apply G. intro H. discriminate H.
Qed.

(** While the countdown runs, the ref is unset: the zero branch of the effect
    is never blocked by a leftover of an earlier countdown. *)
Lemma reachable_ref_unset m c :
  reachable K m -> countdown (st m) = Some c -> 0 < c -> hasCapturedRef m = false.
Proof.
  intros Hr Hc Hpos. destruct (hasCapturedRef m) eqn:E; [|reflexivity].
  destruct (reachable_refGuardsZero m Hr E) as (c' & Hc' & Hle).
  rewrite <- (reachable_quiescent m Hr) in Hc'. rewrite Hc in Hc'.
  injection Hc' as <-. lia.
Qed.

(** *** The key listener and the state at rest *)

Lemma sameKeyboardDeps_spec a b :
  sameKeyboardDeps a b = true <->
  capturedImages a = capturedImages b
  /\ isCameraStarted a = isCameraStarted b
  /\ filters a = filters b
  /\ isMirrored a = isMirrored b
  /\ isCapturing a = isCapturing b
  /\ isAutoSequenceActive a = isAutoSequenceActive b
  /\ countdown a = countdown b
  /\ canProceedToLayout a = canProceedToLayout b.
Proof.
  unfold sameKeyboardDeps.
  rewrite !andb_true_iff, strings_eqb_eq, filters_eqb_eq, optZ_eqb_eq,
    !Bool.eqb_true_iff.
  tauto.
Qed.

Lemma sameKeyboardDeps_refl a : sameKeyboardDeps a a = true.
Proof. apply sameKeyboardDeps_spec. repeat split. Qed.

Lemma sameKeyboardDeps_trans a b c :
  sameKeyboardDeps a b = true -> sameKeyboardDeps b c = true ->
  sameKeyboardDeps a c = true.
Proof.
  rewrite !sameKeyboardDeps_spec.
  intros (H1 & H2 & H3 & H4 & H5 & H6 & H7 & H8)
         (G1 & G2 & G3 & G4 & G5 & G6 & G7 & G8).
  repeat split; congruence.
Qed.

Lemma sameCameraDeps_refl a : sameCameraDeps a a = true.
Proof. unfold sameCameraDeps. apply Bool.eqb_reflx. Qed.

Lemma sameMaxCaptureDeps_refl a : sameMaxCaptureDeps K a a = true.
Proof.
  unfold sameMaxCaptureDeps. now rewrite Nat.eqb_refl, !Bool.eqb_reflx.
Qed.

Lemma sameCountdownDeps_refl a : sameCountdownDeps a a = true.
Proof. unfold sameCountdownDeps. now apply optZ_eqb_eq. Qed.

Lemma effectCountdown_refs cv env m :
  let m' := effectCountdown K cv env m in
  kbd m' = kbd m /\ videoRef m' = videoRef m /\ canvasRef m' = canvasRef m.
Proof.
  unfold effectCountdown. destruct (countdown env) as [c|]; [|repeat split].
  destruct (0 <? c); [repeat split|].
  destruct (_ && _); [|repeat split].
  unfold captureImage. cbn [videoRef canvasRef setHasCapturedRef].
  destruct (_ || _); [repeat split|].
  destruct (context2d cv); cbn [negb]; [|repeat split].
  unfold scheduleNextAutoCapture. destruct (_ && _); repeat split.
Qed.

(** What a commit leaves in the refs and in the listener. *)
Lemma commit_refs cv m :
  let m' := commit K cv m in
  videoRef m' = isNone (cameraError (st m))
  /\ canvasRef m' = true
  /\ kbd m' = if sameKeyboardDeps (rendered m) (st m) then kbd m else st m.
Proof.
  unfold commit, effectKeyboard.
  set (m0 := mkMachine _ _ _ _ _ _ _ _).
  set (R := fun x : Machine =>
              videoRef x = isNone (cameraError (st m))
              /\ canvasRef x = true /\ kbd x = kbd m).
  assert (R0 : R m0) by (repeat split).
  set (m1 := if sameCameraDeps _ _ then m0 else _).
  assert (R1 : R m1).
  { subst m1. unfold effectCamera.
    destruct (sameCameraDeps _ _); [exact R0|].
    destruct (isCameraStarted (st m)); exact R0. }
  clearbody m1. clear m0 R0.
  set (m2 := if sameMaxCaptureDeps _ _ _ then m1 else _).
  assert (R2 : R m2).
  { subst m2. unfold effectMaxCapture.
    destruct (sameMaxCaptureDeps _ _ _); [exact R1|].
    destruct (_ && _); exact R1. }
  clearbody m2. clear m1 R1.
  set (m3 := if sameCountdownDeps _ _ then m2 else _).
  assert (R3 : R m3).
  { subst m3. destruct (sameCountdownDeps _ _); [exact R2|].
    destruct (effectCountdown_refs cv (st m) (clearTick m2)) as (E1 & E2 & E3).
    unfold R. rewrite E1, E2, E3. exact R2. }
  clearbody m3. clear m2 R2.
  destruct R3 as (Hv & Hc & Hk).
  destruct (sameKeyboardDeps (rendered m) (st m)); repeat split; assumption.
Qed.

Lemma commit_cameraError cv m :
  cameraError (st (commit K cv m)) = cameraError (st m).
Proof. apply (Eff_commit cv m). Qed.

(** A commit keeps the listener in step with the screen. *)
Lemma commit_listener cv m :
  sameKeyboardDeps (kbd m) (rendered m) = true ->
  sameKeyboardDeps (kbd (commit K cv m)) (rendered (commit K cv m)) = true.
Proof.
  intro H. rewrite rendered_commit.
  destruct (commit_refs cv m) as (_ & _ & ->).
  destruct (sameKeyboardDeps (rendered m) (st m)) eqn:D.
  - now apply sameKeyboardDeps_trans with (b := rendered m).
  - apply sameKeyboardDeps_refl.
Qed.

Lemma settle_atRest cv m :
  sameKeyboardDeps (kbd m) (rendered m) = true ->
  atRest (settle K settle_fuel cv m).
Proof.
  intro H. pose proof (settle_quiescent cv m) as Q.
  destruct (settle_cases cv m) as [E|E]; rewrite E in *.
  - destruct (commit_refs cv m) as (Hv & Hc & _).
    repeat split; trivial.
    + rewrite Hv, Q, rendered_commit. reflexivity.
    + rewrite Q. now apply commit_listener.
  - destruct (commit_refs cv (commit K cv m)) as (Hv & Hc & _).
    repeat split; trivial.
    + rewrite Hv, Q, rendered_commit. reflexivity.
    + rewrite Q. now apply commit_listener, commit_listener.
Qed.

Lemma handle_listener cv ev m :
  atRest m ->
  sameKeyboardDeps (kbd (handle K cv ev m)) (rendered (handle K cv ev m)) = true.
Proof.
  intros (Hq & _ & _ & Hk). rewrite Hq in Hk.
  destruct ev; cbn [handle];
    try (split_ifs; exact Hk).
  - destruct (timers m) as [|t rest]; [exact Hk|]. destruct (callback t); exact Hk.
  - destruct (cameraRequests m); [exact Hk|]. cbn. destruct (videoRef m); exact Hk.
  - destruct (cameraRequests m); exact Hk.
  - apply sameKeyboardDeps_refl.
  - destruct h; cbn [call]; try exact Hk.
    destruct (captureImage_other_fields cv (rendered m) m)
      as (_ & _ & _ & _ & _ & _ & _ & _ & -> & ->).
    exact Hk.
Qed.

Lemma step_atRest cv ev m : atRest m -> atRest (step K cv ev m).
Proof. intro H. now apply settle_atRest, handle_listener. Qed.

Lemma mount_atRest : atRest (mount K).
Proof. repeat split. apply sameKeyboardDeps_refl. Qed.

Lemma run_atRest inputs m : atRest m -> atRest (run K inputs m).
Proof.
  revert m; induction inputs as [|[cv ev] rest IH]; intros m H; cbn [run].
  - exact H.
  - now apply IH, step_atRest.
Qed.

Lemma reachable_atRest m : reachable K m -> atRest m.
Proof. intros [inputs ->]. apply run_atRest, mount_atRest. Qed.

(** An event whose handler changes nothing leaves a machine at rest as it
    is: no state changed, so nothing renders and no effect runs. *)
Lemma commit_atRest cv m : atRest m -> commit K cv m = m.
Proof.
  intros (Hq & Hv & Hc & _). unfold commit. rewrite <- Hq.
  rewrite sameCameraDeps_refl, sameMaxCaptureDeps_refl, sameCountdownDeps_refl,
    sameKeyboardDeps_refl.
  destruct m as [s r k h v c t q]. cbn in *. now subst.
Qed.

Lemma step_declined cv ev m :
  atRest m -> handle K cv ev m = m -> step K cv ev m = m.
Proof.
  intros H E. unfold step, settle_fuel. rewrite E. cbn [settle].
  rewrite (commit_atRest cv m H).
  destruct H as (Hq & _).
  assert (Q : quiescentb m = true) by now apply quiescentb_eq.
  now rewrite Q.
Qed.

(** *** The tick that brings the countdown to zero *)

Lemma captureImage_appends cv env m :
  captureGuard K env m = false -> context2d cv = true ->
  capturedImages (st (captureImage K cv env m))
  = capturedImages (st m) ++ [dataURL cv].
Proof.
  intros Hg Hc. unfold captureImage. fold (captureGuard K env m).
  rewrite Hg, Hc. cbn [negb]. rewrite st_scheduleNextAutoCapture.
  destruct (_ && _); reflexivity.
Qed.

Lemma captureImage_appends_nothing cv env m :
  captureGuard K env m = true \/ context2d cv = false ->
  capturedImages (st (captureImage K cv env m)) = capturedImages (st m).
Proof.
  intros [H|H].
  - now rewrite captureImage_declined.
  - unfold captureImage. destruct (_ || _); [reflexivity|]. now rewrite H.
Qed.

(** The state that the countdown effect works on when the tick has brought
    a reachable machine from 1 to 0. *)
Lemma tick_to_zero_unfold cv m d rest :
  reachable K m ->
  timers m = mkTimeout d TickDown :: rest ->
  countdown (st m) = Some 1 ->
  exists env m2,
    st (step K cv FireTimer m) = st (captureImage K cv env m2)
    /\ capturedImages (st m2) = capturedImages (st m)
    /\ captureGuard K env m2
       = negb (isCameraStarted (st m)) || negb (isNone (cameraError (st m)))
         || isMaxCaptureReached K (st m)
    /\ isAutoModeEnabled env = isAutoModeEnabled (st m)
    /\ capturedImages env = capturedImages (st m).
Proof.
  intros Hr Ht Hc.
  pose proof (reachable_quiescent m Hr) as Hq.
  pose proof (reachable_ref_unset m 1 Hr Hc ltac:(lia)) as Href.
  pose proof (reachable_isCapturing m Hr) as Hcap.
  unfold step. rewrite st_settle. cbn [handle]. rewrite Ht. cbn [callback runCallback].
  set (h := onSt _ _).
  assert (Hst : st h = setCountdown (fun _ => Some 0) (st m)).
  { subst h. unfold onSt, setCountdown. cbn. now rewrite Hc. }
  assert (Hrd : rendered h = st m) by (subst h; cbn; now rewrite Hq).
  assert (Hh : hasCapturedRef h = false) by (subst h; exact Href).
  clearbody h.
  destruct (commit_unfold cv h) as (m2 & H2 & Hv & Hcv & E2 & E & _).
  rewrite Hrd, Hst in *.
  assert (D1 : sameMaxCaptureDeps K (st m) (setCountdown (fun _ => Some 0) (st m)) = true)
    by exact (sameMaxCaptureDeps_refl (st m)).
  assert (D2 : sameCountdownDeps (st m) (setCountdown (fun _ => Some 0) (st m)) = false).
  { unfold sameCountdownDeps. rewrite Hc. reflexivity. }
  rewrite D1 in E2. rewrite D2 in E.
  unfold effectCountdown in E. cbn [countdown setCountdown] in E.
  rewrite H2, Hh in E. cbn in E.
  exists (setCountdown (fun _ => Some 0) (st m)), (setHasCapturedRef true m2).
  split; [exact E|]. split; [cbn; now rewrite E2|]. split; [|split; reflexivity].
  unfold captureGuard. cbn. rewrite Hv, Hcv, Hcap. cbn [negb orb].
  now rewrite !orb_false_r.
Qed.

(** *** The timeouts across a commit *)

Lemma timers_captureImage cv env m :
  timers (captureImage K cv env m)
  = if captureGuard K env m || negb (context2d cv) then timers m
    else if isAutoModeEnabled env
            && (Z.of_nat (List.length (capturedImages env))
                <? Z.of_nat (MAX_CAPTURE K) - 1)
         then timers m ++ [mkTimeout 1000 (Reseed (selectedTimer K env))]
         else timers m.
Proof.
  unfold captureImage. fold (captureGuard K env m).
  destruct (captureGuard K env m); [reflexivity|].
  destruct (context2d cv); cbn [negb orb]; [|reflexivity].
  unfold scheduleNextAutoCapture. destruct (_ && _); reflexivity.
Qed.

Lemma commit_timers cv m :
  exists m2,
    hasCapturedRef m2 = hasCapturedRef m
    /\ videoRef m2 = isNone (cameraError (st m))
    /\ canvasRef m2 = true
    /\ timers m2 = filter (fun t => negb (isTick t)) (timers m)
    /\ timers (commit K cv m)
       = (if sameCountdownDeps (rendered m) (st m) then timers m
          else timers (effectCountdown K cv (st m) m2)).
Proof.
  unfold commit, effectKeyboard.
  set (m0 := mkMachine _ _ _ _ _ _ _ _).
  set (R := fun x : Machine =>
              hasCapturedRef x = hasCapturedRef m
              /\ videoRef x = isNone (cameraError (st m))
              /\ canvasRef x = true
              /\ timers x = timers m).
  assert (R0 : R m0) by (repeat split).
  set (m1 := if sameCameraDeps _ _ then m0 else _).
  assert (R1 : R m1).
  { subst m1. unfold effectCamera.
    destruct (sameCameraDeps _ _); [exact R0|].
    destruct (isCameraStarted (st m)); exact R0. }
  clearbody m1. clear m0 R0.
  set (m2 := if sameMaxCaptureDeps _ _ _ then m1 else _).
  assert (R2 : R m2).
  { subst m2. unfold effectMaxCapture.
    destruct (sameMaxCaptureDeps _ _ _); [exact R1|].
    destruct (isMaxCaptureReached K (st m) && isAutoSequenceActive (st m)); exact R1. }
  clearbody m2. destruct R2 as (H1 & H2 & H3 & H4).
  exists (clearTick m2).
  split; [exact H1|]. split; [exact H2|]. split; [exact H3|].
  split; [cbn; now rewrite H4|].
  destruct (sameCountdownDeps (rendered m) (st m));
    destruct (sameKeyboardDeps (rendered m) (st m)); try reflexivity; exact H4.
Qed.

Lemma timers_effectCountdown_keeps cv env m x :
  In x (timers m) -> In x (timers (effectCountdown K cv env m)).
Proof.
  intro H. unfold effectCountdown. destruct (countdown env) as [c|]; [|exact H].
  destruct (0 <? c).
  - cbn. apply in_or_app. now left.
  - destruct ((c =? 0) && negb (hasCapturedRef m)); [|exact H].
    rewrite timers_captureImage.
    destruct (_ || _); [exact H|]. destruct (_ && _); [|exact H].
    apply in_or_app. now left.
Qed.

(** A timeout armed by [scheduleNextAutoCapture] is never cleared: it stays
    pending across every render until it fires. *)
Lemma commit_keeps_reseed cv m x :
  isTick x = false -> In x (timers m) -> In x (timers (commit K cv m)).
Proof.
  intros Hx Hin. destruct (commit_timers cv m) as (m2 & _ & _ & _ & T2 & ->).
  destruct (sameCountdownDeps _ _); [exact Hin|].
  apply timers_effectCountdown_keeps. rewrite T2.
  apply filter_In. split; [exact Hin|]. now rewrite Hx.
Qed.

Lemma settle_keeps_reseed cv m x :
  isTick x = false -> In x (timers (commit K cv m)) ->
  In x (timers (settle K settle_fuel cv m)).
Proof.
  intros Hx Hin. destruct (settle_cases cv m) as [-> | ->]; [exact Hin|].
  now apply commit_keeps_reseed.
Qed.

(** What the tick from 1 to 0 leaves behind when the capture goes through. *)
Lemma tick_to_zero_schedule cv m d rest :
  reachable K m ->
  timers m = mkTimeout d TickDown :: rest ->
  countdown (st m) = Some 1 ->
  isCameraStarted (st m) = true -> cameraError (st m) = None ->
  isMaxCaptureReached K (st m) = false -> context2d cv = true ->
  let m' := step K cv FireTimer m in
  if isAutoModeEnabled (st m)
     && (Z.of_nat (List.length (capturedImages (st m))) <? Z.of_nat (MAX_CAPTURE K) - 1)
  then In (mkTimeout 1000 (Reseed (selectedTimer K (st m)))) (timers m')
       /\ countdown (st m') = Some 0
       /\ isAutoSequenceActive (st m') = isAutoSequenceActive (st m)
  else isAutoSequenceActive (st m') = false /\ countdown (st m') = None.
Proof.
  intros Hr Ht Hc Hcam Herr Hmax Hctx m'. subst m'.
  pose proof (reachable_quiescent m Hr) as Hq.
  pose proof (reachable_ref_unset m 1 Hr Hc ltac:(lia)) as Href.
  pose proof (reachable_isCapturing m Hr) as Hcap.
  unfold step. rewrite st_settle.
  set (h := handle K cv FireTimer m).
  assert (Hst : st h = setCountdown (fun _ => Some 0) (st m)).
  { subst h. cbn [handle]. rewrite Ht. cbn. unfold setCountdown. now rewrite Hc. }
  assert (Hrd : rendered h = st m).
  { subst h. cbn [handle]. rewrite Ht. cbn. now rewrite Hq. }
  assert (Hh : hasCapturedRef h = false).
  { subst h. cbn [handle]. rewrite Ht. exact Href. }
  clearbody h.
  assert (D1 : sameMaxCaptureDeps K (st m) (setCountdown (fun _ => Some 0) (st m)) = true)
    by exact (sameMaxCaptureDeps_refl (st m)).
  assert (D2 : sameCountdownDeps (st m) (setCountdown (fun _ => Some 0) (st m)) = false).
  { unfold sameCountdownDeps. rewrite Hc. reflexivity. }
  destruct (commit_unfold cv h) as (m2 & H2 & Hv & Hcv & E2 & E & _).
  destruct (commit_timers cv h) as (m3 & G2 & Gv & Gcv & _ & T).
  rewrite Hrd, Hst in *. rewrite D1 in E2. rewrite D2 in E, T.
  unfold effectCountdown in E, T. cbn [countdown setCountdown] in E, T.
  rewrite H2, Hh in E. rewrite G2, Hh in T. cbn in E, T.
  cbn [cameraError setCountdown] in Hv, Gv. rewrite Herr in Hv, Gv.
  set (env := setCountdown (fun _ => Some 0) (st m)) in *.
  assert (Hg2 : captureGuard K env (setHasCapturedRef true m2) = false).
  { unfold captureGuard, isMaxCaptureReached in *. cbn.
    now rewrite Hv, Hcv, Hcam, Hmax, Hcap. }
  assert (Hg3 : captureGuard K env (setHasCapturedRef true m3) = false).
  { unfold captureGuard, isMaxCaptureReached in *. cbn.
    now rewrite Gv, Gcv, Hcam, Hmax, Hcap. }
  rewrite timers_captureImage, Hg3, Hctx in T. cbn [negb orb] in T.
  rewrite E. unfold captureImage. fold (captureGuard K env (setHasCapturedRef true m2)).
  rewrite Hg2, Hctx. cbn [negb]. rewrite st_scheduleNextAutoCapture.
  change (isAutoModeEnabled env) with (isAutoModeEnabled (st m)) in *.
  change (capturedImages env) with (capturedImages (st m)) in *.
  change (selectedTimer K env) with (selectedTimer K (st m)) in *.
  destruct (isAutoModeEnabled (st m)
            && (Z.of_nat (List.length (capturedImages (st m)))
                <? Z.of_nat (MAX_CAPTURE K) - 1)).
  - split; [|split].
    + apply settle_keeps_reseed; [reflexivity|]. rewrite T.
      apply in_or_app. right. now left.
    + cbn. now rewrite E2.
    + cbn. now rewrite E2.
  - split; reflexivity.
Qed.

(** *** Events that are declined, events that go through *)

Lemma onSt_id f m : f (st m) = st m -> onSt f m = m.
Proof. intro H. unfold onSt. rewrite H. now destruct m. Qed.

Lemma run_app inputs1 inputs2 m :
  run K (inputs1 ++ inputs2) m = run K inputs2 (run K inputs1 m).
Proof.
  revert m; induction inputs1 as [|[cv ev] rest IH]; intro m; cbn; [reflexivity|].
  apply IH.
Qed.

Lemma reachable_step cv ev m : reachable K m -> reachable K (step K cv ev m).
Proof.
  intros [inputs ->]. exists (inputs ++ [(cv, ev)]). now rewrite run_app.
Qed.

(** The guards read by the key listener only depend on its dependencies. *)
Lemma listener_guards a b :
  sameKeyboardDeps a b = true ->
  undoDisabled a = undoDisabled b
  /\ resetDisabled a = resetDisabled b
  /\ autoDisabled K a = autoDisabled K b
  /\ isEmpty (capturedImages a) = isEmpty (capturedImages b).
Proof.
  intro H. apply sameKeyboardDeps_spec in H
    as (H1 & H2 & H3 & H4 & H5 & H6 & H7 & H8).
  unfold undoDisabled, resetDisabled, autoDisabled, isMaxCaptureReached.
  now rewrite H1, H2, H5, H6, H7.
Qed.

(** After a handler that leaves no countdown at zero, settling keeps the
    strip, and what it may do to the sequence state is to clear it. *)
Lemma step_frame cv ev m :
  let h := handle K cv ev m in
  let m' := step K cv ev m in
  (countdown (st h) <> Some 0 -> capturedImages (st m') = capturedImages (st h))
  /\ (countdown (st h) = None -> countdown (st m') = None)
  /\ (isAutoSequenceActive (st h) = false -> isAutoSequenceActive (st m') = false)
  /\ filters (st m') = filters (st h)
  /\ isMirrored (st m') = isMirrored (st h)
  /\ activeFilters (st m') = activeFilters (st h)
  /\ isCameraStarted (st m') = isCameraStarted (st h)
  /\ isAutoModeEnabled (st m') = isAutoModeEnabled (st h).
Proof.
  intros h m'. subst m'. unfold step. rewrite st_settle. fold h.
  destruct (Eff_commit cv h)
    as (_ & Hf & Hm & Hc & _ & Ha & Hauto & _ & Hcd & Hact & _).
  repeat split; auto.
  - apply commit_images_no_zero.
  - intro Hn. destruct Hcd as [-> | ->]; auto.
  - intro Hn. destruct Hact as [-> | ->]; auto.
Qed.

Lemma resetCaptures_declined env s :
  countdown env <> None -> resetCaptures env s = s.
Proof.
  intro H. unfold resetCaptures, resetDisabled.
  destruct (countdown env); [|contradiction]. cbn. now rewrite !orb_true_r.
Qed.

Lemma resetDisabled_countdown env : countdown env <> None -> resetDisabled env = true.
Proof.
  intro H. unfold resetDisabled.
  destruct (countdown env); [|contradiction]. cbn. now rewrite !orb_true_r.
Qed.

Lemma autoDisabled_active env : isAutoSequenceActive env = true -> autoDisabled K env = true.
Proof. intro H. unfold autoDisabled. rewrite H. now rewrite !orb_true_r. Qed.

Lemma toggleAutoMode_declined env s :
  isAutoSequenceActive env = true -> toggleAutoMode K env s = s.
Proof. intro H. unfold toggleAutoMode. now rewrite autoDisabled_active. Qed.

(** *** Toggles read only the filter part of the state *)

Lemma toggleFilter_cong id env env' s s' :
  isCameraStarted env = isCameraStarted env' ->
  filters s = filters s' ->
  isMirrored s = isMirrored s' ->
  activeFilters s = activeFilters s' ->
  filters (toggleFilter id env s) = filters (toggleFilter id env' s')
  /\ isMirrored (toggleFilter id env s) = isMirrored (toggleFilter id env' s')
  /\ activeFilters (toggleFilter id env s) = activeFilters (toggleFilter id env' s').
Proof.
  intros Hc Hf Hm Ha. unfold toggleFilter, filterDisabled. rewrite Hc.
  destruct (negb (isCameraStarted env')); [now repeat split|].
  repeat match goal with
         | |- context [if String.eqb id ?x then _ else _] =>
             destruct (String.eqb id x)
         end; cbn; rewrite ?Hf, ?Hm, ?Ha; repeat split.
Qed.

(** A call of [toggleFilter] on a reachable machine, once settled, has done to
    the filter part of the state what the function does. *)
Lemma step_toggleFilter cv id m :
  reachable K m ->
  let m' := step K cv (Call (HToggleFilter id)) m in
  let s' := toggleFilter id (st m) (st m) in
  filters (st m') = filters s'
  /\ isMirrored (st m') = isMirrored s'
  /\ activeFilters (st m') = activeFilters s'
  /\ isCameraStarted (st m') = isCameraStarted (st m).
Proof.
  intros Hr m' s'. subst m' s'.
  destruct (step_frame cv (Call (HToggleFilter id)) m)
    as (_ & _ & _ & Hf & Hm & Ha & Hc & _).
  cbn [handle call] in Hf, Hm, Ha, Hc.
  rewrite <- (reachable_quiescent m Hr) in Hf, Hm, Ha, Hc.
  rewrite Hf, Hm, Ha, Hc. repeat split.
  apply (toggleFilter_frame id (st m) (st m)).
Qed.

(** *** The timer index *)

Lemma handle_selectedTimerIndex cv ev m :
  let i := selectedTimerIndex (st m) in
  let i' := selectedTimerIndex (st (handle K cv ev m)) in
  i' = i \/ i' = Nat.modulo (i + 1) (List.length (TIMER_OPTIONS K)).
Proof.
  destruct ev; cbn [handle].
  - left. destruct (_ || _); [reflexivity|]. unfold toggleFilter. split_ifs; reflexivity.
  - left. destruct (_ || _); [reflexivity|]. unfold resetFilters. split_ifs; reflexivity.
  - left. unfold undoCapture. split_ifs; reflexivity.
  - destruct (timerDisabled (rendered m)); [now left|].
    unfold cycleTimer. destruct (timerDisabled (rendered m)); [now left|now right].
  - left. unfold mainButton, startCapture. split_ifs; reflexivity.
  - left. unfold toggleAutoMode. split_ifs; reflexivity.
  - left. unfold resetCaptures. split_ifs; reflexivity.
  - left. unfold onSt. cbn [st]. unfold handleKeyDown, startCapture, undoCapture,
      resetCaptures, toggleAutoMode. split_ifs; reflexivity.
  - left. destruct (timers m) as [|t rest]; [reflexivity|].
    destruct (callback t); reflexivity.
  - left. destruct (cameraRequests m); [reflexivity|]. cbn.
    destruct (videoRef m); reflexivity.
  - left. destruct (cameraRequests m); reflexivity.
  - now left.
  - now left.
  - destruct h; cbn [call]; try (now left).
    + left. apply (Eff_captureImage cv (rendered m) m).
    + left. unfold undoCapture. split_ifs; reflexivity.
    + left. unfold resetCaptures. split_ifs; reflexivity.
    + left. unfold resetFilters. split_ifs; reflexivity.
    + left. unfold toggleFilter. split_ifs; reflexivity.
    + left. unfold startCapture. split_ifs; reflexivity.
    + left. unfold toggleAutoMode. split_ifs; reflexivity.
    + unfold cycleTimer. destruct (timerDisabled (rendered m)); [now left|now right].
Qed.

(** With a default index inside [TIMER_OPTIONS], the selected index stays
    inside in every reachable state: [selectedTimer] is an entry of the
    list. *)
Lemma reachable_index_in_range m :
  (DEFAULT_TIMER_INDEX K < List.length (TIMER_OPTIONS K))%nat ->
  reachable K m ->
  (selectedTimerIndex (st m) < List.length (TIMER_OPTIONS K))%nat.
Proof.
  intros Hd [inputs ->].
  assert (G : forall m0,
             (selectedTimerIndex (st m0) < List.length (TIMER_OPTIONS K))%nat ->
             (selectedTimerIndex (st (run K inputs m0))
              < List.length (TIMER_OPTIONS K))%nat).
  { induction inputs as [|[cv ev] rest IH]; intros m0 H0; cbn [run]; [exact H0|].
    apply IH. unfold step. rewrite st_settle.
    destruct (Eff_commit cv (handle K cv ev m0))
      as (_ & _ & _ & _ & _ & _ & _ & -> & _).
    destruct (handle_selectedTimerIndex cv ev m0) as [-> | ->]; [exact H0|].
    apply Nat.mod_upper_bound. lia. }
  apply G. exact Hd.
Qed.

(* ===================================================================== *)
(** ** The properties of the capture state machine *)
(* ===================================================================== *)

(** C1. Whatever the sequence of clicks, key presses, timeouts, camera answers,
    parent renders and direct calls of the component's functions, the strip
    never holds more than [MAX_CAPTURE] images; and [captureImage] called by a
    render whose strip is full changes nothing. *)
Theorem C1_strip_within_quota :
  (forall inputs,
      (List.length (capturedImages (st (run K inputs (mount K)))) <= MAX_CAPTURE K)%nat)
  /\ (forall cv env m,
         (MAX_CAPTURE K <= List.length (capturedImages env))%nat ->
         captureImage K cv env m = m).
Proof.
  split.
  - intro inputs. apply run_withinQuota; [reflexivity|].
    unfold withinQuota. cbn. lia.
  - intros cv env m H. apply captureImage_declined.
    unfold captureGuard, isMaxCaptureReached.
    apply Nat.leb_le in H. rewrite H. now rewrite !orb_true_r.
Qed.

(** C2 (as amended). In every reachable state whose countdown is at 1 with
    its tick pending, the tick brings the countdown to zero and the strip gains
    exactly one image when the camera has started, the video is mounted, the
    quota is not reached and the canvas gives a context; it gains none when
    one of these fails.  And whenever the countdown effect runs at zero with
    the ref unset, the same effect run again changes nothing, because
    [hasCapturedRef] is now set: one image at most is appended. *)
Theorem C2_zero_tick_appends_at_most_once :
  (forall cv m d rest,
      reachable K m ->
      timers m = mkTimeout d TickDown :: rest ->
      countdown (st m) = Some 1 ->
      let m' := step K cv FireTimer m in
      (isCameraStarted (st m) = true -> cameraError (st m) = None ->
       isMaxCaptureReached K (st m) = false -> context2d cv = true ->
       capturedImages (st m') = capturedImages (st m) ++ [dataURL cv])
      /\ (isCameraStarted (st m) = false \/ cameraError (st m) <> None
          \/ isMaxCaptureReached K (st m) = true \/ context2d cv = false ->
          capturedImages (st m') = capturedImages (st m)))
  /\ (forall cv cv' env m,
         countdown env = Some 0 ->
         hasCapturedRef m = false ->
         let m1 := effectCountdown K cv env m in
         (captureGuard K env m = false -> context2d cv = true ->
          capturedImages (st m1) = capturedImages (st m) ++ [dataURL cv])
         /\ (captureGuard K env m = true \/ context2d cv = false ->
             capturedImages (st m1) = capturedImages (st m))
         /\ effectCountdown K cv' env m1 = m1).
Proof.
  split.
  - intros cv m d rest Hr Ht Hc m'. subst m'.
    destruct (tick_to_zero_unfold cv m d rest Hr Ht Hc)
      as (env & m2 & -> & Himg & Hg & _ & _).
    split.
    + intros H1 H2 H3 H4. rewrite captureImage_appends; [now rewrite Himg| |exact H4].
      rewrite Hg, H1, H2, H3. reflexivity.
    + intro H. rewrite captureImage_appends_nothing; [exact Himg|].
      destruct H as [H | [H | [H | H]]]; [left|left|left|now right]; rewrite Hg.
      * now rewrite H.
      * destruct (cameraError (st m)); [|contradiction]. cbn.
        now rewrite orb_true_r.
      * rewrite H. now rewrite orb_true_r.
  - intros cv cv' env m Hc Hr m1. subst m1.
    unfold effectCountdown. rewrite Hc, Hr. cbn.
    assert (Hg : captureGuard K env (setHasCapturedRef true m) = captureGuard K env m)
      by reflexivity.
    split; [|split].
    + intros H1 H2. rewrite captureImage_appends; [reflexivity|now rewrite Hg|exact H2].
    + intro H. rewrite captureImage_appends_nothing; [reflexivity|now rewrite Hg].
    + rewrite captureImage_hasCapturedRef. reflexivity.
Qed.

(** C3. When the default settings do not have grayscale and sepia both on, no
    reachable state has: every sequence of events keeps one of the two at
    zero.  And a grayscale toggle that goes through sets sepia to zero, a
    sepia toggle sets grayscale to zero. *)
Theorem C3_grayscale_sepia_exclusive :
  exclusive (DEFAULT_FILTERS K) ->
  (forall inputs,
      let f := filters (st (run K inputs (mount K))) in
      grayscale f = 0 \/ sepia f = 0)
  /\ (forall env s,
         isCameraStarted env = true ->
         sepia (filters (toggleFilter "grayscale" env s)) = 0
         /\ grayscale (filters (toggleFilter "sepia" env s)) = 0).
Proof.
  intro Hd. split.
  - intro inputs. apply (run_filters_invariant exclusive Hd); [|exact Hd].
    intros id env s. apply toggleFilter_exclusive.
  - intros env s Hc. unfold toggleFilter, filterDisabled. rewrite Hc. now cbn.
Qed.

(** C4. When [captureImage] has appended an image and the resulting state
    allows undo, [undoCapture] called from that state gives back the strip as
    it was before the capture; what it removes is the last entry.  The same
    holds of whole events: when an event on a reachable machine has ended
    with one more image on the strip and undo allowed, the undo button, the
    Backspace and Delete keys and a call of [undoCapture] each bring the strip
    back. *)
Theorem C4_undo_inverts_capture :
  (forall cv env m,
      let m1 := captureImage K cv env m in
      capturedImages (st m1) <> capturedImages (st m) ->
      undoDisabled (st m1) = false ->
      capturedImages (undoCapture (st m1) (st m1)) = capturedImages (st m)
      /\ capturedImages (undoCapture (st m1) (st m1))
         = removelast (capturedImages (st m1)))
  /\ (forall cv cv' ev undo x m,
         reachable K m ->
         let m1 := step K cv ev m in
         capturedImages (st m1) = capturedImages (st m) ++ [x] ->
         undoDisabled (st m1) = false ->
         In undo [ClickUndo; KeyDown "Backspace" false; KeyDown "Delete" false;
                  Call HUndoCapture] ->
         capturedImages (st (step K cv' undo m1)) = capturedImages (st m)).
Proof.
  split.
  - intros cv env m m1 Hap Hun.
    destruct (captureImage_images cv env m) as [Hs | (_ & _ & Hs)];
      fold m1 in Hs; [contradiction|].
    unfold undoCapture. rewrite Hun.
    unfold undoDisabled in Hun. apply orb_false_iff in Hun as [Hun _].
    apply orb_false_iff in Hun as [Hun _]. rewrite Hun. cbn.
    rewrite Hs, removelast_snoc. now split.
  - intros cv cv' ev undo x m Hr m1 Hx Hun Hin.
    assert (Hr1 : reachable K m1) by now apply reachable_step.
    clearbody m1.
    destruct (reachable_atRest m1 Hr1) as (Hq & _ & _ & Hk).
    destruct (listener_guards _ _ Hk) as (Gu & _ & _ & Ge).
    assert (Hne : isEmpty (capturedImages (st m1)) = false).
    { rewrite Hx. now destruct (capturedImages (st m)). }
    assert (Hcd : countdown (st m1) = None).
    { unfold undoDisabled in Hun. destruct (countdown (st m1)); [|reflexivity].
      cbn in Hun. now rewrite orb_true_r in Hun. }
    assert (Hh : st (handle K cv' undo m1)
                 = setCapturedImages (fun prev => removelast prev) (st m1)).
    { destruct Hin as [<- | [<- | [<- | [<- | []]]]]; cbn [handle call].
      - rewrite <- Hq, Hun. cbn. unfold undoCapture. now rewrite Hun, Hne.
      - cbn. unfold undoCapture. now rewrite Gu, Ge, Hun, Hne.
      - cbn. unfold undoCapture. now rewrite Gu, Ge, Hun, Hne.
      - cbn. rewrite <- Hq. unfold undoCapture. now rewrite Hun, Hne. }
    destruct (step_frame cv' undo m1) as (Himg & _).
    rewrite Himg; rewrite Hh; cbn.
    + rewrite Hx. apply removelast_snoc.
    + rewrite Hcd. discriminate.
Qed.

(** C5 (as amended). After a capture that went through: if the render that
    captured had auto mode enabled and fewer than [MAX_CAPTURE - 1] images, a
    timeout of 1000 ms is armed that will clear [hasCapturedRef] and set the
    countdown to that render's selected timer, and neither the countdown nor
    the sequence flag changes meanwhile; otherwise no timeout is armed, the
    sequence flag is cleared and the countdown is set to null.  So it is for
    the capture at the end of a countdown in every reachable state: with auto
    mode enabled and room for more than one image the timeout is pending
    after the tick and the countdown stays at 0; otherwise the sequence flag
    is cleared and the countdown is null. *)
Theorem C5_schedule_after_capture :
  (forall cv env m,
      captureGuard K env m = false ->
      context2d cv = true ->
      let m' := captureImage K cv env m in
      if isAutoModeEnabled env
         && (Z.of_nat (List.length (capturedImages env)) <? Z.of_nat (MAX_CAPTURE K) - 1)
      then timers m' = timers m ++ [mkTimeout 1000 (Reseed (selectedTimer K env))]
           /\ countdown (st m') = countdown (st m)
           /\ isAutoSequenceActive (st m') = isAutoSequenceActive (st m)
           /\ (forall m2,
                  let m3 := runCallback (Reseed (selectedTimer K env)) m2 in
                  countdown (st m3) = Some (selectedTimer K env)
                  /\ hasCapturedRef m3 = false)
      else timers m' = timers m
           /\ isAutoSequenceActive (st m') = false
           /\ countdown (st m') = None)
  /\ (forall cv m d rest,
         reachable K m ->
         timers m = mkTimeout d TickDown :: rest ->
         countdown (st m) = Some 1 ->
         isCameraStarted (st m) = true -> cameraError (st m) = None ->
         isMaxCaptureReached K (st m) = false -> context2d cv = true ->
         let m' := step K cv FireTimer m in
         if isAutoModeEnabled (st m)
            && (Z.of_nat (List.length (capturedImages (st m)))
                <? Z.of_nat (MAX_CAPTURE K) - 1)
         then In (mkTimeout 1000 (Reseed (selectedTimer K (st m)))) (timers m')
              /\ countdown (st m') = Some 0
              /\ isAutoSequenceActive (st m') = isAutoSequenceActive (st m)
         else isAutoSequenceActive (st m') = false /\ countdown (st m') = None).
Proof.
  split.
  - intros cv env m Hg Hc m'. subst m'. unfold captureImage.
    fold (captureGuard K env m).
    rewrite Hg, Hc. cbn [negb]. unfold scheduleNextAutoCapture.
    destruct (_ && _); repeat split.
  - apply tick_to_zero_schedule.
Qed.

(** C6 (as amended). In every reachable state with a countdown in progress
    the Escape key, the reset button and a call of [resetCaptures] are
    declined by [resetDisabled] and change nothing.  In every reachable state
    where reset is not disabled each of them empties the strip, clears the
    sequence flag and sets the countdown to null. *)
Theorem C6_reset_guarded :
  (forall cv m,
      reachable K m -> countdown (st m) <> None ->
      step K cv (KeyDown "Escape" false) m = m
      /\ step K cv ClickReset m = m
      /\ step K cv (Call HResetCaptures) m = m)
  /\ (forall cv ev m,
         reachable K m -> resetDisabled (st m) = false ->
         In ev [KeyDown "Escape" false; ClickReset; Call HResetCaptures] ->
         let m' := step K cv ev m in
         capturedImages (st m') = []
         /\ isAutoSequenceActive (st m') = false
         /\ countdown (st m') = None).
Proof.
  split.
  - intros cv m Hr Hc.
    pose proof (reachable_atRest m Hr) as Hrest.
    destruct Hrest as (Hq & _ & _ & Hk).
    destruct (listener_guards _ _ Hk) as (_ & Gr & _ & _).
    pose proof (resetDisabled_countdown (st m) Hc) as Hd.
    repeat split; apply step_declined; try (now apply reachable_atRest);
      cbn [handle call].
    + apply onSt_id. cbn. unfold resetCaptures. now rewrite Gr, Hd.
    + now rewrite <- Hq, Hd.
    + apply onSt_id. rewrite <- Hq. now apply resetCaptures_declined.
  - intros cv ev m Hr Hd Hin m'.
    destruct (reachable_atRest m Hr) as (Hq & _ & _ & Hk).
    destruct (listener_guards _ _ Hk) as (_ & Gr & _ & _).
    assert (Hh : st (handle K cv ev m)
                 = stopAutoSequence (setCapturedImages (fun _ => []) (st m))).
    { destruct Hin as [<- | [<- | [<- | []]]]; cbn [handle call].
      - cbn. unfold resetCaptures. now rewrite Gr, Hd.
      - rewrite <- Hq, Hd. cbn. unfold resetCaptures. now rewrite Hd.
      - cbn. rewrite <- Hq. unfold resetCaptures. now rewrite Hd. }
    destruct (step_frame cv ev m) as (Himg & Hcd & Hact & _).
    subst m'. rewrite Hh in Himg, Hcd, Hact.
    split; [|split].
    + rewrite Himg; [reflexivity|discriminate].
    + now apply Hact.
    + now apply Hcd.
Qed.

(** C7 (as amended). In every reachable state with an auto sequence active
    the [a] key, the auto button and a call of [toggleAutoMode] are declined
    by [autoDisabled] and change nothing.  The sequence is stopped by
    [stopAutoSequence], which the Space and Enter keys and the main button
    call while the sequence is active and [canProceedToLayout] is false: the
    sequence flag is cleared and the countdown set to null.  When
    [toggleAutoMode] is not disabled it flips the auto-mode flag and nothing
    else. *)
Theorem C7_auto_toggle_guarded :
  (forall cv m,
      reachable K m -> isAutoSequenceActive (st m) = true ->
      step K cv (KeyDown "a" false) m = m
      /\ step K cv ClickAuto m = m
      /\ step K cv (Call HToggleAutoMode) m = m)
  /\ (forall cv ev m,
         reachable K m -> isAutoSequenceActive (st m) = true ->
         canProceedToLayout (st m) = false ->
         ev = KeyDown " " false \/ ev = KeyDown "Enter" false
         \/ ev = Call HStopAutoSequence
         \/ (ev = ClickCapture /\ captureDisabled K (st m) = false) ->
         let m' := step K cv ev m in
         isAutoSequenceActive (st m') = false /\ countdown (st m') = None)
  /\ (forall env s,
         autoDisabled K env = false ->
         toggleAutoMode K env s = setIsAutoModeEnabled negb s).
Proof.
  split; [|split].
  - intros cv m Hr Hact.
    destruct (reachable_atRest m Hr) as (Hq & _ & _ & Hk).
    destruct (listener_guards _ _ Hk) as (_ & _ & Ga & _).
    pose proof (autoDisabled_active (st m) Hact) as Hd.
    repeat split; apply step_declined; try (now apply reachable_atRest);
      cbn [handle call].
    + apply onSt_id. cbn. unfold toggleAutoMode. now rewrite Ga, Hd.
    + now rewrite <- Hq, Hd.
    + apply onSt_id. rewrite <- Hq. now apply toggleAutoMode_declined.
  - intros cv ev m Hr Hact Hcan Hev m'.
    destruct (reachable_atRest m Hr) as (Hq & _ & _ & Hk).
    apply sameKeyboardDeps_spec in Hk as (_ & _ & _ & _ & _ & Ka & _ & Kc).
    assert (Hh : st (handle K cv ev m) = stopAutoSequence (st m)).
    { destruct Hev as [-> | [-> | [-> | [-> Hen]]]]; cbn [handle call].
      - cbn. now rewrite Kc, Hcan, Ka, Hact.
      - cbn. now rewrite Kc, Hcan, Ka, Hact.
      - reflexivity.
      - rewrite <- Hq, Hen. cbn. unfold mainButton. now rewrite Hcan, Hact. }
    destruct (step_frame cv ev m) as (_ & Hcd & Ha & _).
    subst m'. rewrite Hh in Hcd, Ha. split; [now apply Ha|now apply Hcd].
  - intros env s Hdis. unfold toggleAutoMode. rewrite Hdis.
    unfold autoDisabled in Hdis. apply orb_false_iff in Hdis as [_ Hact].
    now rewrite Hact.
Qed.

(** C8. [captureImage] called by a render whose strip is full, or which is
    capturing, or whose camera has not started, returns at once: the machine,
    that is the strip, every state variable, the refs and the timers, is
    unchanged.  A call of [captureImage] in a reachable state of that kind
    leaves the whole component as it was. *)
Theorem C8_capture_declines :
  (forall cv env m,
      isMaxCaptureReached K env = true \/ isCapturing env = true
      \/ isCameraStarted env = false ->
      captureImage K cv env m = m)
  /\ (forall cv m,
         reachable K m ->
         isMaxCaptureReached K (st m) = true \/ isCapturing (st m) = true
         \/ isCameraStarted (st m) = false ->
         step K cv (Call HCaptureImage) m = m).
Proof.
  assert (G : forall cv env m,
             isMaxCaptureReached K env = true \/ isCapturing env = true
             \/ isCameraStarted env = false ->
             captureImage K cv env m = m).
  { intros cv env m H. apply captureImage_declined. unfold captureGuard.
    destruct H as [-> | [-> | ->]]; cbn; now rewrite ?orb_true_r. }
  split; [exact G|].
  intros cv m Hr H. apply step_declined; [now apply reachable_atRest|].
  cbn [handle call]. apply G. now rewrite <- (reachable_quiescent m Hr).
Qed.

(** C9 (as amended). With the camera started and every knob at its neutral or
    active value: toggling mirror, brightness, contrast or saturate twice
    gives back the settings, the mirror flag and the same highlighted
    buttons; toggling grayscale (sepia) twice does so when sepia (grayscale)
    is off, at zero and not highlighted, before the first toggle.  This holds
    of two calls of [toggleFilter] in a row, and of two calls with a render in
    between in every reachable state, where the knobs are at such values as
    soon as the defaults are. *)
Theorem C9_toggle_twice :
  (forall id s,
      isCameraStarted s = true ->
      In id ["mirror"; "grayscale"; "sepia"; "brightness"; "contrast"; "saturate"] ->
      toggleValued (filters s) ->
      (id = "grayscale" ->
       sepia (filters s) = 0 /\ includes "sepia" (activeFilters s) = false) ->
      (id = "sepia" ->
       grayscale (filters s) = 0 /\ includes "grayscale" (activeFilters s) = false) ->
      let s1 := toggleFilter id s s in
      let s2 := toggleFilter id s1 s1 in
      filters s2 = filters s
      /\ isMirrored s2 = isMirrored s
      /\ sameActive (activeFilters s2) (activeFilters s))
  /\ (forall cv cv' id m,
         reachable K m ->
         toggleValued (DEFAULT_FILTERS K) ->
         isCameraStarted (st m) = true ->
         In id ["mirror"; "grayscale"; "sepia"; "brightness"; "contrast"; "saturate"] ->
         (id = "grayscale" ->
          sepia (filters (st m)) = 0
          /\ includes "sepia" (activeFilters (st m)) = false) ->
         (id = "sepia" ->
          grayscale (filters (st m)) = 0
          /\ includes "grayscale" (activeFilters (st m)) = false) ->
         let m2 := step K cv' (Call (HToggleFilter id))
                     (step K cv (Call (HToggleFilter id)) m) in
         filters (st m2) = filters (st m)
         /\ isMirrored (st m2) = isMirrored (st m)
         /\ sameActive (activeFilters (st m2)) (activeFilters (st m))).
Proof.
  assert (G : forall id s,
      isCameraStarted s = true ->
      In id ["mirror"; "grayscale"; "sepia"; "brightness"; "contrast"; "saturate"] ->
      toggleValued (filters s) ->
      (id = "grayscale" ->
       sepia (filters s) = 0 /\ includes "sepia" (activeFilters s) = false) ->
      (id = "sepia" ->
       grayscale (filters s) = 0 /\ includes "grayscale" (activeFilters s) = false) ->
      let s1 := toggleFilter id s s in
      let s2 := toggleFilter id s1 s1 in
      filters s2 = filters s
      /\ isMirrored s2 = isMirrored s
      /\ sameActive (activeFilters s2) (activeFilters s)).
  { intros id s Hc Hid (Hb & Hk & Hg & Hs & Ha) Hgray Hsep s1 s2.
    assert (Hc1 : isCameraStarted s1 = true).
    { subst s1. destruct (toggleFilter_frame id s s) as (_ & _ & -> & _). exact Hc. }
    subst s2 s1. revert Hc1. unfold toggleFilter, filterDisabled.
    rewrite Hc. cbn [negb]. intros ->. cbn [negb].
    destruct (filters s) as [b k g p a] eqn:Ef.
    cbn [brightness contrast grayscale sepia saturate] in Hb, Hk, Hg, Hs, Ha, Hgray, Hsep.
    destruct Hid as [<- | [<- | [<- | [<- | [<- | [<- | []]]]]]]; cbn.
    - rewrite Ef, negb_involutive. repeat split. intro x. apply flipActive_twice.
    - destruct (Hgray eq_refl) as [-> Hns]. rewrite Ef. cbn. repeat split.
      + destruct Hg as [-> | ->]; reflexivity.
      + intro x. apply flipTone_twice with (other := "sepia"); auto.
    - destruct (Hsep eq_refl) as [-> Hng]. rewrite Ef. cbn. repeat split.
      + destruct Hs as [-> | ->]; reflexivity.
      + intro x. apply flipTone_twice with (other := "grayscale"); auto.
    - rewrite Ef. cbn. repeat split.
      + destruct Hb as [-> | ->]; reflexivity.
      + intro x. apply flipActive_twice.
    - rewrite Ef. cbn. repeat split.
      + destruct Hk as [-> | ->]; reflexivity.
      + intro x. apply flipActive_twice.
    - rewrite Ef. cbn. repeat split.
      + destruct Ha as [-> | ->]; reflexivity.
      + intro x. apply flipActive_twice. }
  split; [exact G|].
  intros cv cv' id m Hr Hd Hc Hid Hgray Hsep m2. subst m2.
  set (m1 := step K cv (Call (HToggleFilter id)) m).
  assert (Hr1 : reachable K m1) by now apply reachable_step.
  destruct (step_toggleFilter cv id m Hr) as (F1 & M1 & A1 & C1).
  fold m1 in F1, M1, A1, C1. clearbody m1.
  destruct (step_toggleFilter cv' id m1 Hr1) as (F2 & M2 & A2 & _).
  destruct (toggleFilter_cong id (st m1) (toggleFilter id (st m) (st m))
              (st m1) (toggleFilter id (st m) (st m)))
    as (F3 & M3 & A3); auto.
  { rewrite C1. symmetry. apply (toggleFilter_frame id (st m) (st m)). }
  rewrite F2, M2, A2, F3, M3, A3.
  apply (G id (st m)); auto.
  now apply reachable_toggleValued.
Qed.

(** C10. [resetFilters] called by a render whose strip is empty, or whose auto
    sequence is active, or whose countdown is in progress, changes nothing:
    the settings and the highlighted buttons stay as they are.  So in a
    reachable state of that kind, and in particular before a first image is on
    the strip, neither a call of [resetFilters] nor the reset-filters button
    brings the settings back to the defaults. *)
Theorem C10_resetFilters_guarded :
  (forall env s,
      capturedImages env = [] \/ isAutoSequenceActive env = true
      \/ countdown env <> None ->
      resetFilters K env s = s
      /\ filters (resetFilters K env s) = filters s
      /\ activeFilters (resetFilters K env s) = activeFilters s)
  /\ (forall cv m,
         reachable K m ->
         capturedImages (st m) = [] \/ isAutoSequenceActive (st m) = true
         \/ countdown (st m) <> None ->
         step K cv (Call HResetFilters) m = m
         /\ step K cv ClickResetFilters m = m).
Proof.
  assert (G : forall env s,
             capturedImages env = [] \/ isAutoSequenceActive env = true
             \/ countdown env <> None ->
             resetFilters K env s = s).
  { intros env s H. unfold resetFilters, resetDisabled.
    destruct H as [-> | [-> | H]]; cbn.
    - reflexivity.
    - now rewrite orb_true_r.
    - destruct (countdown env); [|contradiction]. cbn. now rewrite !orb_true_r. }
  split.
  - intros env s H. rewrite (G env s H). repeat split.
  - intros cv m Hr H. pose proof (reachable_quiescent m Hr) as Hq.
    split; apply step_declined; try (now apply reachable_atRest);
      cbn [handle call].
    + apply onSt_id. apply G. now rewrite <- Hq.
    + destruct (_ || _); [reflexivity|].
      apply onSt_id. apply G. now rewrite <- Hq.
Qed.

End Properties.

(* ===================================================================== *)
(** ** The properties on concrete runs *)
(* ===================================================================== *)

Lemma play_reachable events : reachable specConstants (play events).
Proof. unfold play. now exists (map (fun ev => (png, ev)) events). Qed.

(** C2, counterexample.  Without a camera the countdown started from the
    keyboard reaches zero, the zero branch of the effect runs (the ref is
    set), and no image is appended. *)
Lemma C2_counterexample :
  let m := noCameraAtOne in
  let m' := step specConstants png FireTimer m in
  countdown (st m) = Some 1
  /\ countdown (st m') = Some 0
  /\ hasCapturedRef m' = true
  /\ capturedImages (st m') = capturedImages (st m)
  /\ List.length (capturedImages (st m')) <> S (List.length (capturedImages (st m))).
Proof. vm_compute. repeat split. discriminate. Qed.

(** C5, counterexample.  The sequence flag is off, auto mode is on: the
    capture at the end of the countdown arms a new countdown and leaves the
    countdown at 0 instead of null.  This is so after the [a] key and Space,
    and also when a sequence stopped during its pause is started again by the
    timeout left pending. *)
Lemma C5_counterexample :
  let m := staleSpaceAtOne in
  let m' := step specConstants png FireTimer m in
  let p := restartedAtOne in
  let p' := step specConstants png FireTimer p in
  isAutoSequenceActive (st m) = false
  /\ capturedImages (st m') = capturedImages (st m) ++ [dataURL png]
  /\ timers m' = [mkTimeout 1000 (Reseed 3)]
  /\ countdown (st m') = Some 0
  /\ countdown (st m') <> None
  /\ countdown (st (step specConstants png FireTimer m')) = Some 3
  /\ isAutoSequenceActive (st p) = false
  /\ capturedImages (st p') = capturedImages (st p) ++ [dataURL png]
  /\ timers p' = [mkTimeout 1000 (Reseed 3)]
  /\ countdown (st p') <> None.
Proof. vm_compute. repeat split; discriminate. Qed.

(** C6, counterexample.  With the countdown at 2 and one image on the strip,
    neither Escape nor [resetCaptures] nor the reset button changes
    anything. *)
Lemma C6_counterexample :
  let m := oneImageCountdownTwo in
  countdown (st m) = Some 2
  /\ capturedImages (st m) = [dataURL png]
  /\ countdown (st (step specConstants png (key "Escape") m)) <> None
  /\ capturedImages (st (step specConstants png (key "Escape") m)) <> []
  /\ step specConstants png (key "Escape") m = m
  /\ step specConstants png (Call HResetCaptures) m = m
  /\ step specConstants png ClickReset m = m.
Proof. vm_compute. repeat split; discriminate. Qed.

(** C7, counterexample.  With an auto sequence active, neither the [a] key
    nor [toggleAutoMode] nor the auto button changes anything: the sequence
    flag stays set, the countdown goes on and ends in a capture that arms the
    next countdown. *)
Lemma C7_counterexample :
  let m := autoSequenceRunning in
  isAutoSequenceActive (st m) = true
  /\ countdown (st m) = Some 3
  /\ isAutoSequenceActive (st (step specConstants png (key "a") m)) <> false
  /\ countdown (st (step specConstants png (key "a") m)) <> None
  /\ step specConstants png (key "a") m = m
  /\ step specConstants png (Call HToggleAutoMode) m = m
  /\ step specConstants png ClickAuto m = m
  /\ let m' := run specConstants
                 [(png, key "a"); (png, FireTimer); (png, FireTimer); (png, FireTimer)] m in
     capturedImages (st m') = [dataURL png]
     /\ isAutoSequenceActive (st m') = true
     /\ timers m' = [mkTimeout 1000 (Reseed 3)].
Proof. vm_compute. repeat split; discriminate. Qed.

(** C9, counterexample.  With sepia on, two grayscale toggles leave sepia off
    and its button no longer highlighted. *)
Lemma C9_counterexample :
  let s := st sepiaOn in
  let s1 := toggleFilter "grayscale" s s in
  let s2 := toggleFilter "grayscale" s1 s1 in
  isCameraStarted s = true
  /\ filters s2 <> filters s
  /\ sepia (filters s) = 100 /\ sepia (filters s2) = 0
  /\ includes "sepia" (activeFilters s) = true
  /\ includes "sepia" (activeFilters s2) = false
  /\ st (play [CameraGranted; ClickFilter "sepia";
               ClickFilter "grayscale"; ClickFilter "grayscale"]) = s2.
Proof. vm_compute. repeat split. discriminate. Qed.

(** C1 on a run that ends with one image, and on a render whose strip is full. *)
Lemma C1_witness :
  (List.length (capturedImages (st oneImageIdle)) <= MAX_CAPTURE specConstants)%nat
  /\ (MAX_CAPTURE specConstants <= List.length (capturedImages fullRender))%nat
  /\ captureImage specConstants png fullRender fullMachine = fullMachine.
Proof.
  destruct (C1_strip_within_quota specConstants) as [Hrun Hfull].
  split; [|split].
  - unfold oneImageIdle, play. apply Hrun.
  - cbn. lia.
  - apply Hfull. cbn. lia.
Defined.

(** C2 on the run of a single-shot countdown with the camera on, on the run
    without a camera, and on a zero render. *)
Lemma C2_witness :
  reachable specConstants singleShotAtOne
  /\ timers singleShotAtOne = [mkTimeout 1000 TickDown]
  /\ countdown (st singleShotAtOne) = Some 1
  /\ capturedImages (st (step specConstants png FireTimer singleShotAtOne))
     = capturedImages (st singleShotAtOne) ++ [dataURL png]
  /\ capturedImages (st (step specConstants png FireTimer noCameraAtOne))
     = capturedImages (st noCameraAtOne)
  /\ countdown zeroRender = Some 0
  /\ hasCapturedRef zeroMachine = false
  /\ effectCountdown specConstants png zeroRender
       (effectCountdown specConstants png zeroRender zeroMachine)
     = effectCountdown specConstants png zeroRender zeroMachine.
Proof.
  destruct (C2_zero_tick_appends_at_most_once specConstants) as [Htick Heffect].
  assert (R1 : reachable specConstants singleShotAtOne) by apply play_reachable.
  assert (R2 : reachable specConstants noCameraAtOne) by apply play_reachable.
  assert (T1 : timers singleShotAtOne = [mkTimeout 1000 TickDown])
    by (vm_compute; reflexivity).
  assert (T2 : timers noCameraAtOne = [mkTimeout 1000 TickDown])
    by (vm_compute; reflexivity).
  assert (C1 : countdown (st singleShotAtOne) = Some 1) by (vm_compute; reflexivity).
  assert (C2 : countdown (st noCameraAtOne) = Some 1) by (vm_compute; reflexivity).
  assert (S1 : isCameraStarted (st singleShotAtOne) = true)
    by (vm_compute; reflexivity).
  assert (E1 : cameraError (st singleShotAtOne) = None) by (vm_compute; reflexivity).
  assert (Q1 : isMaxCaptureReached specConstants (st singleShotAtOne) = false)
    by (vm_compute; reflexivity).
  assert (S2 : isCameraStarted (st noCameraAtOne) = false)
    by (vm_compute; reflexivity).
  split; [exact R1|]. split; [exact T1|]. split; [exact C1|].
  split; [|split; [|split; [|split]]].
  - exact (proj1 (Htick png _ _ _ R1 T1 C1) S1 E1 Q1 eq_refl).
  - exact (proj2 (Htick png _ _ _ R2 T2 C2) (or_introl S2)).
  - reflexivity.
  - reflexivity.
  - exact (proj2 (proj2 (Heffect png png zeroRender zeroMachine eq_refl eq_refl))).
Defined.

(** C3 with the defaults of [specConstants], on the run that switches sepia
    on. *)
Lemma C3_witness :
  exclusive (DEFAULT_FILTERS specConstants)
  /\ (grayscale (filters (st sepiaOn)) = 0 \/ sepia (filters (st sepiaOn)) = 0)
  /\ sepia (filters (toggleFilter "grayscale" (st sepiaOn) (st sepiaOn))) = 0.
Proof.
  assert (Hd : exclusive (DEFAULT_FILTERS specConstants)) by (left; reflexivity).
  destruct (C3_grayscale_sepia_exclusive specConstants Hd) as [Hrun Htoggle].
  assert (Hc : isCameraStarted (st sepiaOn) = true) by (vm_compute; reflexivity).
  split; [exact Hd|]. split.
  - unfold sepiaOn, play. apply Hrun.
  - exact (proj1 (Htoggle (st sepiaOn) (st sepiaOn) Hc)).
Defined.

(** C4 on the capture that ends a single-shot countdown, undone by Backspace,
    and on [captureImage] followed by [undoCapture]. *)
Lemma C4_witness :
  reachable specConstants singleShotAtOne
  /\ capturedImages (st (step specConstants png FireTimer singleShotAtOne))
     = capturedImages (st singleShotAtOne) ++ [dataURL png]
  /\ undoDisabled (st (step specConstants png FireTimer singleShotAtOne)) = false
  /\ capturedImages
       (st (step specConstants png (KeyDown "Backspace" false)
              (step specConstants png FireTimer singleShotAtOne)))
     = capturedImages (st singleShotAtOne)
  /\ capturedImages
       (undoCapture
          (st (captureImage specConstants png singleShotRender singleShotMachine))
          (st (captureImage specConstants png singleShotRender singleShotMachine)))
     = capturedImages (st singleShotMachine).
Proof.
  destruct (C4_undo_inverts_capture specConstants) as [Hcall Hevent].
  assert (R1 : reachable specConstants singleShotAtOne) by apply play_reachable.
  assert (A1 : capturedImages (st (step specConstants png FireTimer singleShotAtOne))
               = capturedImages (st singleShotAtOne) ++ [dataURL png])
    by (vm_compute; reflexivity).
  assert (U1 : undoDisabled (st (step specConstants png FireTimer singleShotAtOne))
               = false) by (vm_compute; reflexivity).
  assert (A2 : capturedImages
                 (st (captureImage specConstants png singleShotRender singleShotMachine))
               <> capturedImages (st singleShotMachine))
    by (vm_compute; discriminate).
  assert (U2 : undoDisabled
                 (st (captureImage specConstants png singleShotRender singleShotMachine))
               = false) by (vm_compute; reflexivity).
  split; [exact R1|]. split; [exact A1|]. split; [exact U1|]. split.
  - apply (Hevent png png FireTimer (KeyDown "Backspace" false) (dataURL png)
             singleShotAtOne R1 A1 U1).
    right. left. reflexivity.
  - exact (proj1 (Hcall png singleShotRender singleShotMachine A2 U2)).
Defined.

(** C5 on a render in auto mode, on a single-shot render, and on the two runs
    that end a countdown with auto mode on and off. *)
Lemma C5_witness :
  captureGuard specConstants zeroRender zeroMachine = false
  /\ context2d png = true
  /\ timers (captureImage specConstants png zeroRender zeroMachine)
     = [mkTimeout 1000 (Reseed 3)]
  /\ countdown
       (st (captureImage specConstants png singleShotRender singleShotMachine)) = None
  /\ reachable specConstants staleSpaceAtOne
  /\ timers staleSpaceAtOne = [mkTimeout 1000 TickDown]
  /\ countdown (st staleSpaceAtOne) = Some 1
  /\ isAutoModeEnabled (st staleSpaceAtOne) = true
  /\ In (mkTimeout 1000 (Reseed 3))
        (timers (step specConstants png FireTimer staleSpaceAtOne))
  /\ countdown (st (step specConstants png FireTimer singleShotAtOne)) = None.
Proof.
  destruct (C5_schedule_after_capture specConstants) as [Hcall Hevent].
  pose proof (Hcall png zeroRender zeroMachine eq_refl eq_refl) as Hauto.
  pose proof (Hcall png singleShotRender singleShotMachine eq_refl eq_refl) as Hsingle.
  cbn in Hauto, Hsingle.
  assert (R1 : reachable specConstants staleSpaceAtOne) by apply play_reachable.
  assert (R2 : reachable specConstants singleShotAtOne) by apply play_reachable.
  assert (T1 : timers staleSpaceAtOne = [mkTimeout 1000 TickDown])
    by (vm_compute; reflexivity).
  assert (T2 : timers singleShotAtOne = [mkTimeout 1000 TickDown])
    by (vm_compute; reflexivity).
  assert (C1 : countdown (st staleSpaceAtOne) = Some 1) by (vm_compute; reflexivity).
  assert (C2 : countdown (st singleShotAtOne) = Some 1) by (vm_compute; reflexivity).
  assert (S1 : isCameraStarted (st staleSpaceAtOne) = true)
    by (vm_compute; reflexivity).
  assert (S2 : isCameraStarted (st singleShotAtOne) = true)
    by (vm_compute; reflexivity).
  assert (E1 : cameraError (st staleSpaceAtOne) = None) by (vm_compute; reflexivity).
  assert (E2 : cameraError (st singleShotAtOne) = None) by (vm_compute; reflexivity).
  assert (Q1 : isMaxCaptureReached specConstants (st staleSpaceAtOne) = false)
    by (vm_compute; reflexivity).
  assert (Q2 : isMaxCaptureReached specConstants (st singleShotAtOne) = false)
    by (vm_compute; reflexivity).
  assert (A1 : isAutoModeEnabled (st staleSpaceAtOne) = true)
    by (vm_compute; reflexivity).
  assert (A2 : isAutoModeEnabled (st singleShotAtOne) = false)
    by (vm_compute; reflexivity).
  assert (L1 : (Z.of_nat (List.length (capturedImages (st staleSpaceAtOne)))
                <? Z.of_nat (MAX_CAPTURE specConstants) - 1) = true)
    by (vm_compute; reflexivity).
  pose proof (Hevent png _ _ _ R1 T1 C1 S1 E1 Q1 eq_refl) as X1.
  pose proof (Hevent png _ _ _ R2 T2 C2 S2 E2 Q2 eq_refl) as X2.
  cbv zeta in X1, X2. rewrite A1, L1 in X1. rewrite A2 in X2.
  cbn [andb] in X1, X2.
  split; [reflexivity|]. split; [reflexivity|]. split; [apply Hauto|].
  split; [apply Hsingle|]. split; [exact R1|]. split; [exact T1|].
  split; [exact C1|]. split; [exact A1|]. split.
  - assert (Sel : selectedTimer specConstants (st staleSpaceAtOne) = 3)
      by (vm_compute; reflexivity).
    rewrite Sel in X1. exact (proj1 X1).
  - exact (proj2 X2).
Defined.

(** C6 on the run with a countdown at 2, where Escape is declined, and on the
    idle run with one image, where it empties the strip. *)
Lemma C6_witness :
  reachable specConstants oneImageCountdownTwo
  /\ countdown (st oneImageCountdownTwo) <> None
  /\ step specConstants png (KeyDown "Escape" false) oneImageCountdownTwo
     = oneImageCountdownTwo
  /\ reachable specConstants oneImageIdle
  /\ resetDisabled (st oneImageIdle) = false
  /\ capturedImages (st (step specConstants png (KeyDown "Escape" false) oneImageIdle))
     = [].
Proof.
  destruct (C6_reset_guarded specConstants) as [Hdeclined Hreset].
  assert (R1 : reachable specConstants oneImageCountdownTwo) by apply play_reachable.
  assert (R2 : reachable specConstants oneImageIdle) by apply play_reachable.
  assert (Hc : countdown (st oneImageCountdownTwo) <> None)
    by (vm_compute; discriminate).
  assert (Hr : resetDisabled (st oneImageIdle) = false)
    by (vm_compute; reflexivity).
  split; [exact R1|]. split; [exact Hc|]. split; [|split; [exact R2|split]].
  - exact (proj1 (Hdeclined png _ R1 Hc)).
  - exact Hr.
  - exact (proj1 (Hreset png (KeyDown "Escape" false) _ R2 Hr (or_introl eq_refl))).
Defined.

(** C7 on the run with an auto sequence under way: the [a] key is declined,
    Space stops the sequence; and on the run where the auto button is enabled. *)
Lemma C7_witness :
  reachable specConstants autoSequenceRunning
  /\ isAutoSequenceActive (st autoSequenceRunning) = true
  /\ canProceedToLayout (st autoSequenceRunning) = false
  /\ step specConstants png (KeyDown "a" false) autoSequenceRunning
     = autoSequenceRunning
  /\ countdown (st (step specConstants png (KeyDown " " false) autoSequenceRunning))
     = None
  /\ autoDisabled specConstants (st cameraOn) = false
  /\ toggleAutoMode specConstants (st cameraOn) (st cameraOn)
     = setIsAutoModeEnabled negb (st cameraOn).
Proof.
  destruct (C7_auto_toggle_guarded specConstants) as (Hdeclined & Hstop & Hflip).
  assert (R1 : reachable specConstants autoSequenceRunning) by apply play_reachable.
  assert (Hact : isAutoSequenceActive (st autoSequenceRunning) = true)
    by (vm_compute; reflexivity).
  assert (Hcan : canProceedToLayout (st autoSequenceRunning) = false)
    by (vm_compute; reflexivity).
  assert (Hen : autoDisabled specConstants (st cameraOn) = false)
    by (vm_compute; reflexivity).
  split; [exact R1|]. split; [exact Hact|]. split; [exact Hcan|].
  split; [|split; [|split]].
  - exact (proj1 (Hdeclined png _ R1 Hact)).
  - exact (proj2 (Hstop png (KeyDown " " false) _ R1 Hact Hcan (or_introl eq_refl))).
  - exact Hen.
  - exact (Hflip _ (st cameraOn) Hen).
Defined.

(** C8 on a render whose strip is full and on the run without a camera. *)
Lemma C8_witness :
  isMaxCaptureReached specConstants fullRender = true
  /\ captureImage specConstants png fullRender fullMachine = fullMachine
  /\ reachable specConstants noCameraAtOne
  /\ isCameraStarted (st noCameraAtOne) = false
  /\ step specConstants png (Call HCaptureImage) noCameraAtOne = noCameraAtOne.
Proof.
  destruct (C8_capture_declines specConstants) as [Hcall Hevent].
  assert (R1 : reachable specConstants noCameraAtOne) by apply play_reachable.
  assert (S1 : isCameraStarted (st noCameraAtOne) = false)
    by (vm_compute; reflexivity).
  split; [reflexivity|]. split; [|split; [exact R1|split; [exact S1|]]].
  - apply Hcall. left. reflexivity.
  - exact (Hevent png _ R1 (or_intror (or_intror S1))).
Defined.

(** C9 for two grayscale toggles with sepia off, as calls and as events. *)
Lemma C9_witness :
  let s := st cameraOn in
  let s2 := toggleFilter "grayscale" (toggleFilter "grayscale" s s)
              (toggleFilter "grayscale" s s) in
  isCameraStarted s = true
  /\ toggleValued (filters s)
  /\ sepia (filters s) = 0 /\ includes "sepia" (activeFilters s) = false
  /\ filters s2 = filters s
  /\ isMirrored s2 = isMirrored s
  /\ sameActive (activeFilters s2) (activeFilters s)
  /\ reachable specConstants cameraOn
  /\ toggleValued (DEFAULT_FILTERS specConstants)
  /\ filters (st (step specConstants png (Call (HToggleFilter "grayscale"))
                    (step specConstants png (Call (HToggleFilter "grayscale"))
                       cameraOn)))
     = filters s.
Proof.
  intros s s2.
  destruct (C9_toggle_twice specConstants) as [Hcall Hevent].
  assert (Hv : toggleValued (filters s)) by (vm_compute; auto 10).
  assert (Hd : toggleValued (DEFAULT_FILTERS specConstants)) by (vm_compute; auto 10).
  assert (Hc : isCameraStarted s = true) by (vm_compute; reflexivity).
  assert (Hs : sepia (filters s) = 0) by (vm_compute; reflexivity).
  assert (Hn : includes "sepia" (activeFilters s) = false)
    by (vm_compute; reflexivity).
  assert (R1 : reachable specConstants cameraOn) by apply play_reachable.
  assert (Hid : In "grayscale"
                  ["mirror"; "grayscale"; "sepia"; "brightness"; "contrast"; "saturate"])
    by (right; left; reflexivity).
  assert (Hg : "grayscale" = "grayscale" ->
               sepia (filters s) = 0 /\ includes "sepia" (activeFilters s) = false)
    by (intros _; split; [exact Hs|exact Hn]).
  assert (Hp : "grayscale" = "sepia" ->
               grayscale (filters s) = 0
               /\ includes "grayscale" (activeFilters s) = false)
    by (intro H; discriminate H).
  split; [exact Hc|]. split; [exact Hv|]. split; [exact Hs|].
  split; [exact Hn|].
  destruct (Hcall "grayscale" s Hc Hid Hv Hg Hp) as (X1 & X2 & X3).
  split; [exact X1|]. split; [exact X2|]. split; [exact X3|].
  split; [exact R1|]. split; [exact Hd|].
  exact (proj1 (Hevent png png "grayscale" cameraOn R1 Hd Hc Hid Hg Hp)).
Defined.

(** C10 on the run that switches sepia on before any capture: the settings
    stay. *)
Lemma C10_witness :
  reachable specConstants sepiaOn
  /\ capturedImages (st sepiaOn) = []
  /\ resetFilters specConstants (st sepiaOn) (st sepiaOn) = st sepiaOn
  /\ step specConstants png ClickResetFilters sepiaOn = sepiaOn.
Proof.
  destruct (C10_resetFilters_guarded specConstants) as [Hcall Hevent].
  assert (R1 : reachable specConstants sepiaOn) by apply play_reachable.
  assert (He : capturedImages (st sepiaOn) = []) by (vm_compute; reflexivity).
  split; [exact R1|]. split; [exact He|]. split.
  - exact (proj1 (Hcall (st sepiaOn) (st sepiaOn) (or_introl He))).
  - exact (proj2 (Hevent png _ R1 (or_introl He))).
Defined.

(** [stopAutoSequence] does not clear the timeout that the last capture armed:
    stopped during the pause, the component is idle, and the timeout still
    starts a countdown when it expires. *)
Example stop_leaves_timeout_pending :
  isAutoSequenceActive (st stoppedInPause) = false
  /\ countdown (st stoppedInPause) = None
  /\ timers stoppedInPause = [mkTimeout 1000 (Reseed 3)]
  /\ countdown (st (step specConstants png FireTimer stoppedInPause)) = Some 3.
Proof. vm_compute. repeat split. Qed.

(* ===================================================================== *)
(** ** Further properties of the component *)
(* ===================================================================== *)

Section Further.

Variable K : Constants.

(** *** Induction on the runs *)

Lemma reachable_induction (P : Machine -> Prop) :
  P (mount K) ->
  (forall cv ev m, reachable K m -> P m -> P (step K cv ev m)) ->
  forall m, reachable K m -> P m.
Proof.
  intros H0 Hs m [inputs ->].
  induction inputs as [|[cv ev] inputs IH] using rev_ind; [exact H0|].
  rewrite run_app. cbn [run]. apply Hs; [now exists inputs|exact IH].
Qed.

(** *** The camera *)

Lemma cameraRequests_captureImage cv env m :
  cameraRequests (captureImage K cv env m) = cameraRequests m.
Proof.
  unfold captureImage. destruct (_ || _); [reflexivity|].
  destruct (context2d cv); cbn [negb]; [|reflexivity].
  unfold scheduleNextAutoCapture. destruct (_ && _); reflexivity.
Qed.

Lemma cameraRequests_effectCountdown cv env m :
  cameraRequests (effectCountdown K cv env m) = cameraRequests m.
Proof.
  unfold effectCountdown. destruct (countdown env) as [c|]; [|reflexivity].
  destruct (0 <? c); [reflexivity|].
  destruct ((c =? 0) && negb (hasCapturedRef m)); [|reflexivity].
  now rewrite cameraRequests_captureImage.
Qed.

Lemma commit_cameraRequests cv m :
  cameraRequests (commit K cv m)
  = if sameCameraDeps (rendered m) (st m) then cameraRequests m
    else if isCameraStarted (st m) then cameraRequests m
         else S (cameraRequests m).
Proof.
  unfold commit, effectKeyboard.
  set (m0 := mkMachine _ _ _ _ _ _ _ _).
  set (m1 := if sameCameraDeps _ _ then m0 else _).
  assert (R1 : cameraRequests m1
               = if sameCameraDeps (rendered m) (st m) then cameraRequests m
                 else if isCameraStarted (st m) then cameraRequests m
                      else S (cameraRequests m)).
  { subst m1. unfold effectCamera.
    destruct (sameCameraDeps _ _); [reflexivity|].
    destruct (isCameraStarted (st m)); reflexivity. }
  clearbody m1. clear m0.
  set (m2 := if sameMaxCaptureDeps _ _ _ then m1 else _).
  assert (R2 : cameraRequests m2 = cameraRequests m1).
  { subst m2. unfold effectMaxCapture.
    destruct (sameMaxCaptureDeps _ _ _); [reflexivity|].
    destruct (isMaxCaptureReached K (st m) && isAutoSequenceActive (st m));
      reflexivity. }
  clearbody m2.
  set (m3 := if sameCountdownDeps _ _ then m2 else _).
  assert (R3 : cameraRequests m3 = cameraRequests m2).
  { subst m3. destruct (sameCountdownDeps _ _); [reflexivity|].
    now rewrite cameraRequests_effectCountdown. }
  clearbody m3. rewrite <- R1, <- R2, <- R3.
  destruct (sameKeyboardDeps _ _); reflexivity.
Qed.

(** Settling asks for the camera again only when the started flag has gone
    from set to unset, which no handler does. *)
Lemma settle_cameraRequests cv h :
  isCameraStarted (st h) = true
  \/ isCameraStarted (st h) = isCameraStarted (rendered h) ->
  cameraRequests (settle K settle_fuel cv h) = cameraRequests h.
Proof.
  intro H.
  assert (C1 : cameraRequests (commit K cv h) = cameraRequests h).
  { rewrite commit_cameraRequests. unfold sameCameraDeps.
    destruct H as [H|H]; rewrite H.
    - destruct (Bool.eqb _ _); reflexivity.
    - now rewrite Bool.eqb_reflx. }
  destruct (settle_cases K cv h) as [-> | ->]; [exact C1|].
  rewrite commit_cameraRequests, rendered_commit.
  destruct (Eff_commit K cv h) as (_ & _ & _ & Hs & _).
  unfold sameCameraDeps. rewrite Hs, Bool.eqb_reflx. exact C1.
Qed.

Lemma handle_camera_frame cv ev m :
  ev <> CameraGranted -> ev <> CameraDenied ->
  let h := handle K cv ev m in
  cameraRequests h = cameraRequests m
  /\ isCameraStarted (st h) = isCameraStarted (st m)
  /\ cameraError (st h) = cameraError (st m)
  /\ rendered h = rendered m.
Proof.
  intros Hg Hd. destruct ev; try contradiction; cbn [handle].
  - destruct (_ || _); [repeat split|]. unfold toggleFilter. split_ifs; repeat split.
  - destruct (_ || _); [repeat split|]. unfold resetFilters. split_ifs; repeat split.
  - unfold undoCapture. split_ifs; repeat split.
  - unfold cycleTimer. split_ifs; repeat split.
  - unfold mainButton, startCapture. split_ifs; repeat split.
  - unfold toggleAutoMode. split_ifs; repeat split.
  - unfold resetCaptures. split_ifs; repeat split.
  - unfold onSt. cbn [st cameraRequests rendered]. unfold handleKeyDown, startCapture,
      undoCapture, resetCaptures, toggleAutoMode. split_ifs; repeat split.
  - destruct (timers m) as [|t rest]; [repeat split|].
    destruct (callback t); repeat split.
  - repeat split.
  - repeat split.
  - destruct h; cbn [call]; try (repeat split; fail).
    + rewrite cameraRequests_captureImage.
      destruct (captureImage_other_fields K cv (rendered m) m)
        as (_ & _ & _ & H1 & H2 & _ & _ & _ & H3 & _).
      now rewrite H1, H2, H3.
    + unfold undoCapture. split_ifs; repeat split.
    + unfold resetCaptures. split_ifs; repeat split.
    + unfold resetFilters. split_ifs; repeat split.
    + unfold toggleFilter. split_ifs; repeat split.
    + unfold startCapture. split_ifs; repeat split.
    + unfold toggleAutoMode. split_ifs; repeat split.
    + unfold cycleTimer. split_ifs; repeat split.
Qed.

(** The camera fields after an event, from those after its handler. *)
Lemma step_camera_fields cv ev m :
  let h := handle K cv ev m in
  isCameraStarted (st (step K cv ev m)) = isCameraStarted (st h)
  /\ cameraError (st (step K cv ev m)) = cameraError (st h).
Proof.
  cbn zeta. unfold step. rewrite st_settle.
  destruct (Eff_commit K cv (handle K cv ev m)) as (_ & _ & _ & H1 & H2 & _).
  now split.
Qed.

Lemma step_camera cv ev m :
  let h := handle K cv ev m in
  isCameraStarted (st h) = true
  \/ isCameraStarted (st h) = isCameraStarted (rendered h) ->
  cameraRequests (step K cv ev m) = cameraRequests h
  /\ isCameraStarted (st (step K cv ev m)) = isCameraStarted (st h)
  /\ cameraError (st (step K cv ev m)) = cameraError (st h).
Proof.
  intros h H. destruct (step_camera_fields cv ev m) as [Hs He].
  split; [|split; assumption].
  unfold step. now apply settle_cameraRequests.
Qed.

Lemma step_phase cv ev m p :
  reachable K m -> inPhase p m -> inPhase (nextPhase p ev) (step K cv ev m).
Proof.
  intros Hr Hp.
  pose proof (reachable_atRest K m Hr) as Hrest.
  destruct Hrest as (Hq & Hv & _ & _).
  assert (Frame : ev <> CameraGranted -> ev <> CameraDenied ->
                  inPhase p (step K cv ev m)).
  { intros Hg Hd.
    destruct (handle_camera_frame cv ev m Hg Hd) as (F1 & F2 & F3 & F4).
    destruct (step_camera cv ev m) as (S1 & S2 & S3).
    { right. rewrite F2, F4. now rewrite Hq. }
    destruct p; cbn [inPhase] in *; rewrite S1, S2, S3, F1, F2, F3; exact Hp. }
  assert (Declined : handle K cv ev m = m -> inPhase p (step K cv ev m)).
  { intro E. now rewrite (step_declined K cv ev m (reachable_atRest K m Hr) E). }
  destruct ev; try (destruct p; apply Frame; discriminate).
  - (* the stream is granted *)
    destruct p; cbn [nextPhase];
      [|apply Declined; destruct Hp as (H1 & _); cbn [handle]; now rewrite H1 ..].
    destruct Hp as (H1 & H2 & H3).
    assert (Hvid : videoRef m = true) by (rewrite Hv, H3; reflexivity).
    assert (Eh : handle K cv CameraGranted m
                 = onSt (setCameraError None)
                     (onSt (setIsCameraStarted true)
                        (setCameraRequests (fun _ => 0%nat) m))).
    { cbn [handle]. rewrite H1. cbn [videoRef setCameraRequests]. now rewrite Hvid. }
    destruct (step_camera cv CameraGranted m) as (S1 & S2 & S3).
    { left. now rewrite Eh. }
    cbn [inPhase]. rewrite S1, S2, S3, Eh. now repeat split.
  - (* the stream is refused *)
    destruct p; cbn [nextPhase];
      [|apply Declined; destruct Hp as (H1 & _); cbn [handle]; now rewrite H1 ..].
    destruct Hp as (H1 & H2 & H3).
    assert (Eh : handle K cv CameraDenied m
                 = onSt (setCameraError (Some "errors.camera_access_required"))
                     (setCameraRequests (fun _ => 0%nat) m)).
    { cbn [handle]. now rewrite H1. }
    destruct (step_camera cv CameraDenied m) as (S1 & S2 & S3).
    { right. rewrite Eh. cbn. now rewrite Hq. }
    cbn [inPhase]. rewrite S1, S2, S3, Eh. cbn. now repeat split.
Qed.

Lemma reachable_phase m :
  reachable K m -> exists p, inPhase p m.
Proof.
  apply (reachable_induction (fun m => exists p, inPhase p m)).
  - exists Asking. now repeat split.
  - intros cv ev m0 Hr [p Hp]. exists (nextPhase p ev). now apply step_phase.
Qed.

Lemma run_phase_kept inputs m p :
  p <> Asking -> reachable K m -> inPhase p m -> inPhase p (run K inputs m).
Proof.
  intro Hp. revert m.
  induction inputs as [|[cv ev] rest IH]; intros m Hr Hin; cbn [run]; [exact Hin|].
  apply IH; [now apply reachable_step|].
  replace p with (nextPhase p ev) at 1 by (destruct p, ev; try reflexivity; contradiction).
  now apply step_phase.
Qed.

(** *** The strip *)

Lemma commit_images_same_countdown cv m :
  sameCountdownDeps (rendered m) (st m) = true ->
  capturedImages (st (commit K cv m)) = capturedImages (st m).
Proof.
  intro D. destruct (commit_unfold K cv m) as (m2 & _ & _ & _ & E2 & E & _).
  rewrite E, D, E2. destruct (sameMaxCaptureDeps _ _ _); [reflexivity|].
  destruct (_ && _); reflexivity.
Qed.

(** The capture of the countdown effect is declined when the render being
    committed has no camera or a full strip. *)
Lemma commit_images_guarded cv m :
  isCameraStarted (st m) = false \/ isMaxCaptureReached K (st m) = true ->
  capturedImages (st (commit K cv m)) = capturedImages (st m).
Proof.
  intro G. destruct (commit_unfold K cv m) as (m2 & _ & _ & _ & E2 & E & _).
  assert (I2 : capturedImages (st m2) = capturedImages (st m)).
  { rewrite E2. destruct (sameMaxCaptureDeps _ _ _); [reflexivity|].
    destruct (_ && _); reflexivity. }
  rewrite E. destruct (sameCountdownDeps _ _); [exact I2|].
  unfold effectCountdown. destruct (countdown (st m)) as [c|]; [|exact I2].
  destruct (0 <? c); [exact I2|].
  destruct ((c =? 0) && negb (hasCapturedRef m2)); [|exact I2].
  rewrite captureImage_declined; [exact I2|].
  unfold captureGuard. destruct G as [-> | ->]; cbn; now rewrite ?orb_true_r.
Qed.

Lemma undoCapture_cases env s :
  countdown env = countdown s ->
  undoCapture env s = s
  \/ (capturedImages (undoCapture env s) = removelast (capturedImages s)
      /\ countdown (undoCapture env s) = None
      /\ isAutoSequenceActive (undoCapture env s) = isAutoSequenceActive s).
Proof.
  intro Hc. unfold undoCapture. destruct (undoDisabled env) eqn:D; [now left|].
  destruct (negb (isEmpty (capturedImages env))); [|now left].
  right. cbn. repeat split. rewrite <- Hc.
  unfold undoDisabled in D. destruct (countdown env); [|reflexivity].
  cbn in D. now rewrite orb_true_r in D.
Qed.

Lemma resetCaptures_cases env s :
  resetCaptures env s = s
  \/ (capturedImages (resetCaptures env s) = []
      /\ countdown (resetCaptures env s) = None
      /\ isAutoSequenceActive (resetCaptures env s) = false).
Proof.
  unfold resetCaptures. destruct (resetDisabled env); [now left|].
  right. now repeat split.
Qed.

Lemma startCapture_cases env s :
  startCapture K env s = s
  \/ (isMaxCaptureReached K env = false
      /\ capturedImages (startCapture K env s) = capturedImages s
      /\ countdown (startCapture K env s) = Some (selectedTimer K env)
      /\ isAutoSequenceActive (startCapture K env s)
         = (if isAutoModeEnabled env then true else isAutoSequenceActive s)).
Proof.
  unfold startCapture. destruct (isMaxCaptureReached K env); [now left|].
  right. destruct (isAutoModeEnabled env); now repeat split.
Qed.

Lemma handle_rendered cv ev m : rendered (handle K cv ev m) = rendered m.
Proof.
  destruct ev; cbn [handle]; try (split_ifs; reflexivity).
  - destruct (timers m) as [|t rest]; [reflexivity|]. destruct (callback t); reflexivity.
  - destruct (cameraRequests m); [reflexivity|]. cbn. destruct (videoRef m); reflexivity.
  - destruct (cameraRequests m); reflexivity.
  - destruct h; cbn [call]; try reflexivity.
    apply (captureImage_other_fields K cv (rendered m) m).
Qed.

(** What a handler can do to the strip, with what it then leaves of the
    countdown and of the sequence flag.  The four cases: the strip is kept
    (and the sequence flag is set only by a [startCapture] that found room);
    the last image is removed or the strip emptied, and no countdown is
    left; [captureImage] was called and appended. *)
Lemma handle_strip cv ev m :
  atRest m ->
  let h := handle K cv ev m in
  (capturedImages (st h) = capturedImages (st m)
   /\ (isAutoSequenceActive (st h) = isAutoSequenceActive (st m)
       \/ isAutoSequenceActive (st h) = false
       \/ isMaxCaptureReached K (st m) = false))
  \/ ((capturedImages (st h) = removelast (capturedImages (st m))
       \/ capturedImages (st h) = [])
      /\ countdown (st h) = None
      /\ (isAutoSequenceActive (st h) = isAutoSequenceActive (st m)
          \/ isAutoSequenceActive (st h) = false))
  \/ (ev = Call HCaptureImage /\ Eff K (st m) (st m) (st h)).
Proof.
  intros (Hq & _ & _ & Hk) h. subst h.
  apply sameKeyboardDeps_spec in Hk as (K1 & _ & _ & _ & _ & _ & K7 & _).
  assert (Keep : forall s', capturedImages s' = capturedImages (st m) ->
                 (isAutoSequenceActive s' = isAutoSequenceActive (st m)
                  \/ isAutoSequenceActive s' = false) ->
                 (capturedImages s' = capturedImages (st m)
                  /\ (isAutoSequenceActive s' = isAutoSequenceActive (st m)
                      \/ isAutoSequenceActive s' = false
                      \/ isMaxCaptureReached K (st m) = false))
                 \/ ((capturedImages s' = removelast (capturedImages (st m))
                      \/ capturedImages s' = [])
                     /\ countdown s' = None
                     /\ (isAutoSequenceActive s' = isAutoSequenceActive (st m)
                         \/ isAutoSequenceActive s' = false))
                 \/ (ev = Call HCaptureImage /\ Eff K (st m) (st m) s')).
  { intros s' H1 H2. left. split; [exact H1|]. destruct H2; auto. }
  assert (Undo : forall env, countdown env = countdown (st m) ->
                 let s' := undoCapture env (st m) in
                 (capturedImages s' = capturedImages (st m)
                  /\ (isAutoSequenceActive s' = isAutoSequenceActive (st m)
                      \/ isAutoSequenceActive s' = false
                      \/ isMaxCaptureReached K (st m) = false))
                 \/ ((capturedImages s' = removelast (capturedImages (st m))
                      \/ capturedImages s' = [])
                     /\ countdown s' = None
                     /\ (isAutoSequenceActive s' = isAutoSequenceActive (st m)
                         \/ isAutoSequenceActive s' = false))
                 \/ (ev = Call HCaptureImage /\ Eff K (st m) (st m) s')).
  { intros env He s'. subst s'.
    destruct (undoCapture_cases env (st m) He) as [-> | (U1 & U2 & U3)].
    - left. split; auto.
    - right. left. repeat split; auto. }
  assert (Reset : forall env,
                 let s' := resetCaptures env (st m) in
                 (capturedImages s' = capturedImages (st m)
                  /\ (isAutoSequenceActive s' = isAutoSequenceActive (st m)
                      \/ isAutoSequenceActive s' = false
                      \/ isMaxCaptureReached K (st m) = false))
                 \/ ((capturedImages s' = removelast (capturedImages (st m))
                      \/ capturedImages s' = [])
                     /\ countdown s' = None
                     /\ (isAutoSequenceActive s' = isAutoSequenceActive (st m)
                         \/ isAutoSequenceActive s' = false))
                 \/ (ev = Call HCaptureImage /\ Eff K (st m) (st m) s')).
  { intros env s'. subst s'.
    destruct (resetCaptures_cases env (st m)) as [-> | (U1 & U2 & U3)].
    - left. split; auto.
    - right. left. repeat split; auto. }
  assert (Start : forall env, capturedImages env = capturedImages (st m) ->
                 let s' := startCapture K env (st m) in
                 (capturedImages s' = capturedImages (st m)
                  /\ (isAutoSequenceActive s' = isAutoSequenceActive (st m)
                      \/ isAutoSequenceActive s' = false
                      \/ isMaxCaptureReached K (st m) = false))
                 \/ ((capturedImages s' = removelast (capturedImages (st m))
                      \/ capturedImages s' = [])
                     /\ countdown s' = None
                     /\ (isAutoSequenceActive s' = isAutoSequenceActive (st m)
                         \/ isAutoSequenceActive s' = false))
                 \/ (ev = Call HCaptureImage /\ Eff K (st m) (st m) s')).
  { intros env He s'. subst s'.
    destruct (startCapture_cases env (st m)) as [-> | (U1 & U2 & _)].
    - left. split; auto.
    - left. split; [exact U2|]. right. right.
      unfold isMaxCaptureReached in *. now rewrite <- He. }
  destruct ev; cbn [handle].
  - destruct (_ || _); [apply Keep; auto|].
    apply Keep; apply (toggleFilter_frame id (rendered m) (st m)) || left;
      apply (toggleFilter_frame id (rendered m) (st m)).
  - destruct (_ || _); [apply Keep; auto|]. unfold resetFilters.
    destruct (resetDisabled (rendered m)); apply Keep; auto.
  - destruct (undoDisabled (rendered m)); [apply Keep; auto|].
    apply Undo. now rewrite Hq.
  - destruct (timerDisabled (rendered m)); [apply Keep; auto|]. unfold cycleTimer.
    destruct (timerDisabled (rendered m)); apply Keep; auto.
  - destruct (captureDisabled K (rendered m)); [apply Keep; auto|].
    cbn [st onSt]. unfold mainButton.
    destruct (canProceedToLayout (rendered m)); [apply Keep; auto|].
    destruct (isAutoSequenceActive (rendered m)); [apply Keep; auto|].
    destruct (countdown (rendered m)); [apply Keep; auto|].
    apply Start. now rewrite Hq.
  - destruct (autoDisabled K (rendered m)); [apply Keep; auto|].
    cbn [st onSt]. unfold toggleAutoMode.
    destruct (autoDisabled K (rendered m)); [apply Keep; auto|].
    destruct (isAutoSequenceActive (rendered m)); apply Keep; auto.
  - destruct (resetDisabled (rendered m)); [apply Keep; auto|]. apply Reset.
  - cbn [st onSt]. unfold handleKeyDown.
    destruct typing; [apply Keep; auto|].
    destruct (_ || _).
    { destruct (canProceedToLayout (kbd m)); [apply Keep; auto|].
      destruct (isAutoSequenceActive (kbd m)); [apply Keep; auto|].
      destruct (countdown (kbd m)); [apply Keep; auto|].
      now apply Start. }
    destruct (_ || _); [now apply Undo|].
    destruct (String.eqb _ "Escape"); [apply Reset|].
    destruct (String.eqb _ "a"); [|apply Keep; auto].
    unfold toggleAutoMode.
    destruct (autoDisabled K (kbd m)); [apply Keep; auto|].
    destruct (isAutoSequenceActive (kbd m)); apply Keep; auto.
  - destruct (timers m) as [|t rest]; [apply Keep; auto|].
    destruct (callback t); apply Keep; auto.
  - destruct (cameraRequests m); [apply Keep; auto|]. cbn.
    destruct (videoRef m); apply Keep; auto.
  - destruct (cameraRequests m); apply Keep; auto.
  - apply Keep; auto.
  - apply Keep; auto.
  - destruct h; cbn [call].
    + right. right. split; [reflexivity|].
      pose proof (Eff_captureImage K cv (rendered m) m) as E.
      rewrite Hq at 1. exact E.
    + apply Undo. now rewrite Hq.
    + apply Reset.
    + cbn [st onSt]. unfold resetFilters.
      destruct (resetDisabled (rendered m)); apply Keep; auto.
    + apply Keep; apply (toggleFilter_frame id (rendered m) (st m)) || left;
        apply (toggleFilter_frame id (rendered m) (st m)).
    + apply Start. now rewrite Hq.
    + apply Keep; auto.
    + cbn [st onSt]. unfold toggleAutoMode.
      destruct (autoDisabled K (rendered m)); [apply Keep; auto|].
      destruct (isAutoSequenceActive (rendered m)); apply Keep; auto.
    + cbn [st onSt]. unfold cycleTimer.
      destruct (timerDisabled (rendered m)); apply Keep; auto.
Qed.

Lemma step_strip cv ev m :
  reachable K m ->
  stripMove (capturedImages (st m)) (capturedImages (st (step K cv ev m))).
Proof.
  intro Hr. pose proof (reachable_atRest K m Hr) as Hrest.
  pose proof (reachable_quiescent K m Hr) as Hq.
  unfold step. rewrite st_settle.
  pose proof (handle_rendered cv ev m) as Hrd.
  pose proof (Eff_commit K cv (handle K cv ev m)) as HE.
  pose proof (commit_images_no_zero K cv (handle K cv ev m)) as Hnz.
  pose proof (commit_images_same_countdown cv (handle K cv ev m)) as Hsame.
  destruct (handle_strip cv ev m Hrest) as [[Hi _] | [(Hi & Hc & _) | (_ & Hcap)]];
    cbn zeta in *; set (h := handle K cv ev m) in *; clearbody h.
  - destruct HE as (_ & _ & _ & _ & _ & _ & _ & _ & _ & _ & [E | (_ & [x E] & _)]).
    + left. now rewrite E.
    + right. left. exists x. now rewrite E, Hi.
  - rewrite Hnz by (rewrite Hc; discriminate).
    destruct Hi as [-> | ->]; [right; right; now left|right; right; now right].
  - destruct Hcap as (_ & _ & _ & _ & _ & _ & _ & _ & Hcd & _ & Himg).
    destruct Himg as [Hi | (_ & [x Hi] & _)].
    + destruct HE as (_ & _ & _ & _ & _ & _ & _ & _ & _ & _ & [E | (_ & [y E] & _)]).
      * left. now rewrite E.
      * right. left. exists y. now rewrite E, Hi.
    + right. left. exists x.
      destruct Hcd as [Hcd | Hcd].
      * rewrite Hsame; [exact Hi|].
        unfold sameCountdownDeps. rewrite Hrd, <- Hq, Hcd. now apply optZ_eqb_eq.
      * rewrite Hnz; [exact Hi|]. rewrite Hcd. discriminate.
Qed.

Lemma handle_started cv ev m :
  isCameraStarted (st (handle K cv ev m)) = isCameraStarted (st m)
  \/ isCameraStarted (st (handle K cv ev m)) = true.
Proof.
  assert (D : {ev = CameraGranted} + {ev = CameraDenied}
              + {ev <> CameraGranted /\ ev <> CameraDenied}).
  { destruct ev; try (right; split; discriminate);
      [left; now left|left; now right]. }
  destruct D as [[-> | ->] | [Hg Hd]].
  - cbn [handle]. destruct (cameraRequests m); [now left|]. cbn.
    destruct (videoRef m); [now right|now left].
  - cbn [handle]. destruct (cameraRequests m); now left.
  - left. apply (handle_camera_frame cv ev m Hg Hd).
Qed.

Lemma step_no_image_without_camera cv ev m :
  reachable K m ->
  (isCameraStarted (st m) = false -> capturedImages (st m) = []) ->
  isCameraStarted (st (step K cv ev m)) = false ->
  capturedImages (st (step K cv ev m)) = [].
Proof.
  intros Hr IH Hs.
  pose proof (reachable_atRest K m Hr) as Hrest.
  pose proof (reachable_quiescent K m Hr) as Hq.
  destruct (step_camera_fields cv ev m) as [Hs' _]. cbn zeta in Hs'.
  rewrite Hs' in Hs. clear Hs'.
  assert (Hm : isCameraStarted (st m) = false).
  { destruct (handle_started cv ev m) as [E | E]; congruence. }
  specialize (IH Hm).
  unfold step. rewrite st_settle, commit_images_guarded by now left.
  destruct (handle_strip cv ev m Hrest) as [[Hi _] | [(Hi & _) | (Hev & _)]];
    cbn zeta in *.
  - now rewrite Hi.
  - rewrite IH in Hi. now destruct Hi.
  - subst ev. cbn [handle call]. rewrite captureImage_declined; [exact IH|].
    unfold captureGuard. now rewrite <- Hq, Hm.
Qed.

Lemma Eff_hasRoom s s' : Eff K s s s' -> hasRoom K s -> hasRoom K s'.
Proof.
  unfold hasRoom, isMaxCaptureReached.
  intros (_ & _ & _ & _ & _ & _ & _ & _ & _ & Ha & Hi) Hs Hact.
  destruct Ha as [Ha | Ha]; [|congruence]. rewrite Ha in Hact.
  specialize (Hs Hact).
  destruct Hi as [-> | (_ & [x ->] & [Hf | Hlt])]; [exact Hs|congruence|].
  apply Nat.leb_gt. rewrite length_app. cbn. lia.
Qed.

Lemma step_hasRoom cv ev m :
  reachable K m -> hasRoom K (st m) -> hasRoom K (st (step K cv ev m)).
Proof.
  intros Hr IH. pose proof (reachable_atRest K m Hr) as Hrest.
  unfold step. rewrite st_settle.
  apply Eff_hasRoom with (s := st (handle K cv ev m)); [apply Eff_commit|].
  destruct (handle_strip cv ev m Hrest) as [[Hi Ha] | [(Hi & _ & Ha) | (_ & Hcap)]];
    cbn zeta in *.
  - unfold hasRoom, isMaxCaptureReached in *. rewrite Hi. intro Hact.
    destruct Ha as [Ha | [Ha | Ha]]; [|congruence|exact Ha].
    apply IH. now rewrite <- Ha.
  - unfold hasRoom, isMaxCaptureReached in *. intro Hact.
    destruct Ha as [Ha | Ha]; [|congruence]. rewrite Ha in Hact.
    specialize (IH Hact). apply Nat.leb_gt in IH. apply Nat.leb_gt.
    destruct Hi as [-> | ->]; [|cbn; lia].
    pose proof (length_removelast_le (capturedImages (st m))). lia.
  - now apply Eff_hasRoom with (s := st m).
Qed.


Lemma reachable_hasRoom m : reachable K m -> hasRoom K (st m).
Proof.
  apply (reachable_induction (fun m => hasRoom K (st m))).
  - intro H. discriminate H.
  - intros cv ev m0 Hr IH. now apply step_hasRoom.
Qed.

(** *** The further properties, first part *)

(** X1. The camera goes through three phases.  On mount the stream is asked
    for once; the answer starts the camera or sets the error message; and
    whatever happens afterwards a started camera stays started and a refused
    one stays refused, with no request pending: the stream is never asked
    for again. *)
Theorem X1_camera_phases m :
  reachable K m ->
  (exists p, inPhase p m)
  /\ (forall cv ev p, inPhase p m -> inPhase (nextPhase p ev) (step K cv ev m))
  /\ (forall inputs, inPhase Started m -> inPhase Started (run K inputs m))
  /\ (forall inputs, inPhase Refused m -> inPhase Refused (run K inputs m)).
Proof.
  intro Hr. split; [now apply reachable_phase|]. split; [|split].
  - intros cv ev p. now apply step_phase.
  - intros inputs. now apply run_phase_kept.
  - intros inputs. now apply run_phase_kept.
Qed.

(** X2. As long as the camera has not started the strip is empty: no event,
    no timeout and no call of [captureImage] puts an image on the strip
    before the stream is granted. *)
Theorem X2_no_image_without_camera m :
  reachable K m -> isCameraStarted (st m) = false -> capturedImages (st m) = [].
Proof.
  apply (reachable_induction
           (fun m => isCameraStarted (st m) = false -> capturedImages (st m) = [])).
  - reflexivity.
  - intros cv ev m0 Hr IH Hs.
    exact (step_no_image_without_camera cv ev m0 Hr IH Hs).
Qed.

(** X3. One event moves the strip by one step at most, and only at its end: it
    is left alone, or gains one image at the end, or loses its last image, or
    is emptied.  Images on the strip are never reordered nor replaced. *)
Theorem X3_strip_moves_at_the_end cv ev m :
  reachable K m ->
  let l := capturedImages (st m) in
  let l' := capturedImages (st (step K cv ev m)) in
  l' = l \/ (exists x, l' = l ++ [x]) \/ l' = removelast l \/ l' = [].
Proof. intro Hr. now apply step_strip. Qed.

(** X4. An auto sequence is active only while the strip has room: in every
    reachable state with the sequence flag set the strip holds fewer than
    [MAX_CAPTURE] images, so the effect that stops the sequence at the quota
    finds nothing to stop. *)
Theorem X4_sequence_has_room m :
  reachable K m ->
  isAutoSequenceActive (st m) = true ->
  (List.length (capturedImages (st m)) < MAX_CAPTURE K)%nat
  /\ effectMaxCapture K (st m) m = m.
Proof.
  intros Hr Hact.
  pose proof (reachable_hasRoom m Hr Hact) as H. split.
  - unfold isMaxCaptureReached in H. now apply Nat.leb_gt in H.
  - unfold effectMaxCapture. now rewrite H.
Qed.

(** *** The countdown tick *)

Lemma tickCount_app q r : tickCount (q ++ r) = (tickCount q + tickCount r)%nat.
Proof. unfold tickCount. now rewrite filter_app, length_app. Qed.

Lemma tickCount_pauses q : tickCount (pauses q) = 0%nat.
Proof.
  unfold tickCount, pauses. induction q as [|t q IH]; [reflexivity|].
  cbn [filter]. destruct (isTick t) eqn:E; cbn [negb]; [exact IH|].
  cbn [filter]. now rewrite E.
Qed.

Lemma pauses_pauses q : pauses (pauses q) = pauses q.
Proof.
  unfold pauses. induction q as [|t q IH]; [reflexivity|].
  cbn [filter]. destruct (negb (isTick t)) eqn:E; [|exact IH].
  cbn [filter]. now rewrite E, IH.
Qed.

Lemma commit_oneTick cv m :
  (sameCountdownDeps (rendered m) (st m) = true -> oneTick m) ->
  oneTick (commit K cv m).
Proof.
  intro H. unfold oneTick. rewrite rendered_commit.
  destruct (commit_timers K cv m) as (m2 & Hh & Hv & Hc & Ht & ->).
  fold (pauses (timers m)) in Ht.
  destruct (sameCountdownDeps (rendered m) (st m)) eqn:E.
  - specialize (H eq_refl). unfold sameCountdownDeps in E.
    apply optZ_eqb_eq in E. unfold overlayVisible. rewrite <- E. exact H.
  - clear H. unfold effectCountdown, overlayVisible.
    destruct (countdown (st m)) as [c|].
    + destruct (0 <? c).
      * unfold setTimeout, setTimers, setHasCapturedRef. cbn [timers].
        rewrite Ht, tickCount_app, tickCount_pauses. reflexivity.
      * destruct ((c =? 0) && negb (hasCapturedRef m2)).
        -- rewrite timers_captureImage. cbn [timers setHasCapturedRef].
           destruct (_ || _); [now rewrite Ht, tickCount_pauses|].
           destruct (_ && _); [|now rewrite Ht, tickCount_pauses].
           now rewrite Ht, tickCount_app, tickCount_pauses.
        -- now rewrite Ht, tickCount_pauses.
    + cbn [timers setHasCapturedRef]. now rewrite Ht, tickCount_pauses.
Qed.

Lemma fire_dec (ev : Event) : {ev = FireTimer} + {ev <> FireTimer}.
Proof. destruct ev; (now left) || (right; discriminate). Qed.

(** Only the expiry of a timeout takes a timeout away before React renders;
    the others leave the pending ones, and a direct call of [captureImage]
    may arm a pause behind them. *)
Lemma handle_timers cv ev m :
  ev <> FireTimer ->
  exists extra,
    timers (handle K cv ev m) = timers m ++ extra /\ pauses extra = extra.
Proof.
  intro Hev.
  destruct ev as [id| | | | | | |k typing| | | |b| |h];
    try (now contradiction Hev); cbn [handle];
    try (exists []; split; [|reflexivity]; rewrite app_nil_r;
         split_ifs; reflexivity).
  1, 2: exists []; split; [|reflexivity]; rewrite app_nil_r;
    destruct (cameraRequests m); [reflexivity|]; split_ifs; reflexivity.
  destruct h; cbn [call];
    try (exists []; split; [|reflexivity]; rewrite app_nil_r; reflexivity).
  rewrite timers_captureImage.
  destruct (_ || _); [exists []; split; [now rewrite app_nil_r|reflexivity]|].
  destruct (_ && _); [|exists []; split; [now rewrite app_nil_r|reflexivity]].
  eexists. split; reflexivity.
Qed.

Lemma handle_oneTick cv ev m :
  st m = rendered m -> oneTick m ->
  oneTick (handle K cv ev m)
  \/ sameCountdownDeps (rendered (handle K cv ev m)) (st (handle K cv ev m)) = false.
Proof.
  intros Hq H. destruct (fire_dec ev) as [-> | Hev].
  - cbn [handle]. destruct (timers m) as [|[d cb] rest] eqn:Ht; [now left|].
    destruct cb as [|t].
    + right. unfold oneTick in H. rewrite Ht in H. unfold tickCount in H.
      cbn in H. unfold overlayVisible in H. unfold sameCountdownDeps. cbn.
      rewrite <- Hq in *.
      destruct (countdown (st m)) as [c|]; [|discriminate H].
      cbn. apply Z.eqb_neq. lia.
    + left. unfold oneTick in *. rewrite Ht in H. cbn. exact H.
  - left. unfold oneTick in *. rewrite handle_rendered.
    destruct (handle_timers cv ev m Hev) as (extra & -> & Hx).
    rewrite tickCount_app, <- Hx, tickCount_pauses. lia.
Qed.

Lemma step_oneTick cv ev m :
  st m = rendered m -> oneTick m -> oneTick (step K cv ev m).
Proof.
  intros Hq H. unfold step.
  assert (G : oneTick (commit K cv (handle K cv ev m))).
  { apply commit_oneTick. intro Hs.
    destruct (handle_oneTick cv ev m Hq H) as [G | G]; [exact G|congruence]. }
  destruct (settle_cases K cv (handle K cv ev m)) as [-> | ->]; [exact G|].
  apply commit_oneTick. intros _. exact G.
Qed.

Lemma reachable_oneTick m : reachable K m -> oneTick m.
Proof.
  apply (reachable_induction oneTick).
  - reflexivity.
  - intros cv ev m0 Hr IH. apply step_oneTick; [|exact IH].
    exact (reachable_quiescent K m0 Hr).
Qed.

(** X5. At most one countdown tick is pending at any time, and exactly one
    while the countdown overlay is on screen (the countdown is set and above
    zero): every render that changes the countdown clears the tick of the
    render before it, and arms a new one only for a countdown above zero. *)
Theorem X5_one_tick_while_counting m :
  reachable K m ->
  tickCount (timers m) = if overlayVisible (st m) then 1%nat else 0%nat.
Proof.
  intro Hr. pose proof (reachable_oneTick m Hr) as H. unfold oneTick in H.
  now rewrite (reachable_quiescent K m Hr).
Qed.

(** *** One expiry of a timeout, computed *)

Lemma settle_timers cv h :
  countdown (st (commit K cv h)) = countdown (st h) ->
  timers (settle K settle_fuel cv h) = timers (commit K cv h).
Proof.
  intro Hc. destruct (settle_cases K cv h) as [-> | ->]; [reflexivity|].
  destruct (commit_timers K cv (commit K cv h)) as (m2 & _ & _ & _ & _ & ->).
  rewrite rendered_commit. unfold sameCountdownDeps.
  replace (optZ_eqb (countdown (st h)) (countdown (st (commit K cv h)))) with true;
    [reflexivity|].
  symmetry. apply optZ_eqb_eq. now symmetry.
Qed.

Lemma settle_timers_cleared cv h :
  countdown (st (commit K cv h)) = None ->
  timers (settle K settle_fuel cv h) = timers (commit K cv h)
  \/ timers (settle K settle_fuel cv h) = pauses (timers (commit K cv h)).
Proof.
  intro Hc. destruct (settle_cases K cv h) as [-> | ->]; [now left|].
  destruct (commit_timers K cv (commit K cv h)) as (m2 & _ & _ & _ & Ht & ->).
  destruct (sameCountdownDeps _ _); [now left|]. right.
  unfold effectCountdown. rewrite Hc. exact Ht.
Qed.

(** A render that brings a new countdown above zero arms the tick and leaves
    the state as the event left it. *)
Lemma settle_arms_tick cv h c :
  countdown (st h) = Some c -> 0 < c -> countdown (rendered h) <> Some c ->
  isMaxCaptureReached K (st h) && isAutoSequenceActive (st h) = false ->
  st (settle K settle_fuel cv h) = st h
  /\ timers (settle K settle_fuel cv h) = pauses (timers h) ++ [tick].
Proof.
  intros Hc Hpos Hne Hmax.
  assert (D : sameCountdownDeps (rendered h) (st h) = false).
  { unfold sameCountdownDeps. rewrite Hc.
    destruct (countdown (rendered h)) as [c0|]; cbn [optZ_eqb]; [|reflexivity].
    apply Z.eqb_neq. congruence. }
  assert (P : (0 <? c) = true) by now apply Z.ltb_lt.
  destruct (commit_unfold K cv h) as (m2 & _ & _ & _ & E2 & E & _).
  destruct (commit_timers K cv h) as (m3 & _ & _ & _ & T3 & T).
  rewrite Hmax in E2. rewrite D in E, T.
  unfold effectCountdown in E, T. rewrite Hc, P in E, T.
  unfold setTimeout, setTimers, setHasCapturedRef in E, T. cbn [st timers] in E, T.
  assert (Hst : st (commit K cv h) = st h).
  { rewrite E, E2. now destruct (sameMaxCaptureDeps K _ _). }
  split.
  - now rewrite st_settle.
  - rewrite settle_timers by now rewrite Hst. rewrite T, T3. reflexivity.
Qed.

Lemma hasRoom_effect s :
  hasRoom K s -> isMaxCaptureReached K s && isAutoSequenceActive s = false.
Proof.
  unfold hasRoom. destruct (isAutoSequenceActive s); intro H.
  - now rewrite H.
  - apply andb_false_r.
Qed.

(** The tick of a countdown above one: the countdown goes down by one and the
    next tick is armed. *)
Lemma step_tick_down cv m rest c :
  reachable K m -> timers m = tick :: rest -> countdown (st m) = Some c -> 1 < c ->
  st (step K cv FireTimer m) = setCountdown (fun _ => Some (c - 1)) (st m)
  /\ timers (step K cv FireTimer m) = pauses rest ++ [tick].
Proof.
  intros Hr Ht Hc Hlt.
  pose proof (reachable_quiescent K m Hr) as Hq.
  pose proof (hasRoom_effect (st m) (reachable_hasRoom m Hr)) as Hroom.
  unfold step. set (h := handle K cv FireTimer m).
  assert (Hst : st h = setCountdown (fun _ => Some (c - 1)) (st m)).
  { subst h. cbn [handle]. rewrite Ht. cbn. unfold setCountdown. now rewrite Hc. }
  assert (Hrd : rendered h = st m).
  { subst h. cbn [handle]. rewrite Ht. cbn. now rewrite Hq. }
  assert (Htm : timers h = rest).
  { subst h. cbn [handle]. rewrite Ht. reflexivity. }
  clearbody h.
  destruct (settle_arms_tick cv h (c - 1)) as [E T].
  - now rewrite Hst.
  - lia.
  - rewrite Hrd, Hc. intro X. injection X. lia.
  - rewrite Hst. exact Hroom.
  - rewrite E, T, Htm, Hst. split; reflexivity.
Qed.

(** The expiry of a pause: the countdown starts again from the timer the
    pause was armed with. *)
Lemma step_reseed cv m rest d t :
  reachable K m -> timers m = mkTimeout d (Reseed t) :: rest ->
  0 < t -> countdown (st m) <> Some t ->
  st (step K cv FireTimer m) = setCountdown (fun _ => Some t) (st m)
  /\ timers (step K cv FireTimer m) = pauses rest ++ [tick].
Proof.
  intros Hr Ht Hpos Hne.
  pose proof (reachable_quiescent K m Hr) as Hq.
  pose proof (hasRoom_effect (st m) (reachable_hasRoom m Hr)) as Hroom.
  unfold step. set (h := handle K cv FireTimer m).
  assert (Hst : st h = setCountdown (fun _ => Some t) (st m)).
  { subst h. cbn [handle]. rewrite Ht. reflexivity. }
  assert (Hrd : rendered h = st m).
  { subst h. cbn [handle]. rewrite Ht. cbn. now rewrite Hq. }
  assert (Htm : timers h = rest).
  { subst h. cbn [handle]. rewrite Ht. reflexivity. }
  clearbody h.
  destruct (settle_arms_tick cv h t) as [E T].
  - now rewrite Hst.
  - exact Hpos.
  - now rewrite Hrd.
  - rewrite Hst. exact Hroom.
  - rewrite E, T, Htm, Hst. split; reflexivity.
Qed.

Lemma started_no_error m :
  reachable K m -> isCameraStarted (st m) = true -> cameraError (st m) = None.
Proof.
  intros Hr Hs. destruct (reachable_phase m Hr) as [[| |] (_ & Hs' & He)];
    try congruence.
Qed.

Lemma capture_then_pause s url :
  isCapturing s = false ->
  setIsCapturing false
    (setCapturedImages (fun prev => prev ++ [url])
       (setIsCapturing true (setCountdown (fun _ => Some 0) s)))
  = setCapturedImages (fun prev => prev ++ [url]) (setCountdown (fun _ => Some 0) s).
Proof. destruct s. cbn. now intros ->. Qed.

Lemma capture_then_stop s url :
  isCapturing s = false ->
  setCountdown (fun _ => None)
    (setIsAutoSequenceActive false
       (setIsCapturing false
          (setCapturedImages (fun prev => prev ++ [url])
             (setIsCapturing true (setCountdown (fun _ => Some 0) s)))))
  = setCapturedImages (fun prev => prev ++ [url]) (stopAutoSequence s).
Proof. destruct s. cbn. now intros ->. Qed.

(** The tick from one to zero with the camera ready: the frame is appended,
    and the sequence goes on with a pause or stops. *)
Lemma step_tick_zero cv m rest :
  reachable K m -> timers m = tick :: rest -> countdown (st m) = Some 1 ->
  isCameraStarted (st m) = true -> isMaxCaptureReached K (st m) = false ->
  context2d cv = true ->
  let m' := step K cv FireTimer m in
  if isAutoModeEnabled (st m)
     && (Z.of_nat (List.length (capturedImages (st m))) <? Z.of_nat (MAX_CAPTURE K) - 1)
  then st m' = setCapturedImages (fun prev => prev ++ [dataURL cv])
                 (setCountdown (fun _ => Some 0) (st m))
       /\ timers m' = pauses rest ++ [mkTimeout 1000 (Reseed (selectedTimer K (st m)))]
  else st m' = setCapturedImages (fun prev => prev ++ [dataURL cv])
                 (stopAutoSequence (st m))
       /\ timers m' = pauses rest.
Proof.
  intros Hr Ht Hc Hcam Hmax Hctx m'. subst m'.
  pose proof (started_no_error m Hr Hcam) as Herr.
  pose proof (reachable_quiescent K m Hr) as Hq.
  pose proof (reachable_ref_unset K m 1 Hr Hc ltac:(lia)) as Href.
  pose proof (reachable_isCapturing K m Hr) as Hcap.
  unfold step.
  set (h := handle K cv FireTimer m).
  assert (Hst : st h = setCountdown (fun _ => Some 0) (st m)).
  { subst h. cbn [handle]. unfold tick in Ht. rewrite Ht. cbn.
    unfold setCountdown. now rewrite Hc. }
  assert (Hrd : rendered h = st m).
  { subst h. cbn [handle]. rewrite Ht. cbn. now rewrite Hq. }
  assert (Hh : hasCapturedRef h = false).
  { subst h. cbn [handle]. rewrite Ht. exact Href. }
  assert (Htm : timers h = rest).
  { subst h. cbn [handle]. rewrite Ht. reflexivity. }
  clearbody h.
  assert (D1 : sameMaxCaptureDeps K (st m) (setCountdown (fun _ => Some 0) (st m)) = true)
    by exact (sameMaxCaptureDeps_refl K (st m)).
  assert (D2 : sameCountdownDeps (st m) (setCountdown (fun _ => Some 0) (st m)) = false).
  { unfold sameCountdownDeps. rewrite Hc. reflexivity. }
  pose proof (settle_timers cv h) as ST.
  pose proof (settle_timers_cleared cv h) as SC.
  rewrite st_settle.
  destruct (commit_unfold K cv h) as (m2 & H2 & Hv & Hcv & E2 & E & _).
  destruct (commit_timers K cv h) as (m3 & G2 & Gv & Gcv & T3 & T).
  rewrite Hrd, Hst in *. rewrite D1 in E2. rewrite D2 in E, T.
  unfold effectCountdown in E, T. cbn [countdown setCountdown] in E, T.
  rewrite H2, Hh in E. rewrite G2, Hh in T. cbn in E, T.
  cbn [cameraError setCountdown] in Hv, Gv. rewrite Herr in Hv, Gv.
  set (env := setCountdown (fun _ => Some 0) (st m)) in *.
  assert (Hg2 : captureGuard K env (setHasCapturedRef true m2) = false).
  { unfold captureGuard, isMaxCaptureReached in *. cbn.
    now rewrite Hv, Hcv, Hcam, Hmax, Hcap. }
  assert (Hg3 : captureGuard K env (setHasCapturedRef true m3) = false).
  { unfold captureGuard, isMaxCaptureReached in *. cbn.
    now rewrite Gv, Gcv, Hcam, Hmax, Hcap. }
  rewrite timers_captureImage, Hg3, Hctx in T. cbn [negb orb] in T.
  unfold captureImage in E. fold (captureGuard K env (setHasCapturedRef true m2)) in E.
  rewrite Hg2, Hctx in E. cbn [negb] in E. rewrite st_scheduleNextAutoCapture in E.
  change (isAutoModeEnabled env) with (isAutoModeEnabled (st m)) in *.
  change (capturedImages env) with (capturedImages (st m)) in *.
  change (selectedTimer K env) with (selectedTimer K (st m)) in *.
  cbn [timers setHasCapturedRef] in T. rewrite T3, Htm in T.
  fold (pauses rest) in T.
  unfold onSt in E. cbn [st setHasCapturedRef] in E. rewrite E2 in E.
  destruct (isAutoModeEnabled (st m)
            && (Z.of_nat (List.length (capturedImages (st m)))
                <? Z.of_nat (MAX_CAPTURE K) - 1)).
  - split.
    + rewrite E. subst env. now apply capture_then_pause.
    + rewrite ST; [exact T|]. now rewrite E.
  - split.
    + rewrite E. subst env. now apply capture_then_stop.
    + destruct SC as [-> | ->]; [now rewrite E|exact T|].
      now rewrite T, pauses_pauses.
Qed.

(** *** Countdowns and sequences, run to their end *)

Lemma setCountdown_same s c : countdown s = c -> setCountdown (fun _ => c) s = s.
Proof. destruct s. cbn. now intros ->. Qed.

Lemma stopAutoSequence_idle s :
  countdown s = None -> isAutoSequenceActive s = false -> stopAutoSequence s = s.
Proof. destruct s. cbn. now intros -> ->. Qed.

Lemma expiries_app cv a b : expiries cv (a + b) = expiries cv a ++ expiries cv b.
Proof. apply repeat_app. Qed.

(** [k] ticks of a countdown above [k] bring it down by [k] and leave the next
    tick armed. *)
Lemma count_down cv k :
  forall m c,
    reachable K m -> timers m = [tick] -> countdown (st m) = Some c ->
    Z.of_nat k < c ->
    let m' := run K (expiries cv k) m in
    st m' = setCountdown (fun _ => Some (c - Z.of_nat k)) (st m)
    /\ timers m' = [tick].
Proof.
  induction k as [|k IH]; intros m c Hr Ht Hc Hlt.
  - cbn [expiries repeat run]. split; [|exact Ht].
    symmetry. apply setCountdown_same. rewrite Hc. f_equal. cbn. lia.
  - change (expiries cv (S k)) with ((cv, FireTimer) :: expiries cv k).
    cbn [run].
    destruct (step_tick_down cv m [] c Hr Ht Hc ltac:(lia)) as [Es Et].
    pose proof (reachable_step K cv FireTimer m Hr) as Hr'.
    set (m1 := step K cv FireTimer m) in *. clearbody m1.
    destruct (IH m1 (c - 1) Hr' Et) as [Es' Et'].
    + now rewrite Es.
    + lia.
    + cbn zeta in *. split; [|exact Et'].
      rewrite Es', Es. unfold setCountdown. cbn. do 2 f_equal. lia.
Qed.

(** The press of the main button in the idle state, the camera ready. *)
Lemma step_click_start cv m :
  reachable K m ->
  canProceedToLayout (st m) = false -> isAutoSequenceActive (st m) = false ->
  countdown (st m) = None -> isCameraStarted (st m) = true ->
  isMaxCaptureReached K (st m) = false -> 0 < selectedTimer K (st m) ->
  st (step K cv ClickCapture m) = startCapture K (st m) (st m)
  /\ timers (step K cv ClickCapture m) = pauses (timers m) ++ [tick].
Proof.
  intros Hr Hp Ha Hc Hs Hmax Hpos.
  pose proof (reachable_quiescent K m Hr) as Hq.
  pose proof (reachable_isCapturing K m Hr) as Hcap.
  unfold step. set (h := handle K cv ClickCapture m).
  assert (Hh : h = onSt (startCapture K (st m)) m).
  { subst h. cbn [handle]. rewrite <- Hq. unfold captureDisabled, mainButton.
    now rewrite Hp, Ha, Hc, Hs, Hmax, Hcap. }
  assert (Hst : st h = startCapture K (st m) (st m)) by now rewrite Hh.
  assert (Hrd : rendered h = st m) by (rewrite Hh; cbn; now rewrite Hq).
  assert (Htm : timers h = timers m) by now rewrite Hh.
  clearbody h. clear Hh.
  assert (Hcd : countdown (startCapture K (st m) (st m)) = Some (selectedTimer K (st m))).
  { unfold startCapture. rewrite Hmax. now destruct (isAutoModeEnabled (st m)). }
  assert (Hmx : isMaxCaptureReached K (startCapture K (st m) (st m)) = false).
  { unfold startCapture. rewrite Hmax. now destruct (isAutoModeEnabled (st m)). }
  destruct (settle_arms_tick cv h (selectedTimer K (st m))) as [E T].
  - now rewrite Hst.
  - exact Hpos.
  - rewrite Hrd, Hc. discriminate.
  - rewrite Hst, Hmx. reflexivity.
  - rewrite E, T, Htm, Hst. split; reflexivity.
Qed.

(** One round of an auto sequence with room for a further image: the
    countdown runs down, the frame is appended, the pause expires, and the
    countdown is back at the timer. *)
Lemma auto_round cv n m :
  reachable K m -> timers m = [tick] ->
  countdown (st m) = Some (Z.of_nat (S n)) ->
  selectedTimer K (st m) = Z.of_nat (S n) ->
  isAutoModeEnabled (st m) = true -> isCameraStarted (st m) = true ->
  context2d cv = true ->
  (S (List.length (capturedImages (st m))) < MAX_CAPTURE K)%nat ->
  let m' := run K (expiries cv (S (S n))) m in
  st m' = setCapturedImages (fun prev => prev ++ [dataURL cv]) (st m)
  /\ timers m' = [tick].
Proof.
  intros Hr Ht Hc Hsel Hauto Hcam Hctx Hroom.
  replace (expiries cv (S (S n))) with (expiries cv (n + 2)) by (f_equal; lia).
  rewrite expiries_app, run_app.
  destruct (count_down cv n m _ Hr Ht Hc ltac:(lia)) as [E1 T1]. cbn zeta in *.
  assert (R1 : reachable K (run K (expiries cv n) m)).
  { destruct Hr as [inputs ->]. exists (inputs ++ expiries cv n). now rewrite run_app. }
  set (m1 := run K (expiries cv n) m) in *. clearbody m1.
  replace (Z.of_nat (S n) - Z.of_nat n) with 1 in E1 by lia.
  change (expiries cv 2) with [(cv, FireTimer); (cv, FireTimer)]. cbn [run].
  assert (Hmax : isMaxCaptureReached K (st m1) = false).
  { rewrite E1. unfold isMaxCaptureReached. cbn. apply Nat.leb_gt. lia. }
  pose proof (step_tick_zero cv m1 [] R1 T1 ltac:(now rewrite E1)
                ltac:(now rewrite E1) Hmax Hctx) as Z0.
  cbn zeta in Z0.
  replace (isAutoModeEnabled (st m1)
           && (Z.of_nat (List.length (capturedImages (st m1)))
               <? Z.of_nat (MAX_CAPTURE K) - 1)) with true in Z0.
  2:{ rewrite E1. cbn. rewrite Hauto. symmetry. apply Z.ltb_lt. lia. }
  destruct Z0 as [E2 T2].
  pose proof (reachable_step K cv FireTimer m1 R1) as R2.
  set (m2 := step K cv FireTimer m1) in *. clearbody m2.
  assert (Hsel1 : selectedTimer K (st m1) = Z.of_nat (S n)) by now rewrite E1.
  rewrite Hsel1 in T2. cbn [pauses filter app] in T2.
  destruct (step_reseed cv m2 [] 1000 (Z.of_nat (S n)) R2 T2 ltac:(lia)) as [E3 T3].
  { rewrite E2. cbn. intro X. injection X. lia. }
  split; [|exact T3].
  rewrite E3, E2, E1. rewrite <- Hc. clear.
  destruct (st m). reflexivity.
Qed.

(** The last round of an auto sequence, and the only round of a single shot:
    the countdown runs down, the frame is appended, and the component is
    idle. *)
Lemma last_round cv n m :
  reachable K m -> timers m = [tick] ->
  countdown (st m) = Some (Z.of_nat (S n)) ->
  isCameraStarted (st m) = true -> context2d cv = true ->
  isMaxCaptureReached K (st m) = false ->
  isAutoModeEnabled (st m) = false
  \/ S (List.length (capturedImages (st m))) = MAX_CAPTURE K ->
  let m' := run K (expiries cv (S n)) m in
  st m' = setCapturedImages (fun prev => prev ++ [dataURL cv])
            (stopAutoSequence (st m))
  /\ timers m' = [].
Proof.
  intros Hr Ht Hc Hcam Hctx Hmax Hlast.
  replace (expiries cv (S n)) with (expiries cv (n + 1)) by (f_equal; lia).
  rewrite expiries_app, run_app.
  destruct (count_down cv n m _ Hr Ht Hc ltac:(lia)) as [E1 T1]. cbn zeta in *.
  assert (R1 : reachable K (run K (expiries cv n) m)).
  { destruct Hr as [inputs ->]. exists (inputs ++ expiries cv n). now rewrite run_app. }
  set (m1 := run K (expiries cv n) m) in *. clearbody m1.
  replace (Z.of_nat (S n) - Z.of_nat n) with 1 in E1 by lia.
  change (expiries cv 1) with [(cv, FireTimer)]. cbn [run].
  pose proof (step_tick_zero cv m1 [] R1 T1 ltac:(now rewrite E1)
                ltac:(now rewrite E1) ltac:(now rewrite E1) Hctx) as Z0.
  cbn zeta in Z0.
  replace (isAutoModeEnabled (st m1)
           && (Z.of_nat (List.length (capturedImages (st m1)))
               <? Z.of_nat (MAX_CAPTURE K) - 1)) with false in Z0.
  2:{ rewrite E1. cbn. symmetry. destruct Hlast as [-> | Hlast]; [reflexivity|].
      apply andb_false_iff. right. apply Z.ltb_ge. lia. }
  destruct Z0 as [E2 T2]. split; [|exact T2].
  rewrite E2, E1. reflexivity.
Qed.

(** An auto sequence that has room for [S r] images takes [S r] rounds and
    leaves the strip with [S r] images more. *)
Lemma auto_rounds cv n r :
  forall m,
    reachable K m -> timers m = [tick] ->
    countdown (st m) = Some (Z.of_nat (S n)) ->
    selectedTimer K (st m) = Z.of_nat (S n) ->
    isAutoModeEnabled (st m) = true -> isCameraStarted (st m) = true ->
    context2d cv = true ->
    (List.length (capturedImages (st m)) + S r = MAX_CAPTURE K)%nat ->
    let m' := run K (expiries cv (S r * S n + r)) m in
    st m' = setCapturedImages (fun prev => prev ++ repeat (dataURL cv) (S r))
              (stopAutoSequence (st m))
    /\ timers m' = [].
Proof.
  induction r as [|r IH]; intros m Hr Ht Hc Hsel Hauto Hcam Hctx Hlen.
  - replace (1 * S n + 0)%nat with (S n) by lia.
    apply last_round; try assumption.
    + unfold isMaxCaptureReached. apply Nat.leb_gt. lia.
    + right. lia.
  - replace (S (S r) * S n + S r)%nat with (S (S n) + (S r * S n + r))%nat by lia.
    rewrite expiries_app, run_app.
    destruct (auto_round cv n m Hr Ht Hc Hsel Hauto Hcam Hctx ltac:(lia)) as [E1 T1].
    cbn zeta in *.
    assert (R1 : reachable K (run K (expiries cv (S (S n))) m)).
    { destruct Hr as [inputs ->]. exists (inputs ++ expiries cv (S (S n))).
      now rewrite run_app. }
    set (m1 := run K (expiries cv (S (S n))) m) in *. clearbody m1.
    destruct (IH m1 R1 T1) as [E2 T2]; try assumption;
      try (rewrite E1; assumption).
    + rewrite E1. cbn. rewrite length_app. cbn. lia.
    + split; [|exact T2]. rewrite E2, E1. clear.
      destruct (st m). cbn. unfold setCapturedImages. cbn.
      now rewrite <- app_assoc.
Qed.

(** X6. A single shot.  In the idle state with the camera ready, auto mode
    off and a timer of [S n] seconds, the press of the main button starts the
    countdown at [S n]; each tick brings it down by one with the strip
    untouched; the tick that brings it to zero appends exactly one image,
    the frame of that moment, and leaves the component idle with no timeout
    pending. *)
Theorem X6_single_shot cv0 cv n m :
  reachable K m -> timers m = [] ->
  canProceedToLayout (st m) = false -> isAutoSequenceActive (st m) = false ->
  countdown (st m) = None -> isCameraStarted (st m) = true ->
  isMaxCaptureReached K (st m) = false -> isAutoModeEnabled (st m) = false ->
  selectedTimer K (st m) = Z.of_nat (S n) -> context2d cv = true ->
  (forall k, (k <= n)%nat ->
     st (run K ((cv0, ClickCapture) :: expiries cv k) m)
     = setCountdown (fun _ => Some (Z.of_nat (S n - k))) (st m))
  /\ st (run K ((cv0, ClickCapture) :: expiries cv (S n)) m)
     = setCapturedImages (fun prev => prev ++ [dataURL cv]) (st m)
  /\ timers (run K ((cv0, ClickCapture) :: expiries cv (S n)) m) = [].
Proof.
  intros Hr Ht Hp Ha Hc Hs Hmax Hauto Hsel Hctx.
  destruct (step_click_start cv0 m Hr Hp Ha Hc Hs Hmax ltac:(lia)) as [E0 T0].
  pose proof (reachable_step K cv0 ClickCapture m Hr) as R0.
  rewrite Ht in T0. cbn [pauses filter app] in T0.
  unfold startCapture in E0. rewrite Hmax, Hauto, Hsel in E0.
  cbn [run]. set (m0 := step K cv0 ClickCapture m) in *. clearbody m0.
  split; [|].
  - intros k Hk.
    destruct (count_down cv k m0 (Z.of_nat (S n)) R0 T0 ltac:(now rewrite E0)
                ltac:(lia)) as [E _].
    cbn zeta in E.
    replace (Z.of_nat (S n) - Z.of_nat k) with (Z.of_nat (S n - k)) in E by lia.
    rewrite E, E0. reflexivity.
  - destruct (last_round cv n m0 R0 T0 ltac:(now rewrite E0) ltac:(now rewrite E0)
                Hctx ltac:(now rewrite E0) ltac:(left; now rewrite E0)) as [E T].
    cbn zeta in *. split; [|exact T]. rewrite E, E0.
    rewrite <- (stopAutoSequence_idle (st m) Hc Ha) at 2. reflexivity.
Qed.

(** X7. An auto sequence fills the strip.  In the idle state with the camera
    ready, auto mode on, a timer of [S n] seconds and room for [S r] images,
    the press of the main button followed by the expiry of every timeout
    armed on the way ([S r] countdowns of [S n] ticks and the [r] pauses
    between them) appends [S r] images, so that the strip holds exactly
    [MAX_CAPTURE] of them, and leaves the component idle with no timeout
    pending: the sequence stops by itself at the quota, not before and not
    after. *)
Theorem X7_auto_sequence_fills_strip cv0 cv n r m :
  reachable K m -> timers m = [] ->
  canProceedToLayout (st m) = false -> isAutoSequenceActive (st m) = false ->
  countdown (st m) = None -> isCameraStarted (st m) = true ->
  isAutoModeEnabled (st m) = true ->
  selectedTimer K (st m) = Z.of_nat (S n) -> context2d cv = true ->
  (List.length (capturedImages (st m)) + S r = MAX_CAPTURE K)%nat ->
  let m' := run K ((cv0, ClickCapture) :: expiries cv (S r * S n + r)) m in
  st m' = setCapturedImages (fun prev => prev ++ repeat (dataURL cv) (S r)) (st m)
  /\ timers m' = []
  /\ List.length (capturedImages (st m')) = MAX_CAPTURE K.
Proof.
  intros Hr Ht Hp Ha Hc Hs Hauto Hsel Hctx Hlen.
  assert (Hmax : isMaxCaptureReached K (st m) = false).
  { unfold isMaxCaptureReached. apply Nat.leb_gt. lia. }
  destruct (step_click_start cv0 m Hr Hp Ha Hc Hs Hmax ltac:(lia)) as [E0 T0].
  pose proof (reachable_step K cv0 ClickCapture m Hr) as R0.
  rewrite Ht in T0. cbn [pauses filter app] in T0.
  unfold startCapture in E0. rewrite Hmax, Hauto, Hsel in E0.
  cbn [run]. set (m0 := step K cv0 ClickCapture m) in *. clearbody m0.
  destruct (auto_rounds cv n r m0 R0 T0) as [E T]; try assumption;
    try (rewrite E0; assumption); try (now rewrite E0).
  - cbn zeta in *.
    assert (Est : st (run K (expiries cv (S r * S n + r)) m0)
                  = setCapturedImages (fun prev => prev ++ repeat (dataURL cv) (S r))
                      (st m)).
    { rewrite E, E0. rewrite <- (stopAutoSequence_idle (st m) Hc Ha) at 2.
      reflexivity. }
    split; [exact Est|]. split; [exact T|].
    rewrite Est. unfold setCapturedImages. cbn [capturedImages].
    rewrite length_app, repeat_length. exact Hlen.
Qed.

(** *** The main action *)

Lemma tickCount_zero_pauses q : tickCount q = 0%nat -> pauses q = q.
Proof.
  unfold tickCount, pauses. induction q as [|t q IH]; [reflexivity|].
  cbn [filter]. destruct (isTick t); cbn [negb List.length]; [discriminate|].
  intro H. now rewrite IH.
Qed.

(** A render of a state with no countdown and no sequence: the effects leave
    the state alone, and the tick of a countdown just cleared is dropped. *)
Lemma settle_idle cv h :
  countdown (st h) = None -> isAutoSequenceActive (st h) = false ->
  st (settle K settle_fuel cv h) = st h
  /\ timers (settle K settle_fuel cv h)
     = if sameCountdownDeps (rendered h) (st h) then timers h else pauses (timers h).
Proof.
  intros Hc Ha.
  destruct (commit_unfold K cv h) as (m2 & _ & _ & _ & E2 & E & _).
  destruct (commit_timers K cv h) as (m3 & _ & _ & _ & T3 & T).
  rewrite Ha, andb_false_r in E2.
  unfold effectCountdown in E, T. rewrite Hc in E, T.
  cbn [st timers setHasCapturedRef] in E, T.
  assert (Hst : st (commit K cv h) = st h).
  { rewrite E, E2. now destruct (sameCountdownDeps _ _), (sameMaxCaptureDeps K _ _). }
  split.
  - now rewrite st_settle.
  - rewrite settle_timers by now rewrite Hst. rewrite T.
    destruct (sameCountdownDeps _ _); [reflexivity|exact T3].
Qed.

Lemma setCountdown_None_stop s :
  isAutoSequenceActive s = false -> setCountdown (fun _ => None) s = stopAutoSequence s.
Proof. destruct s. cbn. now intros ->. Qed.

Lemma mainAction_handle cv ev m :
  atRest m -> mainAction K ev m ->
  handle K cv ev m = onSt (mainButton K (closureOf ev m)) m
  /\ canProceedToLayout (closureOf ev m) = canProceedToLayout (st m)
  /\ isAutoSequenceActive (closureOf ev m) = isAutoSequenceActive (st m)
  /\ countdown (closureOf ev m) = countdown (st m)
  /\ capturedImages (closureOf ev m) = capturedImages (st m).
Proof.
  intros (Hq & _ & _ & Hk) [[-> Hd] | [-> | ->]].
  - cbn [handle closureOf]. rewrite <- Hq, Hd. repeat split.
  - apply sameKeyboardDeps_spec in Hk.
    destruct Hk as (Hi & _ & _ & _ & _ & Ha & Hc & Hp).
    cbn [handle closureOf key]. repeat split; assumption.
  - apply sameKeyboardDeps_spec in Hk.
    destruct Hk as (Hi & _ & _ & _ & _ & Ha & Hc & Hp).
    cbn [handle closureOf key]. repeat split; assumption.
Qed.

Lemma step_main_stop cv ev m :
  reachable K m -> mainAction K ev m ->
  canProceedToLayout (st m) = false ->
  isAutoSequenceActive (st m) = true \/ countdown (st m) <> None ->
  st (step K cv ev m) = stopAutoSequence (st m)
  /\ timers (step K cv ev m) = pauses (timers m).
Proof.
  intros Hr Hev Hp Hon.
  pose proof (reachable_atRest K m Hr) as Hrest.
  pose proof (reachable_quiescent K m Hr) as Hq.
  pose proof (reachable_oneTick m Hr) as Htick.
  destruct (mainAction_handle cv ev m Hrest Hev) as (Hh & Ep & Ea & Ec & _).
  unfold step. rewrite Hh. set (h := onSt _ m).
  assert (Hst : st h = stopAutoSequence (st m)).
  { subst h. cbn [st onSt]. unfold mainButton. rewrite Ep, Ea, Ec, Hp.
    destruct (isAutoSequenceActive (st m)) eqn:A; [reflexivity|].
    destruct (countdown (st m)) eqn:C.
    - now apply setCountdown_None_stop.
    - destruct Hon as [Hon | Hon]; [discriminate|contradiction]. }
  assert (Hrd : rendered h = st m) by (subst h; cbn; now rewrite Hq).
  assert (Htm : timers h = timers m) by reflexivity.
  clearbody h.
  destruct (settle_idle cv h) as [E T]; [now rewrite Hst..|].
  rewrite E, T, Hst, Hrd, Htm. split; [reflexivity|].
  destruct (sameCountdownDeps (st m) (stopAutoSequence (st m))) eqn:D; [|reflexivity].
  symmetry. apply tickCount_zero_pauses. unfold oneTick in Htick. rewrite Htick.
  unfold sameCountdownDeps in D. apply optZ_eqb_eq in D. cbn in D.
  unfold overlayVisible. now rewrite <- Hq, D.
Qed.

Lemma step_main_start cv ev m :
  reachable K m -> mainAction K ev m ->
  canProceedToLayout (st m) = false -> isAutoSequenceActive (st m) = false ->
  countdown (st m) = None -> isMaxCaptureReached K (st m) = false ->
  0 < selectedTimer K (closureOf ev m) ->
  st (step K cv ev m) = startCapture K (closureOf ev m) (st m)
  /\ timers (step K cv ev m) = pauses (timers m) ++ [tick].
Proof.
  intros Hr Hev Hp Ha Hc Hmax Hpos.
  pose proof (reachable_atRest K m Hr) as Hrest.
  pose proof (reachable_quiescent K m Hr) as Hq.
  destruct (mainAction_handle cv ev m Hrest Hev) as (Hh & Ep & Ea & Ec & Ei).
  unfold step. rewrite Hh. set (env := closureOf ev m) in *. clearbody env.
  set (h := onSt _ m).
  assert (Hmax' : isMaxCaptureReached K env = false).
  { unfold isMaxCaptureReached in *. now rewrite Ei. }
  assert (Hst : st h = startCapture K env (st m)).
  { subst h. cbn [st onSt]. unfold mainButton. now rewrite Ep, Ea, Ec, Hp, Ha, Hc. }
  assert (Hrd : rendered h = st m) by (subst h; cbn; now rewrite Hq).
  assert (Htm : timers h = timers m) by reflexivity.
  clearbody h.
  assert (Hcd : countdown (startCapture K env (st m)) = Some (selectedTimer K env)).
  { unfold startCapture. rewrite Hmax'. now destruct (isAutoModeEnabled env). }
  assert (Hmx : isMaxCaptureReached K (startCapture K env (st m)) = false).
  { unfold startCapture. rewrite Hmax'. now destruct (isAutoModeEnabled env). }
  destruct (settle_arms_tick cv h (selectedTimer K env)) as [E T].
  - now rewrite Hst.
  - exact Hpos.
  - rewrite Hrd, Hc. discriminate.
  - rewrite Hst, Hmx. reflexivity.
  - rewrite E, T, Htm, Hst. split; reflexivity.
Qed.

Lemma step_main_proceed cv ev m :
  reachable K m -> mainAction K ev m -> canProceedToLayout (st m) = true ->
  step K cv ev m = m.
Proof.
  intros Hr Hev Hp.
  pose proof (reachable_atRest K m Hr) as Hrest.
  destruct (mainAction_handle cv ev m Hrest Hev) as (Hh & Ep & _).
  apply step_declined; [exact Hrest|]. rewrite Hh. apply onSt_id.
  unfold mainButton. now rewrite Ep, Hp.
Qed.

(** X8. The main action does what the icon of the main button shows, by click
    and by Space or Enter alike.  Under the arrow (the parent lets the user
    proceed) it leaves the component exactly as it is.  Under the cross (a
    countdown or a sequence is on) it clears the countdown and the sequence
    flag, keeps the strip, and drops the pending tick, while a pause armed by
    the sequence stays pending.  Under the camera with room on the strip it
    starts the countdown and arms the first tick; the timer and the auto mode
    are those of the render whose closure answers: the render on screen for
    the click, the render the listener was registered in for a key. *)
Theorem X8_main_action_follows_icon cv ev m :
  reachable K m -> mainAction K ev m ->
  match mainIcon (st m) with
  | IconArrowRight => step K cv ev m = m
  | IconX =>
      st (step K cv ev m) = stopAutoSequence (st m)
      /\ timers (step K cv ev m) = pauses (timers m)
  | IconCamera =>
      isMaxCaptureReached K (st m) = false ->
      0 < selectedTimer K (closureOf ev m) ->
      st (step K cv ev m) = startCapture K (closureOf ev m) (st m)
      /\ countdown (st (step K cv ev m)) = Some (selectedTimer K (closureOf ev m))
      /\ timers (step K cv ev m) = pauses (timers m) ++ [tick]
  end.
Proof.
  intros Hr Hev. unfold mainIcon.
  destruct (canProceedToLayout (st m)) eqn:Hp.
  - now apply step_main_proceed.
  - destruct (isAutoSequenceActive (st m)) eqn:Ha.
    + apply step_main_stop; auto.
    + destruct (countdown (st m)) eqn:Hc; cbn [notNull].
      * apply step_main_stop; auto. right. rewrite Hc. discriminate.
      * intros Hmax Hpos.
        destruct (step_main_start cv ev m Hr Hev Hp Ha Hc Hmax Hpos) as [E T].
        split; [exact E|]. split; [|exact T]. rewrite E.
        pose proof (reachable_atRest K m Hr) as Hrest.
        destruct (mainAction_handle cv ev m Hrest Hev) as (_ & _ & _ & _ & Ei).
        unfold startCapture, isMaxCaptureReached in *. rewrite Ei, Hmax.
        now destruct (isAutoModeEnabled (closureOf ev m)).
Qed.

(** *** The timer button *)

(** A render in which no dependency of an effect has changed. *)
Lemma settle_no_effect cv h :
  sameCameraDeps (rendered h) (st h) = true ->
  sameMaxCaptureDeps K (rendered h) (st h) = true ->
  sameCountdownDeps (rendered h) (st h) = true ->
  sameKeyboardDeps (rendered h) (st h) = true ->
  settle K settle_fuel cv h
  = mkMachine (st h) (st h) (kbd h) (hasCapturedRef h)
              (isNone (cameraError (st h))) true (timers h) (cameraRequests h).
Proof.
  intros D1 D2 D3 D4.
  assert (E : commit K cv h
              = mkMachine (st h) (st h) (kbd h) (hasCapturedRef h)
                  (isNone (cameraError (st h))) true (timers h) (cameraRequests h)).
  { unfold commit. now rewrite D1, D2, D3, D4. }
  unfold settle_fuel. cbn [settle]. rewrite E.
  replace (quiescentb _) with true; [reflexivity|].
  symmetry. now apply quiescentb_eq.
Qed.

Lemma step_click_timer cv m :
  reachable K m -> timerDisabled (st m) = false ->
  step K cv ClickTimer m
  = mkMachine
      (setSelectedTimerIndex
         (fun prev => Nat.modulo (prev + 1) (List.length (TIMER_OPTIONS K))) (st m))
      (setSelectedTimerIndex
         (fun prev => Nat.modulo (prev + 1) (List.length (TIMER_OPTIONS K))) (st m))
      (kbd m) (hasCapturedRef m) (videoRef m) (canvasRef m) (timers m)
      (cameraRequests m).
Proof.
  intros Hr Hd.
  destruct (reachable_atRest K m Hr) as (Hq & Hv & Hcv & _).
  unfold step.
  assert (Hh : handle K cv ClickTimer m
               = onSt (setSelectedTimerIndex
                         (fun prev => Nat.modulo (prev + 1)
                                        (List.length (TIMER_OPTIONS K)))) m).
  { cbn [handle]. rewrite <- Hq, Hd. unfold cycleTimer. now rewrite Hd. }
  rewrite Hh. rewrite settle_no_effect.
  - cbn [st kbd hasCapturedRef timers cameraRequests onSt].
    rewrite Hv, Hcv. reflexivity.
  - cbn [st rendered onSt]. rewrite <- Hq. exact (sameCameraDeps_refl (st m)).
  - cbn [st rendered onSt]. rewrite <- Hq. exact (sameMaxCaptureDeps_refl K (st m)).
  - cbn [st rendered onSt]. rewrite <- Hq. exact (sameCountdownDeps_refl (st m)).
  - cbn [st rendered onSt]. rewrite <- Hq. exact (sameKeyboardDeps_refl (st m)).
Qed.

Lemma setSelectedTimerIndex_same f s :
  f (selectedTimerIndex s) = selectedTimerIndex s -> setSelectedTimerIndex f s = s.
Proof.
  destruct s. unfold setSelectedTimerIndex. cbn [selectedTimerIndex].
  intro H. rewrite H. reflexivity.
Qed.

Lemma timer_clicks cv k :
  forall m,
    reachable K m -> timerDisabled (st m) = false ->
    (selectedTimerIndex (st m) < List.length (TIMER_OPTIONS K))%nat ->
    run K (timerClicks cv k) m
    = mkMachine
        (setSelectedTimerIndex
           (fun prev => Nat.modulo (prev + k) (List.length (TIMER_OPTIONS K))) (st m))
        (setSelectedTimerIndex
           (fun prev => Nat.modulo (prev + k) (List.length (TIMER_OPTIONS K))) (st m))
        (kbd m) (hasCapturedRef m) (videoRef m) (canvasRef m) (timers m)
        (cameraRequests m).
Proof.
  induction k as [|k IH]; intros m Hr Hd Hi.
  - cbn [timerClicks repeat run].
    destruct (reachable_atRest K m Hr) as (Hq & _).
    destruct m as [s r kb hc vr cr tm rq].
    cbn [st rendered kbd hasCapturedRef videoRef canvasRef timers cameraRequests] in *.
    subst r. rewrite setSelectedTimerIndex_same; [reflexivity|].
    rewrite Nat.add_0_r. now apply Nat.mod_small.
  - change (timerClicks cv (S k)) with ((cv, ClickTimer) :: timerClicks cv k).
    cbn [run].
    pose proof (reachable_step K cv ClickTimer m Hr) as Hr'.
    pose proof (step_click_timer cv m Hr Hd) as E.
    set (m1 := step K cv ClickTimer m) in *. clearbody m1.
    assert (Hlen : List.length (TIMER_OPTIONS K) <> 0%nat) by lia.
    rewrite IH; [|exact Hr'|rewrite E; exact Hd|].
    + rewrite E. cbn [st kbd hasCapturedRef videoRef canvasRef timers cameraRequests].
      assert (X : setSelectedTimerIndex
                    (fun prev => Nat.modulo (prev + k) (List.length (TIMER_OPTIONS K)))
                    (setSelectedTimerIndex
                       (fun prev => Nat.modulo (prev + 1)
                                      (List.length (TIMER_OPTIONS K))) (st m))
                  = setSelectedTimerIndex
                      (fun prev => Nat.modulo (prev + S k)
                                     (List.length (TIMER_OPTIONS K))) (st m)).
      { unfold setSelectedTimerIndex.
        cbn [capturedImages canProceedToLayout filters isMirrored isCameraStarted
             cameraError activeFilters isCapturing isAutoModeEnabled
             isAutoSequenceActive selectedTimerIndex countdown].
        f_equal. rewrite Nat.Div0.add_mod_idemp_l. f_equal. lia. }
      now rewrite X.
    + rewrite E. cbn [st selectedTimerIndex setSelectedTimerIndex].
      now apply Nat.mod_upper_bound.
Qed.

(** X9. The timer button cycles through [TIMER_OPTIONS].  With the default
    index inside the list, the selected timer is always one of the options;
    while the button is enabled, [k] clicks move the index [k] places round
    the list and change nothing else, so that as many clicks as there are
    options bring the component back to the very state it was in; while the
    button is disabled a click changes nothing. *)
Theorem X9_timer_button_cycles cv m :
  (DEFAULT_TIMER_INDEX K < List.length (TIMER_OPTIONS K))%nat ->
  reachable K m ->
  In (selectedTimer K (st m)) (TIMER_OPTIONS K)
  /\ (timerDisabled (st m) = false ->
      (forall k,
         st (run K (timerClicks cv k) m)
         = setSelectedTimerIndex
             (fun prev => Nat.modulo (prev + k) (List.length (TIMER_OPTIONS K)))
             (st m))
      /\ run K (timerClicks cv (List.length (TIMER_OPTIONS K))) m = m)
  /\ (timerDisabled (st m) = true -> step K cv ClickTimer m = m).
Proof.
  intros Hdef Hr.
  pose proof (reachable_index_in_range K m Hdef Hr) as Hi.
  split; [|split].
  - unfold selectedTimer. now apply nth_In.
  - intro Hd. split.
    + intro k. now rewrite timer_clicks.
    + rewrite timer_clicks by assumption.
      destruct (reachable_atRest K m Hr) as (Hq & _).
      destruct m as [s r kb hc vr cr tm rq].
      cbn [st rendered kbd hasCapturedRef videoRef canvasRef timers cameraRequests] in *.
      subst r. rewrite setSelectedTimerIndex_same; [reflexivity|].
      rewrite <- Nat.Div0.add_mod_idemp_r, Nat.Div0.mod_same, Nat.add_0_r.
      now apply Nat.mod_small.
  - intro Hd. apply step_declined; [exact (reachable_atRest K m Hr)|].
    cbn [handle]. destruct (reachable_atRest K m Hr) as (Hq & _).
    now rewrite <- Hq, Hd.
Qed.

(** *** The highlight of the filter buttons *)

Lemma includes_flipActive x id l :
  includes x (flipActive id l)
  = if String.eqb x id then negb (includes id l) else includes x l.
Proof.
  unfold flipActive. destruct (includes id l) eqn:E.
  - unfold without. rewrite includes_filter.
    destruct (String.eqb_spec x id) as [->|_]; cbn [negb andb].
    + rewrite E. reflexivity.
    + apply andb_true_r.
  - rewrite includes_app. destruct (String.eqb_spec x id) as [->|_].
    + rewrite E. reflexivity.
    + apply orb_false_r.
Qed.

Lemma includes_withoutTone x l :
  includes x (withoutTone l)
  = includes x l && (negb (String.eqb x "sepia") && negb (String.eqb x "grayscale")).
Proof. unfold withoutTone. apply includes_filter. Qed.

Lemma includes_flipTone x id l :
  includes x (flipTone id l)
  = if includes id l then includes x (withoutTone l)
    else includes x (withoutTone l) || String.eqb x id.
Proof.
  unfold flipTone. destruct (includes id l); [reflexivity|]. apply includes_app.
Qed.

Lemma includes_false_not_In x l : includes x l = false -> ~ In x l.
Proof.
  unfold includes. intros H Hin.
  assert (X : existsb (String.eqb x) l = true).
  { apply existsb_exists. exists x. split; [exact Hin|apply String.eqb_refl]. }
  congruence.
Qed.

Lemma NoDup_snoc {A : Type} (l : list A) (x : A) :
  NoDup l -> ~ In x l -> NoDup (l ++ [x]).
Proof.
  induction l as [|a l IH]; intros Hnd Hin; cbn.
  - constructor; [intros []|constructor].
  - inversion Hnd as [|a' l' Ha Hl]. subst. constructor.
    + intro H. apply in_app_or in H. destruct H as [H | [H | []]].
      * contradiction.
      * apply Hin. left. now symmetry.
    + apply IH; [exact Hl|]. intro H. apply Hin. now right.
Qed.

Lemma NoDup_flipActive id l : NoDup l -> NoDup (flipActive id l).
Proof.
  intro H. unfold flipActive. destruct (includes id l) eqn:E.
  - now apply NoDup_filter.
  - apply NoDup_snoc; [exact H|]. now apply includes_false_not_In.
Qed.

Lemma NoDup_flipTone id l : NoDup l -> NoDup (flipTone id l).
Proof.
  intro H. unfold flipTone. destruct (includes id l) eqn:E.
  - now apply NoDup_filter.
  - apply NoDup_snoc; [now apply NoDup_filter|].
    intro Hin. apply filter_In in Hin.
    now apply (includes_false_not_In id l E).
Qed.

Lemma highlightAgrees_ext a b :
  filters a = filters b -> activeFilters a = activeFilters b ->
  highlightAgrees b -> highlightAgrees a.
Proof.
  unfold highlightAgrees, highlighted. intros Hf Ha H. now rewrite Hf, Ha.
Qed.

Lemma highlightAgrees_toggleFilter id env s :
  highlightAgrees s -> highlightAgrees (toggleFilter id env s).
Proof.
  intros H. pose proof H as (Hb & Hc & Hs & Hg & Hp & Hnd).
  unfold highlighted in *. unfold toggleFilter.
  destruct (filterDisabled env); [exact H|].
  destruct (String.eqb id "mirror").
  { unfold highlightAgrees, highlighted.
    cbn [activeFilters filters setActiveFilters setIsMirrored].
    rewrite !includes_flipActive. cbn [String.eqb Ascii.eqb Bool.eqb].
    repeat split; try assumption. now apply NoDup_flipActive. }
  destruct (String.eqb id "grayscale").
  { unfold highlightAgrees, highlighted.
    cbn [activeFilters filters setActiveFilters setFilters
         brightness contrast grayscale sepia saturate].
    rewrite !includes_flipTone, !includes_withoutTone.
    rewrite Hb, Hc, Hs, Hg, Hp. cbn [String.eqb Ascii.eqb Bool.eqb].
    repeat split; try (now apply NoDup_flipTone); highlight_cases s. }
  destruct (String.eqb id "sepia").
  { unfold highlightAgrees, highlighted.
    cbn [activeFilters filters setActiveFilters setFilters
         brightness contrast grayscale sepia saturate].
    rewrite !includes_flipTone, !includes_withoutTone.
    rewrite Hb, Hc, Hs, Hg, Hp. cbn [String.eqb Ascii.eqb Bool.eqb].
    repeat split; try (now apply NoDup_flipTone); highlight_cases s. }
  destruct (String.eqb id "brightness").
  { unfold highlightAgrees, highlighted.
    cbn [activeFilters filters setActiveFilters setFilters
         brightness contrast grayscale sepia saturate].
    rewrite !includes_flipActive. rewrite Hb, Hc, Hs, Hg, Hp.
    cbn [String.eqb Ascii.eqb Bool.eqb].
    repeat split; try (now apply NoDup_flipActive); highlight_cases s. }
  destruct (String.eqb id "contrast").
  { unfold highlightAgrees, highlighted.
    cbn [activeFilters filters setActiveFilters setFilters
         brightness contrast grayscale sepia saturate].
    rewrite !includes_flipActive. rewrite Hb, Hc, Hs, Hg, Hp.
    cbn [String.eqb Ascii.eqb Bool.eqb].
    repeat split; try (now apply NoDup_flipActive); highlight_cases s. }
  destruct (String.eqb id "saturate").
  { unfold highlightAgrees, highlighted.
    cbn [activeFilters filters setActiveFilters setFilters
         brightness contrast grayscale sepia saturate].
    rewrite !includes_flipActive. rewrite Hb, Hc, Hs, Hg, Hp.
    cbn [String.eqb Ascii.eqb Bool.eqb].
    repeat split; try (now apply NoDup_flipActive); highlight_cases s. }
  exact H.
Qed.

Lemma highlightAgrees_default s :
  neutral (filters s) -> activeFilters s = ["mirror"] -> highlightAgrees s.
Proof.
  intros (Hb & Hc & Hg & Hp & Hs) Ha. unfold highlightAgrees, highlighted.
  rewrite Ha, Hb, Hc, Hg, Hp, Hs. repeat split.
  constructor; [intros []|constructor].
Qed.

(** What an event can do to the settings and to the highlight before React
    renders: nothing, one toggle, or the reset. *)
Lemma handle_look cv ev m :
  let s' := st (handle K cv ev m) in
  (filters s' = filters (st m) /\ activeFilters s' = activeFilters (st m))
  \/ (exists id env,
        filters s' = filters (toggleFilter id env (st m))
        /\ activeFilters s' = activeFilters (toggleFilter id env (st m)))
  \/ (filters s' = DEFAULT_FILTERS K /\ activeFilters s' = ["mirror"]).
Proof.
  destruct ev as [id| | | | | | |k typing| | | |b| |h]; cbn [handle].
  - destruct (_ || _); [now left|]. right; left. now exists id, (rendered m).
  - destruct (_ || _); [now left|]. unfold resetFilters.
    destruct (resetDisabled (rendered m)); [now left|]. right; right. now split.
  - left. unfold undoCapture. split_ifs; split; reflexivity.
  - left. unfold cycleTimer. split_ifs; split; reflexivity.
  - left. unfold mainButton, startCapture. split_ifs; split; reflexivity.
  - left. unfold toggleAutoMode. split_ifs; split; reflexivity.
  - left. unfold resetCaptures. split_ifs; split; reflexivity.
  - left. unfold handleKeyDown, startCapture, undoCapture, resetCaptures,
      toggleAutoMode. cbn [st onSt]. split_ifs; split; reflexivity.
  - left. destruct (timers m) as [|t rest]; [now split|].
    destruct (callback t); split; reflexivity.
  - left. destruct (cameraRequests m); [now split|]. cbn.
    destruct (videoRef m); split; reflexivity.
  - left. destruct (cameraRequests m); split; reflexivity.
  - left. now split.
  - left. now split.
  - destruct h; cbn [call].
    + left. pose proof (Eff_captureImage K cv (rendered m) m) as E.
      split; apply E.
    + left. unfold undoCapture. split_ifs; split; reflexivity.
    + left. unfold resetCaptures. split_ifs; split; reflexivity.
    + unfold resetFilters.
      destruct (resetDisabled (rendered m)); [now left|]. right; right. now split.
    + right; left. now exists id, (rendered m).
    + left. unfold startCapture. split_ifs; split; reflexivity.
    + left. now split.
    + left. unfold toggleAutoMode. split_ifs; split; reflexivity.
    + left. unfold cycleTimer. split_ifs; split; reflexivity.
Qed.

Lemma step_highlightAgrees cv ev m :
  neutral (DEFAULT_FILTERS K) ->
  highlightAgrees (st m) -> highlightAgrees (st (step K cv ev m)).
Proof.
  intros Hn H.
  destruct (step_frame K cv ev m) as (_ & _ & _ & Hf & _ & Ha & _).
  cbn zeta in Hf, Ha.
  apply (highlightAgrees_ext _ (st (handle K cv ev m)) Hf Ha).
  destruct (handle_look cv ev m) as [[Ef Ea] | [(id & env & Ef & Ea) | [Ef Ea]]];
    cbn zeta in *.
  - now apply (highlightAgrees_ext _ (st m)).
  - apply (highlightAgrees_ext _ (toggleFilter id env (st m)) Ef Ea).
    now apply highlightAgrees_toggleFilter.
  - apply highlightAgrees_default; [now rewrite Ef|exact Ea].
Qed.

(** X10. The highlight of the five knobs is never out of step with the
    settings.  With neutral defaults, in every reachable state a knob's
    button is highlighted exactly when its setting is off the neutral value
    (brightness, contrast and saturate off 100, grayscale and sepia off 0),
    and no button is listed twice in [activeFilters]. *)
Theorem X10_highlight_follows_settings m :
  neutral (DEFAULT_FILTERS K) -> reachable K m ->
  highlighted "brightness" (st m) = negb (brightness (filters (st m)) =? 100)
  /\ highlighted "contrast" (st m) = negb (contrast (filters (st m)) =? 100)
  /\ highlighted "saturate" (st m) = negb (saturate (filters (st m)) =? 100)
  /\ highlighted "grayscale" (st m) = negb (grayscale (filters (st m)) =? 0)
  /\ highlighted "sepia" (st m) = negb (sepia (filters (st m)) =? 0)
  /\ NoDup (activeFilters (st m)).
Proof.
  intros Hn.
  apply (reachable_induction (fun m => highlightAgrees (st m))).
  - now apply highlightAgrees_default.
  - intros cv ev m0 _ IH. now apply step_highlightAgrees.
Qed.

(** X11. What the reset of the filters does when it goes through (an image on
    the strip, no countdown, no sequence; for the button also the camera
    started): the settings are the defaults again and the highlight is the
    mirror button alone, but the mirror itself is left as it was.  After a
    reset with the mirror switched off, the mirror button is highlighted and
    the picture is not mirrored. *)
Theorem X11_resetFilters_keeps_mirror cv ev m :
  reachable K m -> resetDisabled (st m) = false ->
  (ev = ClickResetFilters /\ isCameraStarted (st m) = true)
  \/ ev = Call HResetFilters ->
  let m' := step K cv ev m in
  st m' = setActiveFilters (fun _ => ["mirror"])
            (setFilters (fun _ => DEFAULT_FILTERS K) (st m))
  /\ isMirrored (st m') = isMirrored (st m)
  /\ highlighted "mirror" (st m') = true.
Proof.
  intros Hr Hd Hev m'. subst m'.
  pose proof (reachable_quiescent K m Hr) as Hq.
  assert (Hidle : isAutoSequenceActive (st m) = false /\ countdown (st m) = None).
  { unfold resetDisabled in Hd. apply orb_false_iff in Hd. destruct Hd as [Hd Hc].
    apply orb_false_iff in Hd. destruct Hd as [_ Ha]. split; [exact Ha|].
    now destruct (countdown (st m)). }
  destruct Hidle as [Ha Hc].
  assert (Hh : handle K cv ev m = onSt (resetFilters K (st m)) m).
  { destruct Hev as [[-> Hs] | ->]; cbn [handle call]; rewrite <- Hq; [|reflexivity].
    unfold filterDisabled. now rewrite Hs, Ha, Hc. }
  assert (E : st (step K cv ev m)
              = setActiveFilters (fun _ => ["mirror"])
                  (setFilters (fun _ => DEFAULT_FILTERS K) (st m))).
  { unfold step. rewrite Hh.
    destruct (settle_idle cv (onSt (resetFilters K (st m)) m)) as [E _].
    - cbn [st onSt]. unfold resetFilters. now rewrite Hd.
    - cbn [st onSt]. unfold resetFilters. now rewrite Hd.
    - rewrite E. cbn [st onSt]. unfold resetFilters. now rewrite Hd. }
  split; [exact E|]. rewrite E. split; reflexivity.
Qed.

(** *** Keys that do nothing *)

(** X12. A key pressed while the focus is in a text field, and a key that is
    none of Space, Enter, Backspace, Delete, Escape and [a], changes nothing:
    no state, no ref, no timeout. *)
Theorem X12_ignored_keys cv k typing m :
  reachable K m -> typing = true \/ includes k boundKeys = false ->
  step K cv (KeyDown k typing) m = m.
Proof.
  intros Hr Hk. apply step_declined; [exact (reachable_atRest K m Hr)|].
  cbn [handle]. apply onSt_id. unfold handleKeyDown.
  destruct Hk as [-> | Hk]; [reflexivity|].
  destruct typing; [reflexivity|].
  unfold includes, boundKeys in Hk. cbn [existsb] in Hk.
  repeat (apply orb_false_iff in Hk; destruct Hk as [? Hk]).
  now repeat match goal with
             | H : String.eqb _ _ = false |- _ => rewrite H; clear H
             end.
Qed.

(** *** Pauses *)

Lemma step_keeps_pause cv ev m x :
  ev <> FireTimer -> isTick x = false ->
  In x (timers m) -> In x (timers (step K cv ev m)).
Proof.
  intros Hev Hx Hin. unfold step.
  apply settle_keeps_reseed; [exact Hx|]. apply commit_keeps_reseed; [exact Hx|].
  destruct (handle_timers cv ev m Hev) as (extra & -> & _).
  apply in_or_app. now left.
Qed.

(** X13. A pause armed by [scheduleNextAutoCapture] is never cancelled: no
    click, no key, no answer of the camera, no render of the parent and no
    direct call of a function of the component takes it from the pending
    timeouts; it stays until timeouts expire.  Stopping or resetting a
    sequence during the pause therefore leaves the pause's callback to run. *)
Theorem X13_pause_never_cancelled inputs m x :
  isTick x = false -> In x (timers m) ->
  Forall (fun i => snd i <> FireTimer) inputs ->
  In x (timers (run K inputs m)).
Proof.
  intros Hx. revert m. induction inputs as [|[cv ev] rest IH]; intros m Hin Hall.
  - exact Hin.
  - cbn [run]. inversion Hall as [|i l Hev Hrest]. subst. apply IH; [|exact Hrest].
    now apply step_keeps_pause.
Qed.

(** *** The countdown stays at or above zero *)








(** *** A direct call of [captureImage] *)

Lemma reachable_captureGuard m :
  reachable K m ->
  captureGuard K (st m) m
  = negb (isCameraStarted (st m)) || isMaxCaptureReached K (st m).
Proof.
  intro Hr. destruct (reachable_atRest K m Hr) as (_ & Hv & Hcv & _).
  pose proof (reachable_isCapturing K m Hr) as Hcap.
  unfold captureGuard. rewrite Hcv, Hcap, Hv. cbn [negb]. rewrite !orb_false_r.
  destruct (isCameraStarted (st m)) eqn:Hs; [|reflexivity].
  now rewrite (started_no_error m Hr Hs).
Qed.

(** X15. In a reachable state the guard of [captureImage] comes down to two
    tests: the camera has started and the strip has room.  The video and
    canvas refs are set whenever the camera has started and [isCapturing] is
    never set between two events, so the re-entrancy test never declines a
    call.  A call by the render on screen therefore appends the frame exactly
    when the camera has started, the strip is not full and the canvas gives
    a 2D context, also in the middle of a countdown, and otherwise leaves the
    strip as it is. *)
Theorem X15_captureImage_in_reachable_states cv m :
  reachable K m ->
  isCapturing (st m) = false
  /\ captureGuard K (st m) m
     = negb (isCameraStarted (st m)) || isMaxCaptureReached K (st m)
  /\ capturedImages (st (step K cv (Call HCaptureImage) m))
     = if isCameraStarted (st m) && negb (isMaxCaptureReached K (st m))
          && context2d cv
       then capturedImages (st m) ++ [dataURL cv]
       else capturedImages (st m).
Proof.
  intro Hr. pose proof (reachable_captureGuard m Hr) as Hg.
  pose proof (reachable_quiescent K m Hr) as Hq.
  split; [exact (reachable_isCapturing K m Hr)|]. split; [exact Hg|].
  unfold step. rewrite st_settle.
  assert (Hrd : rendered (handle K cv (Call HCaptureImage) m) = st m)
    by (rewrite handle_rendered; now symmetry).
  cbn [handle call] in *. rewrite <- Hq in *.
  set (h := captureImage K cv (st m) m) in *.
  assert (Hcd : countdown (st h) = countdown (st m) \/ countdown (st h) = None).
  { subst h. apply (Eff_captureImage K cv (st m) m). }
  assert (Himg : capturedImages (st (commit K cv h)) = capturedImages (st h)).
  { destruct Hcd as [Hcd | Hcd].
    - apply commit_images_same_countdown. unfold sameCountdownDeps.
      rewrite Hrd, Hcd. now apply optZ_eqb_eq.
    - apply commit_images_no_zero. rewrite Hcd. discriminate. }
  rewrite Himg. subst h.
  destruct (captureGuard K (st m) m) eqn:G.
  - rewrite captureImage_appends_nothing by now left.
    symmetry in Hg. apply orb_true_iff in Hg. destruct Hg as [Hg | Hg].
    + apply negb_true_iff in Hg. now rewrite Hg.
    + rewrite Hg. now rewrite andb_false_r.
  - symmetry in Hg. apply orb_false_iff in Hg. destruct Hg as [Hs Hm].
    apply negb_false_iff in Hs. rewrite Hs, Hm. cbn [negb andb].
    destruct (context2d cv) eqn:C.
    + now apply captureImage_appends.
    + apply captureImage_appends_nothing. now right.
Qed.

(** *** While a countdown or a sequence is on *)

Lemma counting_disabled s :
  counting s -> undoDisabled s = true /\ resetDisabled s = true.
Proof.
  unfold counting, undoDisabled, resetDisabled. intros [H | H].
  - rewrite H. split; now rewrite orb_true_r.
  - destruct (countdown s); [|contradiction]. cbn [notNull].
    split; now rewrite orb_true_r.
Qed.

Lemma handle_no_shrink cv ev m :
  atRest m -> counting (st m) ->
  capturedImages (st (handle K cv ev m)) = capturedImages (st m)
  \/ exists x, capturedImages (st (handle K cv ev m)) = capturedImages (st m) ++ [x].
Proof.
  intros (Hq & _ & _ & Hk) Hon.
  destruct (counting_disabled (st m) Hon) as [Hu Hr].
  destruct (listener_guards K (kbd m) (st m) Hk) as (Ku & Kr & _).
  rewrite Hu in Ku. rewrite Hr in Kr.
  destruct ev as [id| | | | | | |k typing| | | |b| |h]; cbn [handle];
    rewrite <- ?Hq.
  - left. destruct (_ || _); [reflexivity|]. apply toggleFilter_frame.
  - left. destruct (_ || _); [reflexivity|]. unfold resetFilters.
    split_ifs; reflexivity.
  - left. now rewrite Hu.
  - left. unfold cycleTimer. split_ifs; reflexivity.
  - left. unfold mainButton, startCapture. split_ifs; reflexivity.
  - left. unfold toggleAutoMode. split_ifs; reflexivity.
  - left. now rewrite Hr.
  - left. unfold handleKeyDown, undoCapture, resetCaptures. rewrite Ku, Kr.
    unfold startCapture, toggleAutoMode. cbn [st onSt]. split_ifs; reflexivity.
  - left. destruct (timers m) as [|t rest]; [reflexivity|].
    destruct (callback t); reflexivity.
  - left. destruct (cameraRequests m); [reflexivity|]. cbn.
    destruct (videoRef m); reflexivity.
  - left. destruct (cameraRequests m); reflexivity.
  - now left.
  - now left.
  - destruct h; cbn [call].
    + destruct (Eff_captureImage K cv (st m) m)
        as (_ & _ & _ & _ & _ & _ & _ & _ & _ & _ & [E | (_ & E & _)]); auto.
    + left. unfold undoCapture. now rewrite Hu.
    + left. unfold resetCaptures. now rewrite Hr.
    + left. unfold resetFilters. split_ifs; reflexivity.
    + left. apply toggleFilter_frame.
    + left. unfold startCapture. split_ifs; reflexivity.
    + now left.
    + left. unfold toggleAutoMode. split_ifs; reflexivity.
    + left. unfold cycleTimer. split_ifs; reflexivity.
Qed.

(** X16. While a countdown or an auto sequence is on, the strip only grows.
    Whatever the event (a click, a key, the expiry of a timeout, a direct call
    of any function of the component), the strip afterwards is the strip
    before or the strip before with one image more: undo and reset are
    declined by the buttons, by the keys and by the functions themselves. *)
Theorem X16_strip_only_grows_while_counting cv ev m :
  reachable K m -> counting (st m) ->
  capturedImages (st (step K cv ev m)) = capturedImages (st m)
  \/ exists x, capturedImages (st (step K cv ev m)) = capturedImages (st m) ++ [x].
Proof.
  intros Hr Hon. pose proof (reachable_atRest K m Hr) as Hrest.
  assert (Hlen : (List.length (capturedImages (st m))
                  <= List.length (capturedImages (st (step K cv ev m))))%nat).
  { unfold step. rewrite st_settle.
    destruct (Eff_commit K cv (handle K cv ev m))
      as (_ & _ & _ & _ & _ & _ & _ & _ & _ & _ & [E | (_ & [y E] & _)]);
      rewrite E; destruct (handle_no_shrink cv ev m Hrest Hon) as [E' | [x E']];
      rewrite E'; rewrite ?length_app; cbn; lia. }
  destruct (step_strip cv ev m Hr) as [E | [E | [E | E]]]; auto.
  - left. rewrite E in *.
    pose proof (length_removelast_le (capturedImages (st m))) as Hle.
    destruct (capturedImages (st m)) as [|a l]; [reflexivity|].
    exfalso. rewrite removelast_firstn_len in Hlen.
    rewrite length_firstn in Hlen. cbn in Hlen. lia.
  - left. rewrite E in *. destruct (capturedImages (st m)); [reflexivity|].
    cbn in Hlen. lia.
Qed.

Lemma handle_look_frozen cv ev m :
  st m = rendered m -> isCall ev = false ->
  isCameraStarted (st m) = false \/ counting (st m) ->
  let s' := st (handle K cv ev m) in
  filters s' = filters (st m) /\ isMirrored s' = isMirrored (st m)
  /\ activeFilters s' = activeFilters (st m).
Proof.
  intros Hq Hev Hoff.
  assert (Hd : filterDisabled (st m) || isAutoSequenceActive (st m)
               || notNull (countdown (st m)) = true).
  { unfold filterDisabled. destruct Hoff as [-> | [-> | H]]; [reflexivity| |].
    - now rewrite orb_true_r.
    - destruct (countdown (st m)); [|contradiction]. now rewrite orb_true_r. }
  destruct ev as [id| | | | | | |k typing| | | |b| |h]; try discriminate Hev;
    cbn [handle]; rewrite <- ?Hq.
  - rewrite Hd, orb_true_r. now repeat split.
  - rewrite Hd. now repeat split.
  - unfold undoCapture. cbn zeta. split_ifs; now repeat split.
  - unfold cycleTimer. cbn zeta. split_ifs; now repeat split.
  - unfold mainButton, startCapture. cbn zeta. split_ifs; now repeat split.
  - unfold toggleAutoMode. cbn zeta. split_ifs; now repeat split.
  - unfold resetCaptures. cbn zeta. split_ifs; now repeat split.
  - unfold handleKeyDown, startCapture, undoCapture, resetCaptures,
      toggleAutoMode. cbn [st onSt]. cbn zeta. split_ifs; now repeat split.
  - destruct (timers m) as [|t rest]; [now repeat split|].
    destruct (callback t); now repeat split.
  - destruct (cameraRequests m); [now repeat split|]. cbn.
    destruct (videoRef m); now repeat split.
  - destruct (cameraRequests m); now repeat split.
  - now repeat split.
  - now repeat split.
Qed.

(** X17. The look is frozen while a picture is being counted down.  Before
    the camera has started, and while a countdown or an auto sequence is on,
    no click, no key, no timeout and no answer of the camera changes the
    filter settings, the mirror or the highlight: the filter buttons and the
    reset button swallow the click, and no key is bound to a filter.  (The
    function [toggleFilter] itself tests the camera only, so a direct call
    during a countdown does go through.) *)
Theorem X17_look_frozen_while_counting cv ev m :
  reachable K m -> isCall ev = false ->
  isCameraStarted (st m) = false \/ counting (st m) ->
  (filters (st (step K cv ev m)) = filters (st m)
   /\ isMirrored (st (step K cv ev m)) = isMirrored (st m)
   /\ activeFilters (st (step K cv ev m)) = activeFilters (st m))
  /\ (forall id,
        let s' := st (step K cv (Call (HToggleFilter id)) m) in
        filters s' = filters (toggleFilter id (st m) (st m))
        /\ isMirrored s' = isMirrored (toggleFilter id (st m) (st m))
        /\ activeFilters s' = activeFilters (toggleFilter id (st m) (st m))).
Proof.
  intros Hr Hev Hoff. split.
  - destruct (step_frame K cv ev m) as (_ & _ & _ & Hf & Hm & Ha & _).
    cbn zeta in *. rewrite Hf, Hm, Ha.
    exact (handle_look_frozen cv ev m (reachable_quiescent K m Hr) Hev Hoff).
  - intros id s'. subst s'.
    destruct (step_toggleFilter K cv id m Hr) as (Hf & Hm & Ha & _).
    cbn zeta in *. now repeat split.
Qed.

(** *** Without the camera, and the keys against the buttons *)


Lemma onSt_ext f g m : f (st m) = g (st m) -> onSt f m = onSt g m.
Proof. intro H. unfold onSt. now rewrite H. Qed.

Lemma undoCapture_guard env env' s :
  undoDisabled env = undoDisabled env' ->
  isEmpty (capturedImages env) = isEmpty (capturedImages env') ->
  undoCapture env s = undoCapture env' s.
Proof. intros H1 H2. unfold undoCapture. now rewrite H1, H2. Qed.

Lemma undoCapture_declined env s : undoDisabled env = true -> undoCapture env s = s.
Proof. intro H. unfold undoCapture. now rewrite H. Qed.

(** X19. Backspace and Delete, Escape, and [a] are the undo, reset and auto
    buttons.  In every reachable state each of these keys, pressed outside a
    text field, leaves the component in exactly the state that a click on
    its button leaves it in, and that a direct call of [undoCapture],
    [resetCaptures] or [toggleAutoMode] leaves it in: the listener may be
    the closure of an older render, but it agrees with the render on screen
    on everything these three functions read. *)
Theorem X19_keys_are_the_buttons cv m :
  reachable K m ->
  (step K cv (key "Backspace") m = step K cv ClickUndo m
   /\ step K cv (key "Delete") m = step K cv ClickUndo m
   /\ step K cv (Call HUndoCapture) m = step K cv ClickUndo m)
  /\ (step K cv (key "Escape") m = step K cv ClickReset m
      /\ step K cv (Call HResetCaptures) m = step K cv ClickReset m)
  /\ (step K cv (key "a") m = step K cv ClickAuto m
      /\ step K cv (Call HToggleAutoMode) m = step K cv ClickAuto m).
Proof.
  intro Hr. destruct (reachable_atRest K m Hr) as (Hq & _ & _ & Hk).
  destruct (listener_guards K (kbd m) (st m) Hk) as (Ku & Kr & Ka & Ke).
  apply sameKeyboardDeps_spec in Hk.
  destruct Hk as (_ & _ & _ & _ & _ & Hact & _).
  assert (U : handle K cv ClickUndo m = onSt (undoCapture (st m)) m).
  { cbn [handle]. rewrite <- Hq. destruct (undoDisabled (st m)) eqn:D; [|reflexivity].
    symmetry. apply onSt_id. now apply undoCapture_declined. }
  assert (R : handle K cv ClickReset m = onSt (resetCaptures (st m)) m).
  { cbn [handle]. rewrite <- Hq. destruct (resetDisabled (st m)) eqn:D; [|reflexivity].
    symmetry. apply onSt_id. unfold resetCaptures. now rewrite D. }
  assert (A : handle K cv ClickAuto m = onSt (toggleAutoMode K (st m)) m).
  { cbn [handle]. rewrite <- Hq. destruct (autoDisabled K (st m)) eqn:D; [|reflexivity].
    symmetry. apply onSt_id. unfold toggleAutoMode. now rewrite D. }
  assert (KU : undoCapture (kbd m) (st m) = undoCapture (st m) (st m))
    by now apply undoCapture_guard.
  assert (KR : resetCaptures (kbd m) (st m) = resetCaptures (st m) (st m)).
  { unfold resetCaptures. now rewrite Kr. }
  assert (KA : toggleAutoMode K (kbd m) (st m) = toggleAutoMode K (st m) (st m)).
  { unfold toggleAutoMode. now rewrite Ka, Hact. }
  assert (B : handle K cv (key "Backspace") m = onSt (undoCapture (st m)) m).
  { apply onSt_ext. rewrite <- KU. reflexivity. }
  assert (D : handle K cv (key "Delete") m = onSt (undoCapture (st m)) m).
  { apply onSt_ext. rewrite <- KU. reflexivity. }
  assert (E : handle K cv (key "Escape") m = onSt (resetCaptures (st m)) m).
  { apply onSt_ext. rewrite <- KR. reflexivity. }
  assert (T : handle K cv (key "a") m = onSt (toggleAutoMode K (st m)) m).
  { apply onSt_ext. rewrite <- KA. reflexivity. }
  assert (CU : handle K cv (Call HUndoCapture) m = onSt (undoCapture (st m)) m).
  { cbn [handle call]. now rewrite <- Hq. }
  assert (CR : handle K cv (Call HResetCaptures) m = onSt (resetCaptures (st m)) m).
  { cbn [handle call]. now rewrite <- Hq. }
  assert (CA : handle K cv (Call HToggleAutoMode) m = onSt (toggleAutoMode K (st m)) m).
  { cbn [handle call]. now rewrite <- Hq. }
  unfold step. rewrite U, R, A, B, D, E, T, CU, CR, CA.
  repeat split; reflexivity.
Qed.

(** *** The auto button *)

Lemma setIsAutoModeEnabled_twice s :
  setIsAutoModeEnabled negb (setIsAutoModeEnabled negb s) = s.
Proof. destruct s. unfold setIsAutoModeEnabled. cbn. now rewrite negb_involutive. Qed.

Lemma step_click_auto cv m :
  reachable K m -> autoDisabled K (st m) = false ->
  step K cv ClickAuto m
  = mkMachine (setIsAutoModeEnabled negb (st m)) (setIsAutoModeEnabled negb (st m))
      (kbd m) (hasCapturedRef m) (videoRef m) (canvasRef m) (timers m)
      (cameraRequests m).
Proof.
  intros Hr Hd.
  destruct (reachable_atRest K m Hr) as (Hq & Hv & Hcv & _).
  assert (Ha : isAutoSequenceActive (st m) = false).
  { unfold autoDisabled in Hd. apply orb_false_iff in Hd. apply Hd. }
  unfold step.
  assert (Hh : handle K cv ClickAuto m = onSt (setIsAutoModeEnabled negb) m).
  { cbn [handle]. rewrite <- Hq, Hd. unfold toggleAutoMode. now rewrite Hd, Ha. }
  rewrite Hh. rewrite settle_no_effect.
  - cbn [st kbd hasCapturedRef timers cameraRequests onSt].
    rewrite Hv, Hcv. reflexivity.
  - cbn [st rendered onSt]. rewrite <- Hq. exact (sameCameraDeps_refl (st m)).
  - cbn [st rendered onSt]. rewrite <- Hq. exact (sameMaxCaptureDeps_refl K (st m)).
  - cbn [st rendered onSt]. rewrite <- Hq. exact (sameCountdownDeps_refl (st m)).
  - cbn [st rendered onSt]. rewrite <- Hq. exact (sameKeyboardDeps_refl (st m)).
Qed.

(** X20. The auto button flips [isAutoModeEnabled] and nothing else.  While
    the button is enabled a click changes no other state, arms and clears no
    timeout, and does not register the key listener again, so that the
    listener goes on holding the auto mode of the render it was registered
    in; a second click brings the component back to the very state it was
    in. *)
Theorem X20_auto_button_flips_flag_only cv m :
  reachable K m -> autoDisabled K (st m) = false ->
  let m' := step K cv ClickAuto m in
  st m' = setIsAutoModeEnabled negb (st m)
  /\ kbd m' = kbd m
  /\ timers m' = timers m
  /\ step K cv ClickAuto m' = m.
Proof.
  intros Hr Hd m'.
  pose proof (reachable_step K cv ClickAuto m Hr) as Hr'.
  pose proof (step_click_auto cv m Hr Hd) as E. fold m' in E, Hr'. clearbody m'.
  split; [now rewrite E|]. split; [now rewrite E|]. split; [now rewrite E|].
  rewrite step_click_auto; [|exact Hr'|now rewrite E].
  rewrite E.
  cbn [st kbd hasCapturedRef videoRef canvasRef timers cameraRequests].
  rewrite setIsAutoModeEnabled_twice.
  destruct (reachable_atRest K m Hr) as (Hq & _).
  destruct m as [s r kb hc vr cr tm rq].
  cbn [st rendered] in Hq. now subst r.
Qed.

End Further.

(* ===================================================================== *)
(** ** The further properties on concrete runs *)
(* ===================================================================== *)

(** X1 on the mounted component: the stream is awaited, and the two answers
    lead to the two other phases. *)
Lemma X1_witness :
  reachable specConstants (play [])
  /\ inPhase Asking (play [])
  /\ inPhase (nextPhase Asking CameraGranted)
       (step specConstants png CameraGranted (play []))
  /\ inPhase (nextPhase Asking CameraDenied)
       (step specConstants png CameraDenied (play [])).
Proof.
  assert (R : reachable specConstants (play [])) by apply play_reachable.
  assert (A : inPhase Asking (play [])) by (vm_compute; repeat split).
  destruct (X1_camera_phases specConstants (play []) R) as (_ & Hstep & _).
  split; [exact R|]. split; [exact A|]. split.
  - exact (Hstep png CameraGranted Asking A).
  - exact (Hstep png CameraDenied Asking A).
Defined.

(** X2 on the run without a camera in which Space has started a countdown. *)
Lemma X2_witness :
  reachable specConstants noCameraAtOne
  /\ isCameraStarted (st noCameraAtOne) = false
  /\ capturedImages (st noCameraAtOne) = [].
Proof.
  assert (R : reachable specConstants noCameraAtOne) by apply play_reachable.
  assert (S : isCameraStarted (st noCameraAtOne) = false) by (vm_compute; reflexivity).
  split; [exact R|]. split; [exact S|].
  exact (X2_no_image_without_camera specConstants noCameraAtOne R S).
Defined.

(** X3 on the tick that ends a single-shot countdown. *)
Lemma X3_witness :
  reachable specConstants singleShotAtOne
  /\ (let l := capturedImages (st singleShotAtOne) in
      let l' := capturedImages (st (step specConstants png FireTimer singleShotAtOne)) in
      l' = l \/ (exists x, l' = l ++ [x]) \/ l' = removelast l \/ l' = []).
Proof.
  assert (R : reachable specConstants singleShotAtOne) by apply play_reachable.
  split; [exact R|].
  exact (X3_strip_moves_at_the_end specConstants png FireTimer singleShotAtOne R).
Defined.

(** X4 on an auto sequence just started. *)
Lemma X4_witness :
  reachable specConstants autoSequenceRunning
  /\ isAutoSequenceActive (st autoSequenceRunning) = true
  /\ (List.length (capturedImages (st autoSequenceRunning))
      < MAX_CAPTURE specConstants)%nat
  /\ effectMaxCapture specConstants (st autoSequenceRunning) autoSequenceRunning
     = autoSequenceRunning.
Proof.
  assert (R : reachable specConstants autoSequenceRunning) by apply play_reachable.
  assert (A : isAutoSequenceActive (st autoSequenceRunning) = true)
    by (vm_compute; reflexivity).
  split; [exact R|]. split; [exact A|].
  exact (X4_sequence_has_room specConstants autoSequenceRunning R A).
Defined.

(** X5 on a countdown just started. *)
Lemma X5_witness :
  reachable specConstants singleShotAtThree
  /\ tickCount (timers singleShotAtThree)
     = if overlayVisible (st singleShotAtThree) then 1%nat else 0%nat.
Proof.
  assert (R : reachable specConstants singleShotAtThree) by apply play_reachable.
  split; [exact R|].
  exact (X5_one_tick_while_counting specConstants singleShotAtThree R).
Defined.

(** X6 with the timer at 3: the click and three ticks. *)
Lemma X6_witness :
  reachable specConstants cameraOn
  /\ timers cameraOn = []
  /\ isAutoModeEnabled (st cameraOn) = false
  /\ selectedTimer specConstants (st cameraOn) = Z.of_nat 3
  /\ st (run specConstants ((png, ClickCapture) :: expiries png 3) cameraOn)
     = setCapturedImages (fun prev => prev ++ [dataURL png]) (st cameraOn)
  /\ timers (run specConstants ((png, ClickCapture) :: expiries png 3) cameraOn) = [].
Proof.
  assert (R : reachable specConstants cameraOn) by apply play_reachable.
  assert (T : timers cameraOn = []) by (vm_compute; reflexivity).
  assert (P : canProceedToLayout (st cameraOn) = false) by (vm_compute; reflexivity).
  assert (A : isAutoSequenceActive (st cameraOn) = false) by (vm_compute; reflexivity).
  assert (C : countdown (st cameraOn) = None) by (vm_compute; reflexivity).
  assert (S : isCameraStarted (st cameraOn) = true) by (vm_compute; reflexivity).
  assert (Q : isMaxCaptureReached specConstants (st cameraOn) = false)
    by (vm_compute; reflexivity).
  assert (M : isAutoModeEnabled (st cameraOn) = false) by (vm_compute; reflexivity).
  assert (L : selectedTimer specConstants (st cameraOn) = Z.of_nat 3)
    by (vm_compute; reflexivity).
  split; [exact R|]. split; [exact T|]. split; [exact M|]. split; [exact L|].
  exact (proj2 (X6_single_shot specConstants png png 2 cameraOn
                  R T P A C S Q M L eq_refl)).
Defined.

(** X7 with the timer at 3 and an empty strip: the click, ten countdowns of
    three ticks and the nine pauses between them. *)
Lemma X7_witness :
  reachable specConstants autoOn
  /\ timers autoOn = []
  /\ isAutoModeEnabled (st autoOn) = true
  /\ (List.length (capturedImages (st autoOn)) + 10 = MAX_CAPTURE specConstants)%nat
  /\ (let m' := run specConstants
                  ((png, ClickCapture) :: expiries png (10 * 3 + 9)) autoOn in
      st m' = setCapturedImages (fun prev => prev ++ repeat (dataURL png) 10) (st autoOn)
      /\ timers m' = []
      /\ List.length (capturedImages (st m')) = MAX_CAPTURE specConstants).
Proof.
  assert (R : reachable specConstants autoOn) by apply play_reachable.
  assert (T : timers autoOn = []) by (vm_compute; reflexivity).
  assert (P : canProceedToLayout (st autoOn) = false) by (vm_compute; reflexivity).
  assert (A : isAutoSequenceActive (st autoOn) = false) by (vm_compute; reflexivity).
  assert (C : countdown (st autoOn) = None) by (vm_compute; reflexivity).
  assert (S : isCameraStarted (st autoOn) = true) by (vm_compute; reflexivity).
  assert (M : isAutoModeEnabled (st autoOn) = true) by (vm_compute; reflexivity).
  assert (L : selectedTimer specConstants (st autoOn) = Z.of_nat 3)
    by (vm_compute; reflexivity).
  assert (N : (List.length (capturedImages (st autoOn)) + 10
               = MAX_CAPTURE specConstants)%nat) by (vm_compute; reflexivity).
  split; [exact R|]. split; [exact T|]. split; [exact M|]. split; [exact N|].
  exact (X7_auto_sequence_fills_strip specConstants png png 2 9 autoOn
           R T P A C S M L eq_refl N).
Defined.

(** X8 under the cross (a click during a countdown) and under the camera
    (Space in the idle state). *)
Lemma X8_witness :
  reachable specConstants singleShotAtThree
  /\ mainAction specConstants ClickCapture singleShotAtThree
  /\ mainIcon (st singleShotAtThree) = IconX
  /\ st (step specConstants png ClickCapture singleShotAtThree)
     = stopAutoSequence (st singleShotAtThree)
  /\ timers (step specConstants png ClickCapture singleShotAtThree)
     = pauses (timers singleShotAtThree)
  /\ mainAction specConstants (key " ") cameraOn
  /\ mainIcon (st cameraOn) = IconCamera
  /\ countdown (st (step specConstants png (key " ") cameraOn))
     = Some (selectedTimer specConstants (closureOf (key " ") cameraOn)).
Proof.
  assert (R1 : reachable specConstants singleShotAtThree) by apply play_reachable.
  assert (R2 : reachable specConstants cameraOn) by apply play_reachable.
  assert (D1 : captureDisabled specConstants (st singleShotAtThree) = false)
    by (vm_compute; reflexivity).
  assert (A1 : mainAction specConstants ClickCapture singleShotAtThree)
    by (left; split; [reflexivity|exact D1]).
  assert (A2 : mainAction specConstants (key " ") cameraOn)
    by (right; left; reflexivity).
  assert (I1 : mainIcon (st singleShotAtThree) = IconX) by (vm_compute; reflexivity).
  assert (I2 : mainIcon (st cameraOn) = IconCamera) by (vm_compute; reflexivity).
  assert (Q2 : isMaxCaptureReached specConstants (st cameraOn) = false)
    by (vm_compute; reflexivity).
  assert (L2 : 0 < selectedTimer specConstants (closureOf (key " ") cameraOn))
    by (vm_compute; reflexivity).
  pose proof (X8_main_action_follows_icon specConstants png ClickCapture
                singleShotAtThree R1 A1) as H1.
  pose proof (X8_main_action_follows_icon specConstants png (key " ")
                cameraOn R2 A2) as H2.
  rewrite I1 in H1. rewrite I2 in H2.
  split; [exact R1|]. split; [exact A1|]. split; [exact I1|].
  split; [exact (proj1 H1)|]. split; [exact (proj2 H1)|].
  split; [exact A2|]. split; [exact I2|].
  exact (proj1 (proj2 (H2 Q2 L2))).
Defined.

(** X9 with the three options of [specConstants]. *)
Lemma X9_witness :
  (DEFAULT_TIMER_INDEX specConstants < List.length (TIMER_OPTIONS specConstants))%nat
  /\ reachable specConstants cameraOn
  /\ timerDisabled (st cameraOn) = false
  /\ In (selectedTimer specConstants (st cameraOn)) (TIMER_OPTIONS specConstants)
  /\ run specConstants
       (timerClicks png (List.length (TIMER_OPTIONS specConstants))) cameraOn
     = cameraOn.
Proof.
  assert (D : (DEFAULT_TIMER_INDEX specConstants
               < List.length (TIMER_OPTIONS specConstants))%nat) by (cbn; lia).
  assert (R : reachable specConstants cameraOn) by apply play_reachable.
  assert (T : timerDisabled (st cameraOn) = false) by (vm_compute; reflexivity).
  destruct (X9_timer_button_cycles specConstants png cameraOn D R) as (Hin & Hcyc & _).
  split; [exact D|]. split; [exact R|]. split; [exact T|]. split; [exact Hin|].
  exact (proj2 (Hcyc T)).
Defined.

(** X10 with brightness switched on. *)
Lemma X10_witness :
  neutral (DEFAULT_FILTERS specConstants)
  /\ reachable specConstants brightnessOn
  /\ highlighted "brightness" (st brightnessOn)
     = negb (brightness (filters (st brightnessOn)) =? 100)
  /\ NoDup (activeFilters (st brightnessOn)).
Proof.
  assert (N : neutral (DEFAULT_FILTERS specConstants)) by (vm_compute; repeat split).
  assert (R : reachable specConstants brightnessOn) by apply play_reachable.
  destruct (X10_highlight_follows_settings specConstants brightnessOn N R)
    as (Hb & _ & _ & _ & _ & Hnd).
  split; [exact N|]. split; [exact R|]. split; [exact Hb|exact Hnd].
Defined.

(** X11 with one image on the strip and the mirror switched off: after the
    reset the mirror button is highlighted and the mirror is still off. *)
Lemma X11_witness :
  reachable specConstants oneImageMirrorOff
  /\ resetDisabled (st oneImageMirrorOff) = false
  /\ isMirrored (st oneImageMirrorOff) = false
  /\ isMirrored (st (step specConstants png ClickResetFilters oneImageMirrorOff))
     = isMirrored (st oneImageMirrorOff)
  /\ highlighted "mirror"
       (st (step specConstants png ClickResetFilters oneImageMirrorOff)) = true.
Proof.
  assert (R : reachable specConstants oneImageMirrorOff) by apply play_reachable.
  assert (D : resetDisabled (st oneImageMirrorOff) = false) by (vm_compute; reflexivity).
  assert (S : isCameraStarted (st oneImageMirrorOff) = true) by (vm_compute; reflexivity).
  assert (M : isMirrored (st oneImageMirrorOff) = false) by (vm_compute; reflexivity).
  split; [exact R|]. split; [exact D|]. split; [exact M|].
  exact (proj2 (X11_resetFilters_keeps_mirror specConstants png ClickResetFilters
                  oneImageMirrorOff R D (or_introl (conj eq_refl S)))).
Defined.

(** X12 on a key that is not bound. *)
Lemma X12_witness :
  reachable specConstants cameraOn
  /\ includes "x" boundKeys = false
  /\ step specConstants png (KeyDown "x" false) cameraOn = cameraOn.
Proof.
  assert (R : reachable specConstants cameraOn) by apply play_reachable.
  assert (B : includes "x" boundKeys = false) by (vm_compute; reflexivity).
  split; [exact R|]. split; [exact B|].
  exact (X12_ignored_keys specConstants png "x" false cameraOn R (or_intror B)).
Defined.

(** X13 on a sequence stopped during its pause: Escape and the reset button
    leave the pause pending. *)
Lemma X13_witness :
  isTick (mkTimeout 1000 (Reseed 3)) = false
  /\ In (mkTimeout 1000 (Reseed 3)) (timers stoppedInPause)
  /\ In (mkTimeout 1000 (Reseed 3))
        (timers (run specConstants [(png, key "Escape"); (png, ClickReset)]
                   stoppedInPause)).
Proof.
  assert (I : In (mkTimeout 1000 (Reseed 3)) (timers stoppedInPause))
    by (vm_compute; left; reflexivity).
  assert (F : Forall (fun i : Canvas * Event => snd i <> FireTimer)
                [(png, key "Escape"); (png, ClickReset)])
    by (repeat constructor; discriminate).
  split; [reflexivity|]. split; [exact I|].
  exact (X13_pause_never_cancelled specConstants
           [(png, key "Escape"); (png, ClickReset)] stoppedInPause
           (mkTimeout 1000 (Reseed 3)) eq_refl I F).
Defined.


(** X15 with the camera on and an empty strip. *)
Lemma X15_witness :
  reachable specConstants cameraOn
  /\ capturedImages (st (step specConstants png (Call HCaptureImage) cameraOn))
     = if isCameraStarted (st cameraOn)
          && negb (isMaxCaptureReached specConstants (st cameraOn))
          && context2d png
       then capturedImages (st cameraOn) ++ [dataURL png]
       else capturedImages (st cameraOn).
Proof.
  assert (R : reachable specConstants cameraOn) by apply play_reachable.
  split; [exact R|].
  exact (proj2 (proj2 (X15_captureImage_in_reachable_states specConstants png
                         cameraOn R))).
Defined.

(** X16 on Backspace during a countdown, one image on the strip. *)
Lemma X16_witness :
  reachable specConstants oneImageCountdownTwo
  /\ counting (st oneImageCountdownTwo)
  /\ (capturedImages (st (step specConstants png (key "Backspace") oneImageCountdownTwo))
      = capturedImages (st oneImageCountdownTwo)
      \/ exists x,
           capturedImages
             (st (step specConstants png (key "Backspace") oneImageCountdownTwo))
           = capturedImages (st oneImageCountdownTwo) ++ [x]).
Proof.
  assert (R : reachable specConstants oneImageCountdownTwo) by apply play_reachable.
  assert (C : counting (st oneImageCountdownTwo))
    by (right; vm_compute; discriminate).
  split; [exact R|]. split; [exact C|].
  exact (X16_strip_only_grows_while_counting specConstants png (key "Backspace")
           oneImageCountdownTwo R C).
Defined.

(** X17 on a click on the sepia button during a countdown. *)
Lemma X17_witness :
  reachable specConstants oneImageCountdownTwo
  /\ counting (st oneImageCountdownTwo)
  /\ filters (st (step specConstants png (ClickFilter "sepia") oneImageCountdownTwo))
     = filters (st oneImageCountdownTwo).
Proof.
  assert (R : reachable specConstants oneImageCountdownTwo) by apply play_reachable.
  assert (C : counting (st oneImageCountdownTwo))
    by (right; vm_compute; discriminate).
  split; [exact R|]. split; [exact C|].
  exact (proj1 (proj1 (X17_look_frozen_while_counting specConstants png
                         (ClickFilter "sepia") oneImageCountdownTwo R eq_refl
                         (or_intror C)))).
Defined.


(** X19 with one image on the strip and the component idle. *)
Lemma X19_witness :
  reachable specConstants oneImageIdle
  /\ step specConstants png (key "Backspace") oneImageIdle
     = step specConstants png ClickUndo oneImageIdle
  /\ step specConstants png (key "Escape") oneImageIdle
     = step specConstants png ClickReset oneImageIdle
  /\ step specConstants png (key "a") oneImageIdle
     = step specConstants png ClickAuto oneImageIdle.
Proof.
  assert (R : reachable specConstants oneImageIdle) by apply play_reachable.
  destruct (X19_keys_are_the_buttons specConstants png oneImageIdle R)
    as ((B & _) & (E & _) & (A & _)).
  split; [exact R|]. split; [exact B|]. split; [exact E|exact A].
Defined.

(** X20 with the camera on: the click switches auto mode on and leaves the
    listener of the first render in place. *)
Lemma X20_witness :
  reachable specConstants cameraOn
  /\ autoDisabled specConstants (st cameraOn) = false
  /\ (let m' := step specConstants png ClickAuto cameraOn in
      st m' = setIsAutoModeEnabled negb (st cameraOn)
      /\ kbd m' = kbd cameraOn
      /\ timers m' = timers cameraOn
      /\ step specConstants png ClickAuto m' = cameraOn).
Proof.
  assert (R : reachable specConstants cameraOn) by apply play_reachable.
  assert (D : autoDisabled specConstants (st cameraOn) = false)
    by (vm_compute; reflexivity).
  split; [exact R|]. split; [exact D|].
  exact (X20_auto_button_flips_flag_only specConstants png cameraOn R D).
Defined.
